(* ===== verification/_CoqProject ===== *)
-Q . S2P
Prelude.v
PyStr.v
Decode.v
Paths.v
WinPaths.v
FileSys.v
MemFS.v
Scanner.v
Checker.v
ScanBytes.v
ArgParse.v
Main.v
Protocol.v
EndToEnd.v
Footprint.v
