(* ===== verification/Prelude.v ===== *)
(** * Verification of [check_env_files.py]

    The program ([src/conda-pack/win-extended-paths/check_env_files.py]) is
    a command-line checker: given the path of a conda environment it tests
    that the path is an environment, reads the PowerShell hook script
    [shell/condabin/conda-hook.ps1] of it, and reports whether the text
    holds one of the two Windows extended-length path prefixes, [//?/] and
    [\\?\].  Its exit status is 0 when nothing was found and 1 otherwise.

    ** The parts of the program and the files that model them

    - [check_file_for_extended_paths] (the pattern scanner) and
      [get_files_to_check] (the file enumerator): [Scanner.v].  The
      definition of the same name is the function statement by statement:
      the [exists()] guard and its early return, the [try] block with
      [with open(...) as f: content = f.read()], the two substring tests
      each appending its message, and the [except Exception] handler.
      [scan_content] is the pair of tests; [conda_hook] is the one path of
      the list.
    - [check_conda_environment] (the validator and the aggregation loop):
      [Checker.v].  The three guards ([exists()], [is_dir()],
      [conda-meta] [exists()]) with their early returns, then [check_files],
      the [for] loop that extends [all_issues] with each file's issues, and
      the returned pair [(len(all_issues) == 0, all_issues)].
    - [main] and the [__main__] block: [Main.v].  [main] is
      [parse_args()], the line naming the environment, the call of the
      checker, and the two branches with their prints and return values;
      [script] is [sys.exit(main())], and [run_script] is the process: what
      the runtime makes of [SystemExit] and of an uncaught exception.
    - What the program calls and does not define is modelled as
      interfaces, each with an implementation used by the concrete runs:
      - [pathlib]: class [PurePath] in [Paths.v] ([Path()], [/], [str()]),
        with [posix_PurePath], which parses, joins and prints paths the way
        [pathlib.PurePosixPath] does, and [win_PurePath] in [WinPaths.v],
        which does it the way [pathlib.PureWindowsPath] does on top of
        [ntpath.splitroot] and [ntpath.join] ([win_splitroot], [nt_join]):
        drive letters, UNC and device drives such as [\\?\C:], both
        separators read and [\] printed;
      - the file system and the console: classes [FileSystem] and
        [FileSystemLaws] in [FileSys.v], with [mem_FileSystem] in
        [MemFS.v], a finite map from absolute paths to directories and
        files with path resolution, search and read permissions and the
        errors of the operating system, and the encoding of
        [sys.stdout] (UTF-8, ASCII or code page 1252);
      - [argparse]: class [ArgumentParser] in [ArgParse.v], with
        [one_positional], the parser of lines 95 to 101 as [argparse]
        of Python 3.12 treats it: [parse_optional] classifies a word
        (positional, the help option and its abbreviations, an unknown
        option), [consume] is the loop over the words, [parse_known_args]
        the result (a namespace, the help, or an error), and
        [one_positional_parse] prints [help_lines] or [error_lines] and
        raises [SystemExit];
      - the operator [in] on [str]: [contains] in [PyStr.v];
      - what [read()] makes of the bytes of a file opened with
        [encoding='utf-8', errors='ignore']: [text_of_bytes] in
        [Decode.v], the decoder that drops ill-formed sequences followed
        by the translation of line ends.  The files of [MemFS.v] hold
        bytes, and opening one gives that text.
    - [ScanBytes.v] relates the verdict of the scanner to the bytes of the
      file, on the in-memory file system.
    - [Protocol.v] holds the life of a file object as a state machine
      over the trace: [handle_step] is one event seen from the list of
      open files (open adds a file, read needs it open, close removes it,
      the other events leave the list alone), [handle_steps] its runs,
      [replay] the executable form of the runs and [peak] the largest
      number of files open along a trace.
    - [EndToEnd.v] puts the parts together: [process] is the script run
      with the parser [one_positional] on a file system of [MemFS.v], and
      [Clean] says of the file system alone which environments pass.
    - [Footprint.v] says what the program reads: [footprint] lists the
      paths the checker asks about, [agree_on] relates file systems that
      answer alike on them, [≡] those that answer alike everywhere, and
      [footprint_keys] lists the entries of a file system of [MemFS.v]
      that resolving these paths looks up.
    - This file, [Prelude.v], holds what they share: exceptions, outcomes,
      the monad, its control structures and the automation.

    ** How state and effects are modelled

    A Python [str] is a [string] holding the UTF-8 bytes of the text, so
    that the literals of the source are written as they are.  A statement
    is a computation [py W A := W -> outcome A * W]: from a world it gives
    either a value ([Return]) or a raised exception ([Raise]), and the
    world after it; the world survives a raise, which is what lets the
    theorems speak of files closed on an error path.  [try_except] is
    [try]/[except Exception] (it catches the classes for which
    [is_Exception] holds, so not [KeyboardInterrupt] or [SystemExit]),
    [try_finally] is the exit handler of [with], [for_each] is a [for] loop
    with its accumulator.

    The world ([World] in [FileSys.v]) holds the file system, the list of
    the files that are open, and the trace: every call of [exists()],
    [is_dir()], [open()] with whether it succeeded, [read()], the closing
    of a file and every [print] with its stream, in the order the program
    made them.  [print] to [sys.stdout] raises [UnicodeEncodeError] for a
    text the stream cannot encode and then writes nothing; [print] to
    [sys.stderr] writes every text, as the stream escapes what it cannot
    encode.  The observations [printed], [opened] and [trace_since] read
    the trace.

    ** What the theorems show

    Each program has a run lemma ([check_file_run],
    [check_conda_environment_run], [main_run]) stating that it computes a
    result and appends events which are both pure functions of the
    answers of the file system and of the console ([file_issues],
    [env_result], [main_result], [file_events], [env_events],
    [main_events]).  These functions, like the contract [CheckSpec] and
    the predicate [Clean], are specifications: they say what the code
    computes and are not translations of its lines.  The numbered
    theorems are consequences of the run lemmas and of the closure lemmas
    of this file ([preserves], [respects], [total]):
    - end to end: on a command line that names an environment path the
      process ends with status 0 on the clean environments and with
      status 1 on the others ([process_exit_status]); on every other
      command line it prints the help and ends with status 0, or prints
      the usage line and the error and ends with status 2, and asks
      nothing of the file system ([process_usage]); on a console that
      is not in UTF-8 the success line cannot be printed and the process
      ends on [UnicodeEncodeError] on a clean environment
      ([process_success_unprintable]), and a path the console cannot
      show stops the process before any check
      ([process_path_unprintable]); on a file system that makes no call
      escape and a console that shows the lines, the process always ends
      with status 0, 1 or 2 ([process_ends_with_status]);
    - the command line: [parse_args] returns a path exactly on the
      command lines [accepted] lists ([parse_args_accepts]); the help
      option wins over what is wrong elsewhere on the command line
      ([parse_known_args_help]);
    - refinement: [check_conda_environment] returns a result exactly when
      the contract [CheckSpec] relates the file system to it;
      [check_file_for_extended_paths] computes [file_issues];
    - functional behaviour on every branch: the three structural failures
      and their messages, the missing hook, the scanned hook with the two
      messages in their order, read errors turned into an issue, the
      exit code and the lines [main] prints on each stream;
    - the substring test is correct: [contains] decides [Substring];
    - order of the effects: which calls are made, in what order, and that
      a failed guard stops the sequence;
    - invariants: success is reported exactly with an empty issue list;
      the file system is never changed; every file opened is closed on
      every exit path; a second run gives the same result;
    - error paths: which exceptions are absorbed, which escape (those
      raised by [exists()] and [is_dir()], which stand outside the [try],
      and those that are not an [Exception]), and what the process does
      with them;
    - totality: on a file system whose tests do not raise and whose read
      errors are [Exception]s, the checker always returns;
    - termination and progress: [main] ends after at most 11 events on a
      command line of one argument ([main_terminates]), and a run that
      returns ends with its verdict printed ([main_reports_verdict]);
    - the protocol of file objects: the events of every run of [main] are
      a run of the machine of [Protocol.v] that ends with the files that
      were open at the start, at most one file more is ever open, and the
      script keeps the world [consistent] (its open files are those its
      trace leaves open);
    - the footprint: the checker gives the same result after the same
      calls on file systems that answer alike for the environment path,
      its [conda-meta] entry and the files to check, and every call
      names one of these paths ([check_conda_environment_footprint]);
      the process ends the same way on file systems in memory that share
      the entries these paths resolve through, so that creating,
      changing or removing any other entry changes nothing
      ([process_footprint], [process_frame]); results and events are
      [Proper] for the equivalence of file systems;
    - paths: the paths [get_files_to_check] builds are well-formed
      ([wf_posix_path]); on well-formed POSIX paths and on Windows paths
      with a drive and a root ([anchored_path]: a drive letter, a UNC
      drive or a device drive), [Path(str(p))] is [p], and the hook script of
      an environment [p] is [p] with the parts [shell], [condabin],
      [conda-hook.ps1] added, printed on Windows with backslashes only;
    - decoding round trip: a text of well-formed UTF-8 without carriage
      return is read back unchanged ([text_of_bytes_roundtrip]);
    - the scan and the bytes: a prefix that stands in the bytes of the
      file is always reported; on a well-formed UTF-8 file the verdict is
      exactly that of the bytes; a byte that is not UTF-8 inside [//?/]
      makes a report for a prefix the file does not hold, and a script in
      UTF-16 is never reported.  These rest on the theory of [Decode.v]:
      the decoder gives well-formed UTF-8, is the identity on it, keeps
      ASCII text in place, and the translation of line ends neither
      creates nor removes an occurrence of a text without line ends.
    Every theorem with a hypothesis is applied to a concrete environment
    of [MemFS.v] in a lemma named after it, evaluated by computation.

    ** Bounds and assumptions

    All recursion is structural (on the text, on the bytes, on the list of
    files, on the parts of a path): no fuel is used and every definition
    evaluates.
    The libraries are modelled as of Python 3.12 ([ntpath.splitroot],
    the loop of [argparse]).
    [print] fails only by [UnicodeEncodeError]: a closed pipe or a full
    disk is not modelled.  Closing a file does not fail: the [OSError]
    that [close()] can raise on leaving the [with] block is not
    modelled.  The file system is not changed
    by anyone else during a run.  [exists()] is the one of Python 3.8 to
    3.13: errors other than a missing entry or a file in the place of a
    directory are raised to the caller.

    ** What is not modelled

    - Encodings other than the one the source names, and reading in
      pieces: [read()] is called once, without a size, and the decoder is
      modelled by its result on the whole file.
    - A file system over Windows paths (names compared without case,
      reserved names): the components are proved for every [PurePath] and
      every [FileSystem]; the concrete runs are on POSIX paths.  The
      theorems on [win_PurePath] are for paths with a drive and a root;
      relative paths and the drive [\\?\UNC\server\share] are covered by
      examples.
    - Of [argparse]: digits other than the ASCII ones in a word that
      looks like a negative number; [repr] of characters beyond ASCII
      that cannot be printed; help text wrapped for a terminal narrower
      than 80 columns; a program name other than the file name of the
      script.
    - The exit status and the traceback of a process that ends on an
      uncaught exception; the text of [UnicodeEncodeError]; symbolic
      links; memory limits of [read()]. *)

From Stdlib Require Import String Ascii ZArith.
From stdpp Require Import base tactics option list strings.

(** * Prelude: Python outcomes, exceptions and the state-and-exception monad

    Everything the component files share: the exception classes the program
    can meet, the outcome of running a Python expression, the monad [py W]
    of computations over a world [W] which may raise, its control structures
    ([try]/[except Exception], [try]/[finally], [for ... in ...]), the
    lemmas that evaluate them, and the automation built on those lemmas. *)

Declare Scope py_scope.
Delimit Scope py_scope with py.
Open Scope py_scope.

(** ** Exceptions *)

(** The built-in exception classes that can reach this program: the
    [OSError] family raised by [open()] and [read()], [MemoryError],
    [UnicodeEncodeError] raised by [print], and the two that derive from
    [BaseException] only: [KeyboardInterrupt], and [SystemExit] with the
    exit code it carries. *)
Inductive exc_class : Type :=
| OSError
| FileNotFoundError
| PermissionError
| IsADirectoryError
| NotADirectoryError
| MemoryError
| UnicodeEncodeError
| KeyboardInterrupt
| SystemExit (code : Z).

(** [isinstance(e, Exception)]: what an [except Exception] clause catches. *)
Definition is_Exception (c : exc_class) : bool :=
  match c with
  | KeyboardInterrupt | SystemExit _ => false
  | _ => true
  end.

(** An exception object: its class and the text [str(e)] gives. *)
Record exn : Type := PyExc { exn_class : exc_class; exn_str : string }.

#[global] Instance exc_class_eq_dec : EqDecision exc_class.
Proof. solve_decision. Defined.

#[global] Instance exn_eq_dec : EqDecision exn.
Proof. solve_decision. Defined.

(** [catchable e]: [e] is caught by [except Exception]. *)
Definition catchable (e : exn) : bool := is_Exception (exn_class e).

(** ** Outcomes *)

(** Evaluating a Python expression either returns a value or raises. *)
Inductive outcome (A : Type) : Type :=
| Return (a : A)
| Raise (e : exn).

Arguments Return {A} a.
Arguments Raise {A} e.

#[global] Instance outcome_eq_dec `{EqDecision A} : EqDecision (outcome A).
Proof. solve_decision. Defined.

Definition outcome_map {A B} (f : A -> B) (r : outcome A) : outcome B :=
  match r with
  | Return a => Return (f a)
  | Raise e => Raise e
  end.

Definition returns {A} (r : outcome A) : bool :=
  match r with
  | Return _ => true
  | Raise _ => false
  end.

(** ** The monad *)

(** A computation over a world [W]: it yields an outcome and the world it
    leaves behind.  The world survives a [Raise]: what a Python statement
    did before it raised stays done. *)
Definition py (W A : Type) : Type := W -> outcome A * W.

#[global] Instance py_ret {W} : MRet (py W) := fun A a w => (Return a, w).

#[global] Instance py_bind {W} : MBind (py W) := fun A B f m w =>
  match m w with
  | (Return a, w') => f a w'
  | (Raise e, w') => (Raise e, w')
  end.

Section Control.
Context {W : Type}.

(** [raise e]. *)
Definition py_raise {A} (e : exn) : py W A := fun w => (Raise e, w).

(** [try: body  except Exception as e: handler e]: only instances of
    [Exception] are caught, a [BaseException] such as [KeyboardInterrupt]
    propagates. *)
Definition try_except {A} (body : py W A) (handler : exn -> py W A) : py W A :=
  fun w =>
    match body w with
    | (Return a, w') => (Return a, w')
    | (Raise e, w') => if catchable e then handler e w' else (Raise e, w')
    end.

(** [try: body  finally: cleanup]: the cleanup runs on every exit; an
    exception of the cleanup replaces the body's outcome. *)
Definition try_finally {A} (body : py W A) (cleanup : py W unit) : py W A :=
  fun w =>
    match body w with
    | (r, w') =>
        match cleanup w' with
        | (Return _, w'') => (r, w'')
        | (Raise e, w'') => (Raise e, w'')
        end
    end.

(** [for x in l: acc = body x acc], the loop-carried variables in [acc]. *)
Fixpoint for_each {B S} (l : list B) (body : B -> S -> py W S) (acc : S) : py W S :=
  match l with
  | [] => mret acc
  | x :: l' => acc' ← body x acc; for_each l' body acc'
  end.

(** *** Evaluation lemmas *)

Lemma run_ret {A} (a : A) (w : W) : mret (M := py W) a w = (Return a, w).
Proof. reflexivity. Qed.

Lemma run_bind {A B} (m : py W A) (f : A -> py W B) (w : W) :
  (m ≫= f) w =
  match m w with
  | (Return a, w') => f a w'
  | (Raise e, w') => (Raise e, w')
  end.
Proof. reflexivity. Qed.

Lemma run_bind_return {A B} (m : py W A) (f : A -> py W B) w a w' :
  m w = (Return a, w') -> (m ≫= f) w = f a w'.
Proof. intros H. by rewrite run_bind, H. Qed.

Lemma run_bind_raise {A B} (m : py W A) (f : A -> py W B) w e w' :
  m w = (Raise e, w') -> (m ≫= f) w = (Raise e, w').
Proof. intros H. by rewrite run_bind, H. Qed.

Lemma run_try_except_return {A} (body : py W A) handler w a w' :
  body w = (Return a, w') -> try_except body handler w = (Return a, w').
Proof. unfold try_except. by intros ->. Qed.

Lemma run_try_except_caught {A} (body : py W A) handler w e w' :
  body w = (Raise e, w') -> catchable e = true ->
  try_except body handler w = handler e w'.
Proof. unfold try_except. by intros -> ->. Qed.

Lemma run_try_except_escapes {A} (body : py W A) handler w e w' :
  body w = (Raise e, w') -> catchable e = false ->
  try_except body handler w = (Raise e, w').
Proof. unfold try_except. by intros -> ->. Qed.

(** *** Monad laws, pointwise *)

Lemma py_left_id {A B} (a : A) (f : A -> py W B) w : (mret a ≫= f) w = f a w.
Proof. reflexivity. Qed.

Lemma py_right_id {A} (m : py W A) w : (m ≫= mret) w = m w.
Proof. rewrite run_bind. by destruct (m w) as [[a|e] w']. Qed.

Lemma py_assoc {A B C} (m : py W A) (f : A -> py W B) (g : B -> py W C) w :
  ((m ≫= f) ≫= g) w = (m ≫= (fun a => f a ≫= g)) w.
Proof. rewrite !run_bind. by destruct (m w) as [[a|e] w']. Qed.

(** *** Loops *)

Lemma for_each_nil {B S} (body : B -> S -> py W S) acc w :
  for_each [] body acc w = (Return acc, w).
Proof. reflexivity. Qed.

Lemma for_each_cons {B S} x (l : list B) (body : B -> S -> py W S) acc w :
  for_each (x :: l) body acc w = (acc' ← body x acc; for_each l body acc') w.
Proof. reflexivity. Qed.

Lemma for_each_app {B S} (l1 l2 : list B) (body : B -> S -> py W S) acc w :
  for_each (l1 ++ l2) body acc w =
  (acc' ← for_each l1 body acc; for_each l2 body acc') w.
Proof.
  revert acc w. induction l1 as [|x l1 IH]; intros acc w; [done|].
  change (for_each (x :: l1) body acc)
    with (body x acc ≫= fun a => for_each l1 body a).
  rewrite py_assoc. simpl app. rewrite for_each_cons, !(run_bind (body x acc)).
  destruct (body x acc w) as [[a|e] w']; [apply IH|done].
Qed.

(** *** Relations every step maintains

    [preserves R c]: the world [c] leaves is [R]-related to the one it
    started in, whatever the outcome.  For a preorder [R] the property is
    closed under every control structure above, so it is proved once per
    primitive and holds of every program built from them. *)
Definition preserves {A} (R : relation W) (c : py W A) : Prop :=
  forall w, R w (c w).2.


Section Preserves.
Context (R : relation W) `{!PreOrder R}.

Lemma preserves_ret {A} (a : A) : preserves R (mret a).
Proof. intros w. simpl. reflexivity. Qed.

Lemma preserves_raise {A} e : preserves R (py_raise (A := A) e).
Proof. intros w. simpl. reflexivity. Qed.

Lemma preserves_bind {A B} (m : py W A) (f : A -> py W B) :
  preserves R m -> (forall a, preserves R (f a)) -> preserves R (m ≫= f).
Proof.
  intros Hm Hf w. rewrite run_bind. specialize (Hm w).
  destruct (m w) as [[a|e] w']; simpl in *; [|done].
  etrans; [exact Hm|apply Hf].
Qed.

Lemma preserves_try_except {A} (body : py W A) handler :
  preserves R body -> (forall e, preserves R (handler e)) ->
  preserves R (try_except body handler).
Proof.
  intros Hb Hh w. unfold try_except. specialize (Hb w).
  destruct (body w) as [[a|e] w']; simpl in *; [done|].
  destruct (catchable e); [|done]. etrans; [exact Hb|apply Hh].
Qed.

Lemma preserves_try_finally {A} (body : py W A) cleanup :
  preserves R body -> preserves R cleanup ->
  preserves R (try_finally body cleanup).
Proof.
  intros Hb Hc w. unfold try_finally. specialize (Hb w).
  destruct (body w) as [r w']. specialize (Hc w').
  destruct (cleanup w') as [[[]|e] w'']; simpl in *; by etrans.
Qed.

Lemma preserves_for_each {B S} (l : list B) (body : B -> S -> py W S) acc :
  (forall x a, preserves R (body x a)) -> preserves R (for_each l body acc).
Proof.
  intros Hb. revert acc. induction l as [|x l IH]; intros acc.
  - apply preserves_ret.
  - apply preserves_bind; [apply Hb|apply IH].
Qed.

End Preserves.

(** [respects view c]: the outcome of [c], and the [view] of the world it
    leaves, are functions of the [view] of the world it starts in.  With
    [view] the file system, this says that [c] reads nothing else. *)
Definition respects {V A} (view : W -> V) (c : py W A) : Prop :=
  forall w1 w2, view w1 = view w2 ->
    (c w1).1 = (c w2).1 /\ view (c w1).2 = view (c w2).2.

Section Respects.
Context {V : Type} (view : W -> V).

Lemma respects_ret {A} (a : A) : respects view (mret a).
Proof. by intros w1 w2 H. Qed.

Lemma respects_bind {A B} (m : py W A) (f : A -> py W B) :
  respects view m -> (forall a, respects view (f a)) -> respects view (m ≫= f).
Proof.
  intros Hm Hf w1 w2 H. rewrite !run_bind. destruct (Hm w1 w2 H) as [H1 H2].
  destruct (m w1) as [r1 w1'], (m w2) as [r2 w2']. simpl in *. subst r2.
  destruct r1 as [a|e]; [by apply Hf|done].
Qed.

Lemma respects_try_except {A} (body : py W A) handler :
  respects view body -> (forall e, respects view (handler e)) ->
  respects view (try_except body handler).
Proof.
  intros Hb Hh w1 w2 H. unfold try_except. destruct (Hb w1 w2 H) as [H1 H2].
  destruct (body w1) as [r1 w1'], (body w2) as [r2 w2']. simpl in *. subst r2.
  destruct r1 as [a|e]; [done|]. destruct (catchable e); [by apply Hh|done].
Qed.

Lemma respects_try_finally {A} (body : py W A) cleanup :
  respects view body -> respects view cleanup ->
  respects view (try_finally body cleanup).
Proof.
  intros Hb Hc w1 w2 H. unfold try_finally. destruct (Hb w1 w2 H) as [H1 H2].
  destruct (body w1) as [r1 w1'], (body w2) as [r2 w2']. simpl in *. subst r2.
  destruct (Hc w1' w2' H2) as [H3 H4].
  destruct (cleanup w1') as [c1 w1''], (cleanup w2') as [c2 w2'']. simpl in *.
  subst c2. by destruct c1.
Qed.

Lemma respects_for_each {B S} (l : list B) (body : B -> S -> py W S) acc :
  (forall x a, respects view (body x a)) -> respects view (for_each l body acc).
Proof.
  intros Hb. revert acc. induction l as [|x l IH]; intros acc.
  - apply respects_ret.
  - apply respects_bind; [apply Hb|apply IH].
Qed.

(** A computation that respects a view it leaves unchanged gives the same
    outcome when it is run again. *)
Lemma rerun_same {A} (c : py W A) (w : W) :
  respects view c -> view (c w).2 = view w -> (c (c w).2).1 = (c w).1.
Proof. intros Hr Hv. by destruct (Hr (c w).2 w Hv). Qed.

End Respects.

(** A computation that never raises. *)
Definition total {A} (c : py W A) : Prop :=
  forall w, returns (c w).1 = true.

Lemma total_ret {A} (a : A) : total (mret a).
Proof. by intros w. Qed.

Lemma total_bind {A B} (m : py W A) (f : A -> py W B) :
  total m -> (forall a, total (f a)) -> total (m ≫= f).
Proof.
  intros Hm Hf w. rewrite run_bind. specialize (Hm w).
  destruct (m w) as [[a|e] w']; [apply Hf|done].
Qed.

Lemma total_for_each {B S} (l : list B) (body : B -> S -> py W S) acc :
  (forall x a, total (body x a)) -> total (for_each l body acc).
Proof.
  intros Hb. revert acc. induction l as [|x l IH]; intros acc.
  - apply total_ret.
  - apply total_bind; [apply Hb|apply IH].
Qed.

End Control.

(** ** Automation *)

Create HintDb py discriminated.
Create Rewrite HintDb py.
Create Rewrite HintDb pystr.

#[export] Hint Resolve preserves_ret preserves_raise preserves_bind preserves_try_except preserves_try_finally
  preserves_for_each total_ret total_bind total_for_each
  respects_ret respects_bind respects_try_except respects_try_finally
  respects_for_each : py.

#[export] Hint Rewrite @run_ret @run_bind @for_each_nil @for_each_cons : py.

(** The branches of a conditional and the components of a pair are
    handled by cases. *)
#[export] Hint Extern 2 (preserves _ (if ?b then _ else _)) => destruct b : py.
#[export] Hint Extern 2 (respects _ (if ?b then _ else _)) => destruct b : py.
#[export] Hint Extern 2 (total (if ?b then _ else _)) => destruct b : py.
#[export] Hint Extern 2 (preserves _ (let '(_, _) := ?x in _)) => destruct x : py.
#[export] Hint Extern 2 (respects _ (let '(_, _) := ?x in _)) => destruct x : py.
#[export] Hint Extern 2 (total (let '(_, _) := ?x in _)) => destruct x : py.
#[export] Hint Extern 1 (PreOrder _) => apply _ : py.

(** [py_auto]: prove that a program built from the control structures
    maintains a relation, reads only a view of the world, or never raises,
    from the same facts about the primitives it calls. *)
Ltac py_auto := intros; eauto 30 with py.

(** ** Shared facts on strings and lists *)

Lemma string_app_nil_l (s : string) : "" +:+ s = s.
Proof. reflexivity. Qed.

Lemma string_app_cons (a : ascii) (s1 s2 : string) :
  String a s1 +:+ s2 = String a (s1 +:+ s2).
Proof. reflexivity. Qed.

Lemma string_app_assoc (s1 s2 s3 : string) :
  (s1 +:+ s2) +:+ s3 = s1 +:+ (s2 +:+ s3).
Proof.
  induction s1 as [|a s1 IH]; [done|]. by rewrite !string_app_cons, IH.
Qed.

Lemma string_app_nil_r (s : string) : s +:+ "" = s.
Proof. induction s as [|a s IH]; [done|]. by rewrite string_app_cons, IH. Qed.

Lemma string_app_length (s1 s2 : string) :
  String.length (s1 +:+ s2) = String.length s1 + String.length s2.
Proof.
  induction s1 as [|a s1 IH]; [done|]. rewrite string_app_cons. simpl.
  by rewrite IH.
Qed.

Lemma string_app_inv_head (s s1 s2 : string) : s +:+ s1 = s +:+ s2 -> s1 = s2.
Proof.
  induction s as [|a s IH]; [done|]. rewrite !string_app_cons. intros [=]. auto.
Qed.

#[export] Hint Rewrite string_app_nil_l string_app_cons string_app_assoc
  string_app_nil_r string_app_length : pystr.

Lemma length_zero_iff_nil_b {A} (l : list A) :
  (length l =? 0)%nat = true <-> l = [].
Proof. destruct l; simpl; split; done. Qed.
