(* ===== verification/PyStr.v ===== *)
(** * PyStr: the operations on Python [str] the checker uses

    A Python [str] is modelled as a [string] holding the UTF-8 encoding of
    the text, so that the literals of the source can be written as they are.
    The checker tests text with the operator [in] ([contains]) and builds
    its messages with f-strings (concatenation, [+:+]).  [contains] is the
    executable scan; [Substring] is what it decides.  Searching the bytes
    of the encoding finds what searching the characters finds: the needles
    of the source are ASCII, and no byte of a longer UTF-8 sequence is.
    The slices and tests the models of the libraries are written with
    ([skip], [nth_is], [last_is], [split_once]) are here too. *)

From Stdlib Require Import String Ascii.
From stdpp Require Import base tactics option list strings.
From S2P Require Import Prelude.

(** ** The operator [in] *)

(** [needle in s] at the start of [s]: [s.startswith(needle)]. *)
Definition startswith (s needle : string) : bool := String.prefix needle s.

(** [needle in s]: some position of [s] starts with [needle].  The empty
    needle is found in every string, the empty one included. *)
Fixpoint contains (needle s : string) : bool :=
  startswith s needle ||
  match s with
  | EmptyString => false
  | String _ s' => contains needle s'
  end.

(** [c in s] for one character. *)
Fixpoint has_char (c : ascii) (s : string) : bool :=
  match s with
  | EmptyString => false
  | String a s' => bool_decide (a = c) || has_char c s'
  end.

(** ** Slices and tests *)

(** [s[n:]] *)
Fixpoint skip (n : nat) (s : string) : string :=
  match n, s with
  | S n', String _ s' => skip n' s'
  | _, _ => s
  end.

(** [s[n:n+1] == c] *)
Definition nth_is (n : nat) (c : ascii) (s : string) : bool :=
  match String.get n s with
  | Some a => bool_decide (a = c)
  | None => false
  end.

(** [not s] *)
Definition is_empty (s : string) : bool := bool_decide (s = "").

(** [s[-1:] == c] *)
Fixpoint last_is (c : ascii) (s : string) : bool :=
  match s with
  | EmptyString => false
  | String a EmptyString => bool_decide (a = c)
  | String _ s' => last_is c s'
  end.

(** [s.split(c, 1)] when [c in s]: what stands before the first [c] and
    what stands after it. *)
Fixpoint split_once (c : ascii) (s : string) : option (string * string) :=
  match s with
  | EmptyString => None
  | String a s' =>
      if bool_decide (a = c) then Some (EmptyString, s')
      else prod_map (String a) id <$> split_once c s'
  end.

(** What [in] means: [needle] occurs in [s] as a contiguous block. *)
Definition Substring (needle s : string) : Prop :=
  exists l r, s = l +:+ needle +:+ r.

(** ** [startswith] *)

Lemma startswith_nil (s : string) : startswith s "" = true.
Proof. by destruct s. Qed.

Lemma startswith_cons (a b : ascii) (s needle : string) :
  startswith (String b s) (String a needle) =
  bool_decide (a = b) && startswith s needle.
Proof.
  unfold startswith. simpl. destruct (ascii_dec a b) as [->|Hne].
  - by rewrite bool_decide_eq_true_2.
  - by rewrite bool_decide_eq_false_2.
Qed.

Lemma startswith_empty_cons (a : ascii) (needle : string) :
  startswith "" (String a needle) = false.
Proof. reflexivity. Qed.

Lemma startswith_spec (s needle : string) :
  startswith s needle = true <-> exists r, s = needle +:+ r.
Proof.
  revert s. induction needle as [|a needle IH]; intros s.
  - rewrite startswith_nil. split; [by exists s|done].
  - destruct s as [|b s].
    + rewrite startswith_empty_cons. split; [done|by intros [r [=]]].
    + rewrite startswith_cons, andb_true_iff, bool_decide_eq_true, IH.
      split.
      * intros [-> [r ->]]. by exists r.
      * intros [r [= -> ->]]. eauto.
Qed.

Lemma startswith_app (needle r : string) : startswith (needle +:+ r) needle = true.
Proof. apply startswith_spec. eauto. Qed.

Lemma startswith_length (s needle : string) :
  startswith s needle = true -> String.length needle <= String.length s.
Proof.
  intros [r ->]%startswith_spec. rewrite string_app_length. lia.
Qed.

(** ** [contains] decides [Substring] *)

Lemma contains_unfold (needle s : string) :
  contains needle s =
  startswith s needle ||
  match s with
  | EmptyString => false
  | String _ s' => contains needle s'
  end.
Proof. by destruct s. Qed.

Lemma Substring_nil (needle : string) : Substring needle "" <-> needle = "".
Proof.
  split.
  - intros (l & r & H). destruct l; [|done]. by destruct needle.
  - intros ->. by exists "", "".
Qed.

Lemma Substring_cons (needle : string) (a : ascii) (s : string) :
  Substring needle (String a s) <->
  (exists r, String a s = needle +:+ r) \/ Substring needle s.
Proof.
  split.
  - intros (l & r & H). destruct l as [|b l].
    + left. by exists r.
    + right. rewrite string_app_cons in H. injection H as _ ->. by exists l, r.
  - intros [[r H]|(l & r & ->)].
    + by exists "", r.
    + exists (String a l), r. by rewrite string_app_cons.
Qed.

Lemma contains_spec (needle s : string) :
  contains needle s = true <-> Substring needle s.
Proof.
  induction s as [|a s IH]; rewrite contains_unfold, orb_true_iff.
  - rewrite Substring_nil, startswith_spec. split.
    + intros [[r H]|?]; [|done]. by destruct needle.
    + intros ->. left. by exists "".
  - by rewrite Substring_cons, IH, startswith_spec.
Qed.

Lemma contains_false (needle s : string) :
  contains needle s = false <-> ~ Substring needle s.
Proof. rewrite <- contains_spec. by destruct (contains needle s). Qed.

#[global] Instance Substring_dec (needle s : string) : Decision (Substring needle s).
Proof.
  refine (cast_if (decide (contains needle s = true))); by rewrite <- contains_spec.
Defined.

Lemma contains_decide (needle s : string) :
  contains needle s = bool_decide (Substring needle s).
Proof.
  destruct (contains needle s) eqn:E; symmetry.
  - by apply bool_decide_eq_true, contains_spec.
  - by apply bool_decide_eq_false, contains_false.
Qed.

Lemma Substring_infix (l s r : string) : Substring s (l +:+ s +:+ r).
Proof. by exists l, r. Qed.

Lemma Substring_suffix (l s : string) : Substring s (l +:+ s).
Proof. exists l, "". by rewrite string_app_nil_r. Qed.

Lemma Substring_prefix (s r : string) : Substring s (s +:+ r).
Proof. by exists "", r. Qed.

(** ** Consequences *)

Lemma contains_empty_needle (s : string) : contains "" s = true.
Proof. rewrite contains_unfold. by rewrite startswith_nil. Qed.

Lemma contains_refl (s : string) : contains s s = true.
Proof. apply contains_spec. exists "", "". by rewrite string_app_nil_r. Qed.

Lemma contains_app (needle l s r : string) :
  contains needle s = true -> contains needle (l +:+ s +:+ r) = true.
Proof.
  rewrite !contains_spec. intros (l' & r' & ->). exists (l +:+ l'), (r' +:+ r).
  by rewrite !string_app_assoc.
Qed.

Lemma contains_trans (s1 s2 s3 : string) :
  contains s1 s2 = true -> contains s2 s3 = true -> contains s1 s3 = true.
Proof.
  rewrite (contains_spec s2 s3). intros H (l & r & ->). by apply contains_app.
Qed.

Lemma contains_length (needle s : string) :
  contains needle s = true -> String.length needle <= String.length s.
Proof.
  intros (l & r & ->)%contains_spec. rewrite !string_app_length. lia.
Qed.

Lemma contains_too_short (needle s : string) :
  String.length s < String.length needle -> contains needle s = false.
Proof.
  intros Hlt. apply not_true_is_false. intros H%contains_length. lia.
Qed.

(** ** The operator, as one statement *)

(** C10: the operator [in] on strings, as [contains] computes it, answers
    [True] exactly for the strings in which the needle occurs as a
    contiguous block: a positive answer comes with the text before and
    after an occurrence, a negative one excludes every decomposition. *)
Theorem contains_correct (needle s : string) :
  (contains needle s = true -> exists l r, s = l +:+ needle +:+ r) /\
  (contains needle s = false -> forall l r, s <> l +:+ needle +:+ r).
Proof.
  split.
  - by intros H%contains_spec.
  - intros H%contains_false l r ->. apply H. by exists l, r.
Qed.

Lemma contains_correct_witness :
  (exists l r, "cd //?/C:/env" = l +:+ "//?/" +:+ r) /\
  (forall l r, "cd C:/env" <> l +:+ "\\?\" +:+ r).
Proof.
  split.
  - apply (contains_correct "//?/" "cd //?/C:/env"). reflexivity.
  - apply (contains_correct "\\?\" "cd C:/env"). reflexivity.
Defined.

(** ** Concrete checks on the two prefixes of the source *)

Example contains_fwd_example : contains "//?/" "$Env:X = '//?/C:/env'" = true.
Proof. reflexivity. Qed.

Example contains_back_example : contains "\\?\" "cd \\?\C:\env" = true.
Proof. reflexivity. Qed.

Example contains_near_miss : contains "//?/" "//? /" = false.
Proof. reflexivity. Qed.
