(* ===== verification/Decode.v ===== *)
(** * Decode: what [read()] makes of the bytes of a file

    The scanner opens the hook script with [encoding='utf-8'],
    [errors='ignore'] and the default newline mode, so the text it tests is
    not the bytes of the file: byte sequences that are not well-formed
    UTF-8 are dropped, and the line ends [\r\n] and [\r] become [\n].
    This file models the two steps on bytes ([list byte]) and text
    ([string], holding the UTF-8 bytes of the text), and proves what the
    scanner needs of them: well-formed input is kept as it is, ASCII text
    survives in place whatever surrounds it, and the translation of line
    ends neither creates nor removes an occurrence of a needle that holds
    no line end. *)

From Stdlib Require Import String Ascii NArith Lia.
From Stdlib.Strings Require Import Byte.
From stdpp Require Import base tactics option list strings.
From S2P Require Import Prelude PyStr.

(** ** Well-formed UTF-8 *)

(** [lo <= b <= hi] *)
Definition byte_in (lo hi : N) (b : byte) : bool :=
  ((lo <=? Byte.to_N b) && (Byte.to_N b <=? hi))%N.

(** A byte that encodes a character by itself. *)
Definition is_ascii_byte (b : byte) : bool := (Byte.to_N b <? 0x80)%N.

(** For the first byte of a longer sequence: how many bytes follow it, and
    the range the first of them lies in (the others lie in 80..BF).  The
    ranges exclude overlong forms, surrogates and code points above
    U+10FFFF. *)
Definition lead (b : byte) : option (nat * (N * N)) :=
  let n := Byte.to_N b in
  if (n <? 0xC2)%N then None
  else if (n <=? 0xDF)%N then Some (1, (0x80, 0xBF)%N)
  else if (n =? 0xE0)%N then Some (2, (0xA0, 0xBF)%N)
  else if (n =? 0xED)%N then Some (2, (0x80, 0x9F)%N)
  else if (n <=? 0xEF)%N then Some (2, (0x80, 0xBF)%N)
  else if (n =? 0xF0)%N then Some (3, (0x90, 0xBF)%N)
  else if (n <=? 0xF3)%N then Some (3, (0x80, 0xBF)%N)
  else if (n =? 0xF4)%N then Some (3, (0x80, 0x8F)%N)
  else None.

(** [l] starts with [n] continuation bytes, the first of them in
    [lo..hi]. *)
Fixpoint continues (n : nat) (lo hi : N) (l : list byte) : bool :=
  match n with
  | 0 => true
  | S n' =>
      match l with
      | b :: l' => byte_in lo hi b && continues n' 0x80 0xBF l'
      | [] => false
      end
  end.

(** The length of the well-formed sequence [l] starts with, if it starts
    with one. *)
Definition sequence_length (l : list byte) : option nat :=
  match l with
  | [] => None
  | b :: l' =>
      if is_ascii_byte b then Some 1
      else match lead b with
           | Some (n, (lo, hi)) => if continues n lo hi l' then Some (S n) else None
           | None => None
           end
  end.

(** ** Decoding with [errors='ignore'] *)

(** The bytes that decoding keeps: [keep] counts the bytes still to copy
    of the sequence being read; a byte that starts no well-formed sequence
    is dropped and decoding resumes at the next byte. *)
Fixpoint ignore_errors (keep : nat) (l : list byte) : list byte :=
  match l with
  | [] => []
  | b :: l' =>
      match keep with
      | S k => b :: ignore_errors k l'
      | 0 =>
          match sequence_length l with
          | Some n => b :: ignore_errors (pred n) l'
          | None => ignore_errors 0 l'
          end
      end
  end.

Definition utf8_ignore (l : list byte) : list byte := ignore_errors 0 l.

(** [bytes.decode('utf-8', errors='ignore')], as the UTF-8 bytes of the
    text it gives. *)
Definition decode (l : list byte) : string := string_of_list_byte (utf8_ignore l).

(** ** Universal newlines *)

Definition CR : ascii := "013"%char.
Definition LF : ascii := "010"%char.

(** The translation done on reading: [pendingcr] says that the character
    before was a [\r], already given as [\n]. *)
Fixpoint translate_newlines (pendingcr : bool) (s : string) : string :=
  match s with
  | EmptyString => EmptyString
  | String c s' =>
      if decide (c = CR) then String LF (translate_newlines true s')
      else if decide (c = LF) then
        if pendingcr then translate_newlines false s'
        else String LF (translate_newlines false s')
      else String c (translate_newlines false s')
  end.

Definition universal_newlines (s : string) : string := translate_newlines false s.

(** What [f.read()] returns for a file opened as the scanner opens it,
    from the bytes of the file. *)
Definition text_of_bytes (l : list byte) : string := universal_newlines (decode l).

(** ** Bytes and text *)

(** [needle] occurs in [l] as a contiguous block. *)
Definition Infix (needle l : list byte) : Prop :=
  exists a b, l = a ++ needle ++ b.

(** The only well-formed lists: sequences one after the other. *)
Inductive well_formed : list byte -> Prop :=
| wf_nil : well_formed []
| wf_seq (u l : list byte) :
    sequence_length u = Some (length u) -> well_formed l -> well_formed (u ++ l).

(** A list that continues no sequence: empty, or starting with an ASCII
    byte. *)
Definition fresh (l : list byte) : Prop :=
  match l with
  | [] => True
  | b :: _ => is_ascii_byte b = true
  end.

(** A text without line ends. *)
Fixpoint one_line (s : string) : bool :=
  match s with
  | EmptyString => true
  | String c s' => negb (bool_decide (c = CR)) && negb (bool_decide (c = LF)) && one_line s'
  end.

(** A text of ASCII characters only. *)
Definition ascii_text (s : string) : bool :=
  forallb is_ascii_byte (list_byte_of_string s).

(** ** Conversions *)

Lemma string_of_list_byte_cons (x : byte) (a : list byte) :
  string_of_list_byte (x :: a) = String (ascii_of_byte x) (string_of_list_byte a).
Proof. reflexivity. Qed.

Lemma list_byte_of_string_cons (c : ascii) (s : string) :
  list_byte_of_string (String c s) = byte_of_ascii c :: list_byte_of_string s.
Proof. reflexivity. Qed.

Lemma string_of_list_byte_app (a b : list byte) :
  string_of_list_byte (a ++ b) = string_of_list_byte a +:+ string_of_list_byte b.
Proof.
  induction a as [|x a IH]; [done|].
  change ((x :: a) ++ b) with (x :: (a ++ b)).
  by rewrite !string_of_list_byte_cons, string_app_cons, IH.
Qed.

Lemma list_byte_of_string_app (s t : string) :
  list_byte_of_string (s +:+ t) = list_byte_of_string s ++ list_byte_of_string t.
Proof.
  induction s as [|c s IH]; [done|].
  rewrite string_app_cons, !list_byte_of_string_cons, IH. done.
Qed.

Lemma Infix_Substring (needle l : list byte) :
  Infix needle l -> Substring (string_of_list_byte needle) (string_of_list_byte l).
Proof.
  intros (a & b & ->). exists (string_of_list_byte a), (string_of_list_byte b).
  by rewrite !string_of_list_byte_app.
Qed.

Lemma Substring_Infix (needle s : string) :
  Substring needle s -> Infix (list_byte_of_string needle) (list_byte_of_string s).
Proof.
  intros (a & b & ->). exists (list_byte_of_string a), (list_byte_of_string b).
  by rewrite !list_byte_of_string_app.
Qed.

Lemma Infix_iff_Substring (needle l : list byte) :
  Infix needle l <-> Substring (string_of_list_byte needle) (string_of_list_byte l).
Proof.
  split; [apply Infix_Substring|]. intros H%Substring_Infix.
  by rewrite !list_byte_of_string_of_list_byte in H.
Qed.

#[global] Instance Infix_dec (needle l : list byte) : Decision (Infix needle l).
Proof.
  refine (cast_if (decide (Substring (string_of_list_byte needle)
                                     (string_of_list_byte l))));
    by rewrite Infix_iff_Substring.
Defined.

(** ** Sequences *)

Lemma ascii_not_in (lo hi : N) (b : byte) :
  (0x80 <= lo)%N -> is_ascii_byte b = true -> byte_in lo hi b = false.
Proof.
  unfold is_ascii_byte, byte_in. intros Hlo Hb%N.ltb_lt.
  apply andb_false_iff. left. apply N.leb_gt. lia.
Qed.

Lemma lead_range (b : byte) (n : nat) (lo hi : N) :
  lead b = Some (n, (lo, hi)) -> (0x80 <= lo)%N /\ 1 <= n.
Proof.
  unfold lead. repeat case_match; intros [= <- <- <-]; split; lia.
Qed.

Lemma continues_length (n : nat) (lo hi : N) (l : list byte) :
  continues n lo hi l = true -> n <= length l.
Proof.
  revert lo hi l. induction n as [|n IH]; intros lo hi [|b l]; simpl; try done; [lia|].
  intros [_ H%IH]%andb_true_iff. lia.
Qed.

(** A sequence is decided by its own bytes. *)
Lemma continues_take (n : nat) (lo hi : N) (l r : list byte) :
  continues n lo hi l = true -> continues n lo hi (take n l ++ r) = true.
Proof.
  revert lo hi l. induction n as [|n IH]; intros lo hi [|b l]; simpl; try done.
  intros [-> H]%andb_true_iff. by apply IH.
Qed.

(** It does not reach into what follows when that is fresh. *)
Lemma continues_fresh (n : nat) (lo hi : N) (l r : list byte) :
  (0x80 <= lo)%N -> fresh r -> continues n lo hi (l ++ r) = continues n lo hi l.
Proof.
  intros Hlo Hr. revert lo hi Hlo l.
  induction n as [|n IH]; intros lo hi Hlo [|b l]; simpl; try done.
  - destruct r as [|b r]; [done|]. simpl in Hr. by rewrite ascii_not_in.
  - by rewrite IH.
Qed.

Lemma sequence_length_bound (l : list byte) (n : nat) :
  sequence_length l = Some n -> 1 <= n <= length l.
Proof.
  destruct l as [|b l]; simpl; [done|].
  destruct (is_ascii_byte b); [intros [= <-]; lia|].
  destruct (lead b) as [[k [lo hi]]|]; [|done].
  destruct (continues k lo hi l) eqn:E; [|done].
  intros [= <-]. apply continues_length in E. lia.
Qed.

Lemma sequence_length_ascii (b : byte) (l : list byte) :
  is_ascii_byte b = true -> sequence_length (b :: l) = Some 1.
Proof. simpl. by intros ->. Qed.

Lemma sequence_length_take (l r : list byte) (n : nat) :
  sequence_length l = Some n -> sequence_length (take n l ++ r) = Some n.
Proof.
  destruct l as [|b l]; simpl; [done|].
  destruct (is_ascii_byte b) eqn:Hb; [intros [= <-]; simpl; by rewrite Hb|].
  destruct (lead b) as [[k [lo hi]]|] eqn:Hl; [|done].
  destruct (continues k lo hi l) eqn:E; [|done].
  intros [= <-]. simpl. by rewrite Hb, Hl, continues_take.
Qed.

Lemma sequence_length_fresh (l r : list byte) :
  l <> [] -> fresh r -> sequence_length (l ++ r) = sequence_length l.
Proof.
  destruct l as [|b l]; [done|]. intros _ Hr. simpl.
  destruct (is_ascii_byte b); [done|].
  destruct (lead b) as [[k [lo hi]]|] eqn:Hl; [|done].
  apply lead_range in Hl as [Hlo _]. by rewrite continues_fresh.
Qed.

(** ** The decoder *)

Lemma ignore_errors_keep (k : nat) (l : list byte) :
  ignore_errors k l = take k l ++ ignore_errors 0 (drop k l).
Proof.
  revert k. induction l as [|b l IH]; intros [|k]; try done.
  simpl. by rewrite IH.
Qed.

(** The decoder, one sequence at a time. *)
Lemma utf8_ignore_cons (b : byte) (l : list byte) :
  utf8_ignore (b :: l) =
  match sequence_length (b :: l) with
  | Some n => take n (b :: l) ++ utf8_ignore (drop n (b :: l))
  | None => utf8_ignore l
  end.
Proof.
  unfold utf8_ignore. cbn [ignore_errors].
  destruct (sequence_length (b :: l)) as [n|] eqn:E; [|done].
  apply sequence_length_bound in E as [Hn _]. destruct n as [|n]; [lia|].
  simpl. by rewrite ignore_errors_keep.
Qed.

Lemma utf8_ignore_nil : utf8_ignore [] = [].
Proof. reflexivity. Qed.

(** A well-formed sequence is copied, and decoding goes on after it. *)
Lemma utf8_ignore_sequence (u r : list byte) :
  sequence_length u = Some (length u) -> utf8_ignore (u ++ r) = u ++ utf8_ignore r.
Proof.
  intros Hu. pose proof (sequence_length_take u r _ Hu) as H.
  rewrite firstn_all in H. destruct u as [|b u]; [done|].
  change ((b :: u) ++ r) with (b :: (u ++ r)) in *.
  rewrite utf8_ignore_cons, H.
  change (b :: (u ++ r)) with ((b :: u) ++ r).
  by rewrite take_app_length, drop_app_length.
Qed.

Lemma utf8_ignore_ascii_cons (b : byte) (l : list byte) :
  is_ascii_byte b = true -> utf8_ignore (b :: l) = b :: utf8_ignore l.
Proof.
  intros Hb. apply (utf8_ignore_sequence [b] l). by apply sequence_length_ascii.
Qed.

(** Decoding what stands before fresh bytes does not depend on them. *)
Lemma ignore_errors_fresh (k : nat) (l r : list byte) :
  fresh r -> k <= length l ->
  ignore_errors k (l ++ r) = ignore_errors k l ++ ignore_errors 0 r.
Proof.
  intros Hr. revert k. induction l as [|b l IH]; intros k Hk.
  - by replace k with 0 by (simpl in Hk; lia).
  - simpl in Hk. destruct k as [|k]; [|simpl; rewrite IH by lia; done].
    change ((b :: l) ++ r) with (b :: (l ++ r)). cbn [ignore_errors].
    change (b :: (l ++ r)) with ((b :: l) ++ r).
    rewrite sequence_length_fresh by done.
    destruct (sequence_length (b :: l)) as [n|] eqn:E.
    + apply sequence_length_bound in E. simpl in E.
      simpl. rewrite IH by lia. done.
    + apply IH. lia.
Qed.

Lemma utf8_ignore_fresh (l r : list byte) :
  fresh r -> utf8_ignore (l ++ r) = utf8_ignore l ++ utf8_ignore r.
Proof. intros Hr. apply ignore_errors_fresh; [done|lia]. Qed.

Lemma utf8_ignore_ascii (l : list byte) :
  Forall (fun b => is_ascii_byte b = true) l -> utf8_ignore l = l.
Proof.
  induction 1 as [|b l Hb _ IH]; [done|]. by rewrite utf8_ignore_ascii_cons, IH.
Qed.

Lemma utf8_ignore_ascii_app (needle r : list byte) :
  Forall (fun b => is_ascii_byte b = true) needle ->
  utf8_ignore (needle ++ r) = needle ++ utf8_ignore r.
Proof.
  induction 1 as [|b l Hb _ IH]; [done|].
  simpl. by rewrite utf8_ignore_ascii_cons, IH.
Qed.

(** ASCII text is kept in place, whatever bytes stand around it. *)
Lemma utf8_ignore_keeps_ascii (l needle r : list byte) :
  needle <> [] -> Forall (fun b => is_ascii_byte b = true) needle ->
  utf8_ignore (l ++ needle ++ r) = utf8_ignore l ++ needle ++ utf8_ignore r.
Proof.
  intros Hne Hn. rewrite utf8_ignore_fresh, utf8_ignore_ascii_app; [done..|].
  destruct Hn; [done|]. done.
Qed.

Lemma well_formed_utf8_ignore (l : list byte) : well_formed l -> utf8_ignore l = l.
Proof.
  induction 1 as [|u l Hu _ IH]; [done|]. by rewrite utf8_ignore_sequence, IH.
Qed.

(** What decoding gives is well-formed. *)
Lemma utf8_ignore_well_formed_fuel (n : nat) (l : list byte) :
  length l <= n -> well_formed (utf8_ignore l).
Proof.
  revert l. induction n as [|n IH]; intros [|b l] Hn; simpl in Hn;
    try apply wf_nil; [lia|].
  rewrite utf8_ignore_cons. destruct (sequence_length (b :: l)) as [k|] eqn:E.
  - pose proof (sequence_length_bound _ _ E) as [Hk1 Hk2].
    apply wf_seq.
    + rewrite length_take_le by done.
      rewrite <- (app_nil_r (take k (b :: l))). by apply sequence_length_take.
    + apply IH. rewrite length_drop. simpl in *. lia.
  - apply IH. lia.
Qed.

Lemma utf8_ignore_well_formed (l : list byte) : well_formed (utf8_ignore l).
Proof. by apply (utf8_ignore_well_formed_fuel (length l)). Qed.

(** A byte outside ASCII that stands before an ASCII byte starts no
    sequence, so decoding drops it and joins what stood around it. *)
Lemma sequence_length_stray (b c : byte) (r : list byte) :
  is_ascii_byte b = false -> is_ascii_byte c = true ->
  sequence_length (b :: c :: r) = None.
Proof.
  intros Hb Hc. simpl. rewrite Hb.
  destruct (lead b) as [[n [lo hi]]|] eqn:Hl; [|done].
  apply lead_range in Hl as [Hlo Hn]. destruct n as [|n]; [lia|].
  simpl. by rewrite ascii_not_in.
Qed.

Lemma utf8_ignore_stray (l : list byte) (b c : byte) (r : list byte) :
  Forall (fun b => is_ascii_byte b = true) l ->
  is_ascii_byte b = false -> is_ascii_byte c = true ->
  utf8_ignore (l ++ b :: c :: r) = l ++ utf8_ignore (c :: r).
Proof.
  intros Hl Hb Hc.
  by rewrite utf8_ignore_ascii_app, utf8_ignore_cons, sequence_length_stray.
Qed.

(** So is a byte that can start no sequence, whatever follows it. *)
Lemma utf8_ignore_no_lead (b : byte) (l : list byte) :
  is_ascii_byte b = false -> lead b = None -> utf8_ignore (b :: l) = utf8_ignore l.
Proof. intros Hb Hl. rewrite utf8_ignore_cons. simpl. by rewrite Hb, Hl. Qed.

Lemma well_formed_ascii (l : list byte) :
  Forall (fun b => is_ascii_byte b = true) l -> well_formed l.
Proof. intros Hl. rewrite <- (utf8_ignore_ascii l Hl). apply utf8_ignore_well_formed. Qed.

Lemma well_formed_iff (l : list byte) : well_formed l <-> utf8_ignore l = l.
Proof.
  split; [apply well_formed_utf8_ignore|].
  intros <-. apply utf8_ignore_well_formed.
Qed.

#[global] Instance byte_eq_dec : EqDecision byte := Byte.byte_eq_dec.

#[global] Instance well_formed_dec (l : list byte) : Decision (well_formed l).
Proof.
  refine (cast_if (decide (utf8_ignore l = l))); by rewrite well_formed_iff.
Defined.

Lemma utf8_ignore_idemp (l : list byte) : utf8_ignore (utf8_ignore l) = utf8_ignore l.
Proof. apply well_formed_utf8_ignore, utf8_ignore_well_formed. Qed.

Lemma ignore_errors_length (k : nat) (l : list byte) :
  length (ignore_errors k l) <= length l.
Proof.
  revert k. induction l as [|b l IH]; intros k; [done|].
  cbn [ignore_errors].
  destruct k as [|k]; [destruct (sequence_length (b :: l)) as [n|]|];
    cbn [length]; [specialize (IH (pred n))|specialize (IH 0)|specialize (IH k)]; lia.
Qed.

(** ** Line ends *)

Lemma translate_newlines_other (pendingcr : bool) (c : ascii) (s : string) :
  c <> CR -> c <> LF ->
  translate_newlines pendingcr (String c s) = String c (translate_newlines false s).
Proof. intros H1 H2. simpl. by rewrite !decide_False. Qed.

Lemma translate_newlines_CR (pendingcr : bool) (s : string) :
  translate_newlines pendingcr (String CR s) = String LF (translate_newlines true s).
Proof. reflexivity. Qed.

Lemma translate_newlines_LF (pendingcr : bool) (s : string) :
  translate_newlines pendingcr (String LF s) =
  if pendingcr then translate_newlines false s
  else String LF (translate_newlines false s).
Proof. reflexivity. Qed.

Lemma one_line_cons (c : ascii) (s : string) :
  one_line (String c s) = true <-> c <> CR /\ c <> LF /\ one_line s = true.
Proof.
  simpl. rewrite !andb_true_iff, !negb_true_iff, !bool_decide_eq_false. tauto.
Qed.

(** A needle without line ends does not start at a line end. *)
Lemma startswith_line_end (c a : ascii) (s needle : string) :
  c = CR \/ c = LF -> one_line (String a needle) = true ->
  startswith (String c s) (String a needle) = false.
Proof.
  intros Hc (H1 & H2 & _)%one_line_cons. rewrite startswith_cons.
  apply andb_false_iff. left. apply bool_decide_eq_false. intros ->.
  by destruct Hc.
Qed.

Lemma startswith_translate_newlines (needle s : string) :
  one_line needle = true ->
  startswith (translate_newlines false s) needle = startswith s needle.
Proof.
  revert s. induction needle as [|a needle IH]; intros s Hn.
  { by rewrite !startswith_nil. }
  destruct s as [|c s]; [done|].
  destruct (decide (c = CR)) as [->|HCR].
  { rewrite translate_newlines_CR, !startswith_line_end; auto. }
  destruct (decide (c = LF)) as [->|HLF].
  { rewrite translate_newlines_LF, !startswith_line_end; auto. }
  rewrite translate_newlines_other, !startswith_cons by done.
  apply one_line_cons in Hn as (_ & _ & Hn). by rewrite IH.
Qed.

(** The translation neither creates nor removes an occurrence of a needle
    that holds no line end. *)
Lemma contains_translate_newlines (pendingcr : bool) (needle s : string) :
  one_line needle = true ->
  contains needle (translate_newlines pendingcr s) = contains needle s.
Proof.
  intros Hn. destruct needle as [|a needle].
  { by rewrite !contains_empty_needle. }
  revert pendingcr. induction s as [|c s IH]; intros pendingcr; [done|].
  rewrite (contains_unfold _ (String c s)).
  destruct (decide (c = CR)) as [->|HCR].
  { rewrite translate_newlines_CR, contains_unfold, !startswith_line_end; auto.
    apply IH. }
  destruct (decide (c = LF)) as [->|HLF].
  { rewrite translate_newlines_LF, startswith_line_end by auto.
    destruct pendingcr; [apply IH|].
    rewrite contains_unfold, startswith_line_end by auto. apply IH. }
  rewrite translate_newlines_other, contains_unfold by done.
  rewrite IH. f_equal.
  rewrite !startswith_cons. apply one_line_cons in Hn as (_ & _ & Hn).
  by rewrite startswith_translate_newlines.
Qed.

Lemma contains_universal_newlines (needle s : string) :
  one_line needle = true ->
  contains needle (universal_newlines s) = contains needle s.
Proof. apply contains_translate_newlines. Qed.

Lemma universal_newlines_one_line (s : string) :
  one_line s = true -> universal_newlines s = s.
Proof.
  unfold universal_newlines. induction s as [|c s IH]; [done|].
  intros (H1 & H2 & H3)%one_line_cons.
  by rewrite translate_newlines_other, IH.
Qed.

Lemma universal_newlines_no_CR (s : string) :
  has_char CR s = false -> universal_newlines s = s.
Proof.
  unfold universal_newlines. induction s as [|c s IH]; [done|].
  cbn [has_char translate_newlines].
  intros [Hc Hs]%orb_false_iff. apply bool_decide_eq_false in Hc.
  rewrite decide_False by done. rewrite IH by done. by case_decide; subst.
Qed.

(** ** The text of a file *)

Lemma ascii_text_Forall (s : string) :
  ascii_text s = true ->
  Forall (fun b => is_ascii_byte b = true) (list_byte_of_string s).
Proof.
  unfold ascii_text. induction (list_byte_of_string s) as [|b l IH]; simpl; [done|].
  intros [??]%andb_true_iff. constructor; auto.
Qed.

(** An ASCII needle without line ends that occurs in the bytes of a file
    occurs in the text read from it. *)
Lemma text_of_bytes_keeps (needle : string) (l : list byte) :
  needle <> "" -> ascii_text needle = true -> one_line needle = true ->
  Infix (list_byte_of_string needle) l -> Substring needle (text_of_bytes l).
Proof.
  intros Hne Ha Hn (a & b & ->). apply contains_spec. unfold text_of_bytes.
  rewrite contains_universal_newlines by done. apply contains_spec.
  unfold decode. rewrite utf8_ignore_keeps_ascii.
  - rewrite <- (string_of_list_byte_of_string needle) at 1.
    apply Infix_Substring. by eexists _, _.
  - by destruct needle.
  - by apply ascii_text_Forall.
Qed.

(** On a well-formed file the text holds a needle without line ends
    exactly when the bytes do. *)
Lemma text_of_bytes_exact (needle : string) (l : list byte) :
  well_formed l -> one_line needle = true ->
  Substring needle (text_of_bytes l) <-> Infix (list_byte_of_string needle) l.
Proof.
  intros Hl Hn. unfold text_of_bytes, decode.
  rewrite <- contains_spec, contains_universal_newlines, contains_spec by done.
  rewrite well_formed_utf8_ignore by done. split.
  - intros H%Substring_Infix. by rewrite list_byte_of_string_of_list_byte in H.
  - intros H%Infix_Substring. by rewrite string_of_list_byte_of_string in H.
Qed.

(** ASCII text without line ends is read as it is. *)
Lemma text_of_bytes_ascii (s : string) :
  ascii_text s = true -> one_line s = true ->
  text_of_bytes (list_byte_of_string s) = s.
Proof.
  intros Ha Hs. unfold text_of_bytes, decode.
  rewrite utf8_ignore_ascii by by apply ascii_text_Forall.
  by rewrite string_of_list_byte_of_string, universal_newlines_one_line.
Qed.

(** C26: a text written to a file in UTF-8 is read back as it was: when
    the bytes of the text are well-formed UTF-8 and the text holds no
    carriage return, decoding them leniently and translating the line ends
    gives the text again. *)
Theorem text_of_bytes_roundtrip (s : string) :
  well_formed (list_byte_of_string s) -> has_char CR s = false ->
  text_of_bytes (list_byte_of_string s) = s.
Proof.
  intros Hw Hs. unfold text_of_bytes, decode.
  by rewrite well_formed_utf8_ignore, string_of_list_byte_of_string,
    universal_newlines_no_CR.
Qed.

(** The bytes of the text read from a well-formed file without carriage
    return are the bytes of the file. *)
Lemma list_byte_of_text_of_bytes (l : list byte) :
  well_formed l -> has_char CR (string_of_list_byte l) = false ->
  list_byte_of_string (text_of_bytes l) = l.
Proof.
  intros Hw Hs. unfold text_of_bytes, decode.
  by rewrite well_formed_utf8_ignore, universal_newlines_no_CR,
    list_byte_of_string_of_list_byte.
Qed.

Lemma text_of_bytes_roundtrip_witness :
  text_of_bytes (list_byte_of_string (String "c" (String LF "//?/")))
  = String "c" (String LF "//?/").
Proof.
  apply text_of_bytes_roundtrip; [|reflexivity].
  apply (bool_decide_unpack _). vm_compute. exact I.
Defined.

(** ** Concrete checks against the decoder of Python *)

(** [b'caf\xc3\xa9'] is kept; so is a byte order mark. *)
Example utf8_ignore_two_bytes :
  utf8_ignore ["c"; "a"; "f"; xc3; xa9]%byte = ["c"; "a"; "f"; xc3; xa9]%byte.
Proof. reflexivity. Qed.

Example utf8_ignore_bom :
  utf8_ignore [xef; xbb; xbf; "#"]%byte = [xef; xbb; xbf; "#"]%byte.
Proof. reflexivity. Qed.

(** UTF-16 text, as PowerShell writes it by default: the byte order mark
    [ff fe] is dropped, the NUL bytes stay. *)
Example utf8_ignore_utf16 :
  utf8_ignore [xff; xfe; "/"; x00; "/"; x00]%byte = ["/"; x00; "/"; x00]%byte.
Proof. reflexivity. Qed.

(** A truncated sequence is dropped up to the byte that breaks it, which
    is read again: [b'\xe2\x82A'] gives ['A']. *)
Example utf8_ignore_truncated : utf8_ignore [xe2; x82; "A"]%byte = ["A"]%byte.
Proof. reflexivity. Qed.

(** The overlong form [c0 80], a surrogate [ed a0 80] and a code point
    above U+10FFFF [f4 90 80 80] are dropped whole. *)
Example utf8_ignore_ill_formed :
  utf8_ignore [xc0; x80; xed; xa0; x80; xf4; x90; x80; x80]%byte = [].
Proof. reflexivity. Qed.

Example universal_newlines_example :
  universal_newlines (String "a" (String CR (String LF (String "b" (String CR
    (String "c" (String LF EmptyString)))))))
  = String "a" (String LF (String "b" (String LF (String "c" (String LF EmptyString))))).
Proof. reflexivity. Qed.
