(* ===== verification/Paths.v ===== *)
(** * Paths: what the checker asks of [pathlib]

    The checker builds paths with [Path(...)] and the operator [/] and
    renders them in its messages with [str].  [PurePath] is that interface;
    the components are proved against it.  [posix_path] implements it the
    way [pathlib.PurePosixPath] does (an anchor and the list of parts), and
    is the instance the concrete runs use.  [wf_posix_path] says which
    values the constructor and [/] give, and on those [str] and [Path]
    are inverse to each other. *)

From Stdlib Require Import String Ascii.
From stdpp Require Import base tactics option list strings.
From S2P Require Import Prelude PyStr.

(** ** The interface *)

Class PurePath : Type := {
  (** the type of path objects *)
  path : Type;
  path_eq_dec :: EqDecision path;
  (** [Path(s)] *)
  Path : string -> path;
  (** [p / s] *)
  joinpath : path -> string -> path;
  (** [str(p)], which is also what an f-string renders for [{p}] *)
  path_str : path -> string;
  (** [is_name s]: [s] is one ordinary component, so that [p / s] is an
      entry of the directory [p] *)
  is_name : string -> bool;
}.

Bind Scope py_scope with path.
Notation "p / s" := (joinpath p s) : py_scope.

(** ** POSIX paths *)

(** [s.split(sep)]: the pieces of [s] between the separators, never empty
    as a list. *)
Fixpoint split_on (sep : ascii) (s : string) : list string :=
  match s with
  | EmptyString => [EmptyString]
  | String c s' =>
      if decide (c = sep) then EmptyString :: split_on sep s'
      else match split_on sep s' with
           | [] => [String c EmptyString]
           | h :: t => String c h :: t
           end
  end.

(** [sep.join(l)] *)
Fixpoint join_with (sep : string) (l : list string) : string :=
  match l with
  | [] => ""
  | [x] => x
  | x :: l' => x +:+ sep +:+ join_with sep l'
  end.

(** A parsed POSIX path: its root ([""], ["/"] or ["//"]) and its parts. *)
Record posix_path : Type := PosixPath {
  pp_root : string;
  pp_parts : list string;
}.

#[global] Instance posix_path_eq_dec : EqDecision posix_path.
Proof. solve_decision. Defined.

(** The root of a path string: exactly two leading slashes are kept, one
    or three and more collapse to one. *)
Definition posix_root (s : string) : string :=
  if startswith s "///" then "/"
  else if startswith s "//" then "//"
  else if startswith s "/" then "/"
  else "".

(** A part that names something: not empty and not ["."]. *)
Definition keeps_part (c : string) : bool :=
  negb (bool_decide (c = "")) && negb (bool_decide (c = ".")).

(** The parts of a path string: empty pieces and ["."] are dropped,
    [".."] is kept. *)
Definition posix_parts (s : string) : list string :=
  filter (fun c => keeps_part c = true) (split_on "/" s).

Definition posix_parse (s : string) : posix_path :=
  PosixPath (posix_root s) (posix_parts s).

(** [p / s]: an absolute [s] replaces [p], a relative one extends it. *)
Definition posix_join (p : posix_path) (s : string) : posix_path :=
  let q := posix_parse s in
  if bool_decide (pp_root q = "") then PosixPath (pp_root p) (pp_parts p ++ pp_parts q)
  else q.

(** [str(p)]: the root followed by the parts joined by ["/"]; the empty
    path is ["."]. *)
Definition posix_str (p : posix_path) : string :=
  match pp_root p, pp_parts p with
  | EmptyString, [] => "."
  | r, l => r +:+ join_with "/" l
  end.

(** A single ordinary name: no separator inside, not empty, not ["."]. *)
Definition simple_name (n : string) : Prop :=
  posix_parse n = PosixPath "" [n].

#[global] Instance simple_name_dec n : Decision (simple_name n).
Proof. unfold simple_name. apply _. Defined.

(** A name that leads one level down: simple and not [".."]. *)
Definition posix_is_name (n : string) : bool :=
  bool_decide (simple_name n) && negb (bool_decide (n = "..")).

(** A part as a parsed path holds it: kept by the parser, and without a
    separator inside. *)
Definition valid_part (c : string) : bool :=
  keeps_part c && negb (has_char "/" c).

(** The paths the parser builds: one of the three roots, and valid
    parts. *)
Definition wf_posix_path (p : posix_path) : Prop :=
  pp_root p ∈ [""; "/"; "//"] /\ Forall (fun c => valid_part c = true) (pp_parts p).

#[global] Instance wf_posix_path_dec p : Decision (wf_posix_path p).
Proof. unfold wf_posix_path. apply _. Defined.

#[global] Instance posix_PurePath : PurePath := {|
  path := posix_path;
  Path := posix_parse;
  joinpath := posix_join;
  path_str := posix_str;
  is_name := posix_is_name;
|}.

(** ** Facts on [split_on] and [join_with] *)

Lemma split_on_nonempty sep s : split_on sep s <> [].
Proof.
  destruct s as [|c s]; simpl; [done|].
  case_decide; [done|]. by destruct (split_on sep s).
Qed.

Lemma join_with_cons sep x y l :
  join_with sep (x :: y :: l) = x +:+ sep +:+ join_with sep (y :: l).
Proof. reflexivity. Qed.

Lemma join_with_snoc sep l x :
  l <> [] -> join_with sep (l ++ [x]) = join_with sep l +:+ sep +:+ x.
Proof.
  induction l as [|y l IH]; [done|]. intros _. destruct l as [|z l].
  - reflexivity.
  - change ((y :: z :: l) ++ [x]) with (y :: (z :: l) ++ [x]).
    simpl app. rewrite !join_with_cons.
    change (join_with sep (z :: l ++ [x])) with (join_with sep ((z :: l) ++ [x])).
    rewrite IH by done. by rewrite !string_app_assoc.
Qed.

(** Joining the pieces of a string gives the string back. *)
Lemma join_split_on (sep : ascii) (s : string) :
  join_with (String sep "") (split_on sep s) = s.
Proof.
  induction s as [|c s IH]; [done|]. simpl. case_decide as Hc.
  - subst c. pose proof (split_on_nonempty sep s).
    destruct (split_on sep s) as [|h t] eqn:E; [done|].
    rewrite join_with_cons, IH. done.
  - destruct (split_on sep s) as [|h [|h' t]] eqn:E.
    + by apply split_on_nonempty in E.
    + simpl in *. by rewrite IH.
    + rewrite join_with_cons in *. by rewrite string_app_cons, IH.
Qed.

(** The pieces hold no separator. *)
Lemma split_on_no_sep (sep : ascii) (s : string) :
  Forall (fun c => has_char sep c = false) (split_on sep s).
Proof.
  induction s as [|c s IH]; simpl; [by repeat constructor|].
  case_decide as Hc; [by constructor|].
  destruct (split_on sep s) as [|h t]; inversion IH; subst; repeat constructor; simpl.
  - by rewrite bool_decide_eq_false_2.
  - rewrite bool_decide_eq_false_2 by done. done.
  - done.
Qed.

(** A string without separator is one piece. *)
Lemma split_on_one (sep : ascii) (s : string) :
  has_char sep s = false -> split_on sep s = [s].
Proof.
  induction s as [|c s IH]; [done|]. simpl.
  intros [Hc Hs]%orb_false_iff. apply bool_decide_eq_false in Hc.
  rewrite decide_False by done. by rewrite IH.
Qed.

Lemma split_on_app_sep (sep : ascii) (s r : string) :
  has_char sep s = false ->
  split_on sep (s +:+ String sep r) = s :: split_on sep r.
Proof.
  induction s as [|c s IH].
  - intros _. rewrite string_app_nil_l. simpl. by rewrite decide_True.
  - cbn [has_char]. intros [Hc Hs]%orb_false_iff. apply bool_decide_eq_false in Hc.
    rewrite string_app_cons. cbn [split_on]. rewrite decide_False by done.
    by rewrite IH.
Qed.

(** Splitting what was joined gives the pieces back. *)
Lemma split_on_join (sep : ascii) (l : list string) :
  l <> [] -> Forall (fun c => has_char sep c = false) l ->
  split_on sep (join_with (String sep "") l) = l.
Proof.
  induction l as [|x l IH]; [done|]. intros _ Hl.
  apply Forall_cons in Hl as [Hx Hl]. destruct l as [|y l].
  - by apply split_on_one.
  - rewrite join_with_cons, string_app_cons, string_app_nil_l.
    rewrite split_on_app_sep by done. by rewrite IH.
Qed.

(** ** Facts on the POSIX instance *)

Lemma posix_join_simple (p : posix_path) (n : string) :
  simple_name n -> posix_join p n = PosixPath (pp_root p) (pp_parts p ++ [n]).
Proof. unfold posix_join. by intros ->. Qed.

Lemma posix_join_parts (p : posix_path) (n : string) :
  simple_name n -> pp_parts (posix_join p n) = pp_parts p ++ [n].
Proof. intros H. by rewrite posix_join_simple. Qed.

Lemma posix_join_root (p : posix_path) (n : string) :
  simple_name n -> pp_root (posix_join p n) = pp_root p.
Proof. intros H. by rewrite posix_join_simple. Qed.

Lemma posix_str_parts (p : posix_path) :
  pp_parts p <> [] -> posix_str p = pp_root p +:+ join_with "/" (pp_parts p).
Proof.
  destruct p as [r [|x l]]; [done|]. intros _. unfold posix_str. simpl.
  by destruct r.
Qed.

Lemma posix_str_join (p : posix_path) (n : string) :
  simple_name n -> pp_parts p <> [] ->
  posix_str (posix_join p n) = posix_str p +:+ "/" +:+ n.
Proof.
  intros Hn Hp. rewrite posix_join_simple by done.
  rewrite !posix_str_parts; simpl; [|done|by destruct (pp_parts p)].
  by rewrite join_with_snoc, !string_app_assoc.
Qed.

Lemma posix_join_absolute (p : posix_path) (s : string) :
  pp_root (posix_parse s) <> "" -> posix_join p s = posix_parse s.
Proof. unfold posix_join. intros H. by rewrite bool_decide_eq_false_2. Qed.

Lemma posix_is_name_spec (n : string) :
  posix_is_name n = true <-> simple_name n /\ n <> "..".
Proof.
  unfold posix_is_name.
  by rewrite andb_true_iff, negb_true_iff, bool_decide_eq_true, bool_decide_eq_false.
Qed.

(** ** Parsed paths are well formed *)

Lemma posix_root_cases (s : string) : posix_root s ∈ [""; "/"; "//"].
Proof.
  unfold posix_root. repeat case_match; rewrite !elem_of_cons; auto.
Qed.

Lemma posix_parts_valid (s : string) :
  Forall (fun c => valid_part c = true) (posix_parts s).
Proof.
  apply Forall_forall. intros c [Hk Hc]%list_elem_of_filter.
  pose proof (split_on_no_sep "/" s) as Hs.
  rewrite Forall_forall in Hs. unfold valid_part. by rewrite Hk, (Hs c Hc).
Qed.

Lemma posix_parse_wf (s : string) : wf_posix_path (posix_parse s).
Proof. split; [apply posix_root_cases|apply posix_parts_valid]. Qed.

Lemma posix_join_wf (p : posix_path) (s : string) :
  wf_posix_path p -> wf_posix_path (posix_join p s).
Proof.
  intros [Hr Hp]. unfold posix_join. case_bool_decide; [|apply posix_parse_wf].
  split; [done|]. apply Forall_app. split; [done|apply posix_parts_valid].
Qed.

(** ** Printing and parsing *)

Lemma valid_part_head (c : string) :
  valid_part c = true -> exists a r, c = String a r /\ a <> "/"%char.
Proof.
  destruct c as [|a r]; [done|]. intros [_ H]%andb_true_iff.
  exists a, r. split; [done|]. intros ->. by rewrite negb_true_iff in H.
Qed.

Lemma join_with_head (sep : string) (a : ascii) (r : string) (l : list string) :
  exists r', join_with sep (String a r :: l) = String a r'.
Proof.
  destruct l as [|y l]; [by exists r|].
  rewrite join_with_cons, string_app_cons. by eexists.
Qed.

(** The parts of a joined list are the list, for any separator the parts
    do not hold. *)
Lemma parts_of_join (sep : ascii) (l : list string) :
  Forall (fun c => keeps_part c = true /\ has_char sep c = false) l ->
  filter (fun c => keeps_part c = true) (split_on sep (join_with (String sep "") l)) = l.
Proof.
  intros Hl. destruct (decide (l = [])) as [->|Hne]; [done|].
  rewrite split_on_join; [|done|by eapply Forall_impl; [done|intros c []]].
  induction Hl as [|c l [Hc _] _ IH]; [done|]. rewrite filter_cons_True by done.
  destruct l; [done|]. by rewrite IH.
Qed.

Lemma filter_valid_parts (l : list string) :
  Forall (fun c => valid_part c = true) l ->
  filter (fun c => keeps_part c = true) l = l.
Proof.
  induction 1 as [|c l [Hc _]%andb_true_iff _ IH]; [done|].
  by rewrite filter_cons_True, IH.
Qed.

Lemma posix_parts_join (l : list string) :
  Forall (fun c => valid_part c = true) l -> posix_parts (join_with "/" l) = l.
Proof.
  intros Hl. destruct (decide (l = [])) as [->|Hne]; [done|].
  unfold posix_parts. rewrite split_on_join; [by apply filter_valid_parts|done|].
  eapply Forall_impl; [done|]. intros c [_ H]%andb_true_iff.
  by apply negb_true_iff.
Qed.

Lemma posix_parts_slash (s : string) : posix_parts (String "/" s) = posix_parts s.
Proof. unfold posix_parts. simpl. by rewrite filter_cons_False. Qed.

Lemma posix_root_relative (a : ascii) (r : string) :
  a <> "/"%char -> posix_root (String a r) = "".
Proof.
  intros Ha. unfold posix_root.
  by rewrite !startswith_cons, !bool_decide_eq_false_2.
Qed.

Lemma posix_root_one_slash (a : ascii) (r : string) :
  a <> "/"%char -> posix_root (String "/" (String a r)) = "/".
Proof.
  intros Ha. unfold posix_root.
  rewrite !startswith_cons, startswith_nil, !(bool_decide_eq_false_2 (_ = a)) by done.
  by rewrite bool_decide_eq_true_2.
Qed.

Lemma posix_root_two_slashes (a : ascii) (r : string) :
  a <> "/"%char -> posix_root (String "/" (String "/" (String a r))) = "//".
Proof.
  intros Ha. unfold posix_root.
  rewrite !startswith_cons, startswith_nil, !(bool_decide_eq_false_2 (_ = a)) by done.
  by rewrite !bool_decide_eq_true_2.
Qed.

(** Parsing what [str] printed gives the path back. *)
Lemma posix_parse_str (p : posix_path) :
  wf_posix_path p -> posix_parse (posix_str p) = p.
Proof.
  destruct p as [root parts]. intros [Hr Hp]. simpl in *.
  destruct parts as [|x l].
  { rewrite !elem_of_cons in Hr. by destruct Hr as [->|[->|[->|?%elem_of_nil]]]. }
  pose proof (posix_parts_join (x :: l) Hp) as Hparts.
  apply Forall_cons in Hp as [(a & r & -> & Ha)%valid_part_head _].
  destruct (join_with_head "/" a r l) as [r' Hj].
  unfold posix_parse, posix_str. rewrite !elem_of_cons in Hr.
  destruct Hr as [->|[->|[->|?%elem_of_nil]]]; [| | |done]; cbn [pp_root pp_parts].
  - rewrite string_app_nil_l, Hparts, Hj. by rewrite posix_root_relative.
  - rewrite string_app_cons, string_app_nil_l, posix_parts_slash, Hparts, Hj.
    by rewrite posix_root_one_slash.
  - rewrite !string_app_cons, string_app_nil_l, !posix_parts_slash, Hparts, Hj.
    by rewrite posix_root_two_slashes.
Qed.

(** Parsing is idempotent through [str]. *)
Lemma posix_parse_str_parse (s : string) :
  posix_parse (posix_str (posix_parse s)) = posix_parse s.
Proof. apply posix_parse_str, posix_parse_wf. Qed.

(** [str] tells paths apart. *)
Lemma posix_str_inj (p q : posix_path) :
  wf_posix_path p -> wf_posix_path q -> posix_str p = posix_str q -> p = q.
Proof.
  intros Hp Hq H. by rewrite <- (posix_parse_str p), <- (posix_parse_str q), H.
Qed.

(** ** Concrete checks against [pathlib] *)

Example posix_parse_plain :
  posix_parse "/opt/conda/envs/x" = PosixPath "/" ["opt"; "conda"; "envs"; "x"].
Proof. reflexivity. Qed.

Example posix_parse_normalises :
  posix_str (posix_parse "envs//x/./y/") = "envs/x/y".
Proof. reflexivity. Qed.

Example posix_parse_empty : posix_str (posix_parse "") = ".".
Proof. reflexivity. Qed.

Example posix_parse_two_slashes : posix_str (posix_parse "//srv/x") = "//srv/x".
Proof. reflexivity. Qed.

Example posix_parse_three_slashes : posix_str (posix_parse "///srv/x") = "/srv/x".
Proof. reflexivity. Qed.

Example posix_join_example :
  posix_str (Path "/opt/env" / "shell" / "condabin" / "conda-hook.ps1")
  = "/opt/env/shell/condabin/conda-hook.ps1".
Proof. reflexivity. Qed.

Example posix_join_replaces : posix_str (Path "/opt/env" / "/etc") = "/etc".
Proof. reflexivity. Qed.
