(* ===== verification/WinPaths.v ===== *)
(** * WinPaths: [pathlib] on Windows

    The checker is written for conda environments on Windows, where
    [Path] is [pathlib.WindowsPath].  This file implements [PurePath] the
    way [pathlib.PureWindowsPath] and [ntpath] do in Python 3.12: both
    separators are accepted and [\] is printed, a path has a drive (a
    letter and a colon, or the two first components of a UNC or device
    path such as [\\server\share] or [\\?\C:]), a root and parts.  A path
    object is held in parsed form; [/] joins the printed path with the new
    segment as [ntpath.join] does and parses the result ([pathlib] joins
    the strings the path was made from, where the model joins what the
    path prints as).  The theorems are for the paths with a drive and a
    root, [anchored_path]; the other forms are checked on examples taken
    from the documentation of [pathlib]. *)

From Stdlib Require Import String Ascii Arith Lia.
From stdpp Require Import base tactics option list strings.
From S2P Require Import Prelude PyStr Paths.

(** ** Strings *)

(** The separator [\]. *)
Definition bsl : ascii := "\"%char.

(** [s.replace('/', '\\')] *)
Fixpoint to_backslash (s : string) : string :=
  match s with
  | EmptyString => EmptyString
  | String c s' => String (if decide (c = "/"%char) then bsl else c) (to_backslash s')
  end.

Definition upper_char (c : ascii) : ascii :=
  let n := nat_of_ascii c in
  if (97 <=? n) && (n <=? 122) then ascii_of_nat (n - 32) else c.

Definition lower_char (c : ascii) : ascii :=
  let n := nat_of_ascii c in
  if (65 <=? n) && (n <=? 90) then ascii_of_nat (n + 32) else c.

(** [s.upper()] and [s.lower()], on ASCII letters. *)
Fixpoint upper (s : string) : string :=
  match s with
  | EmptyString => EmptyString
  | String c s' => String (upper_char c) (upper s')
  end.

Fixpoint lower (s : string) : string :=
  match s with
  | EmptyString => EmptyString
  | String c s' => String (lower_char c) (lower s')
  end.

(** ** [ntpath.splitroot] *)

(** The drive, the root and the rest of a path whose separators are all
    [\]. *)
Definition win_splitroot (p : string) : string * string * string :=
  if startswith p "\\" then
    (* a UNC or device drive: \\server\share, \\?\C:, \\?\UNC\server\share *)
    let pieces := split_on bsl (skip 2 p) in
    let prefix :=
      match pieces with
      | q :: u :: _ :: _ =>
          if bool_decide (q = "?") && bool_decide (upper u = "UNC") then 2 else 0
      | _ => 0
      end in
    match drop prefix pieces with
    | a :: b :: c :: more =>
        ("\\" +:+ join_with "\" (take prefix pieces ++ [a; b]), "\",
         join_with "\" (c :: more))
    | _ => (p, "", "")
    end
  else if startswith p "\" then ("", "\", skip 1 p)
  else if nth_is 1 ":" p then
    if nth_is 2 bsl p then (substring 0 2 p, "\", skip 3 p)
    else (substring 0 2 p, "", skip 2 p)
  else ("", "", p).

(** ** [PureWindowsPath] *)

Record win_path : Type := WinPath {
  wp_drive : string;
  wp_root : string;
  wp_parts : list string;
}.

#[global] Instance win_path_eq_dec : EqDecision win_path.
Proof. solve_decision. Defined.

(** The root of a UNC drive that stands alone: [\\server\share] has the
    root [\], [\\?\C:] has none. *)
Definition win_drive_root (drv root : string) : string :=
  if is_empty root && startswith drv "\" && negb (last_is bsl drv) then
    let drv_parts := split_on bsl drv in
    if (length drv_parts =? 4) && negb (contains (nth 2 drv_parts "") "?.") then "\"
    else if length drv_parts =? 6 then "\"
    else root
  else root.

(** [PureWindowsPath(s)] *)
Definition win_parse (s : string) : win_path :=
  let '(drv, root, rel) := win_splitroot (to_backslash s) in
  WinPath drv (win_drive_root drv root)
    (filter (fun c => keeps_part c = true) (split_on bsl rel)).

(** [str(p)] *)
Definition win_str (p : win_path) : string :=
  let s :=
    if negb (is_empty (wp_drive p) && is_empty (wp_root p)) then
      wp_drive p +:+ wp_root p +:+ join_with "\" (wp_parts p)
    else
      match wp_parts p with
      | first :: _ =>
          if nth_is 1 ":" first then join_with "\" ("." :: wp_parts p)
          else join_with "\" (wp_parts p)
      | [] => ""
      end in
  if is_empty s then "." else s.

(** [ntpath.join(path, p)], for two strings whose separators are all
    [\]. *)
Definition nt_join (path p : string) : string :=
  let '(rd, rr, rp) := win_splitroot path in
  let '(pd, pr, pp) := win_splitroot p in
  let '(rd, rr, rp) :=
    if negb (is_empty pr) then
      ((if negb (is_empty pd) || is_empty rd then pd else rd), pr, pp)
    else if negb (is_empty pd) && negb (bool_decide (lower pd = lower rd)) then
      (pd, pr, pp)
    else
      let rd := if negb (is_empty pd) then pd else rd in
      let rp := if negb (is_empty rp) && negb (last_is bsl rp) then rp +:+ "\" else rp in
      (rd, rr, rp +:+ pp) in
  if negb (is_empty rp) && is_empty rr && negb (is_empty rd)
     && negb (last_is ":" rd) && negb (last_is bsl rd)
  then rd +:+ "\" +:+ rp
  else rd +:+ rr +:+ rp.

(** [p / s] *)
Definition win_join (p : win_path) (s : string) : win_path :=
  win_parse (nt_join (win_str p) (to_backslash s)).

(** A part as a parsed path holds it: kept by the parser and without
    separator. *)
Definition valid_win_part (c : string) : bool :=
  keeps_part c && negb (has_char bsl c) && negb (has_char "/" c).

(** A name that leads one level down: one valid part that is no drive
    and not [..]. *)
Definition win_is_name (n : string) : bool :=
  valid_win_part n && negb (nth_is 1 ":" n) && negb (bool_decide (n = "..")).

#[global] Instance win_PurePath : PurePath | 10 := {|
  path := win_path;
  Path := win_parse;
  joinpath := win_join;
  path_str := win_str;
  is_name := win_is_name;
|}.

(** The drives that stand before a root: a letter and a colon, as in
    [C:\Users\me\env], or the two first components of a UNC or device
    path, as in [\\server\share\env] and [\\?\C:\env] (the form
    [\\?\UNC\server\share] apart). *)
Definition letter_drive (d : string) : Prop :=
  exists c, d = String c ":" /\ c <> bsl /\ c <> "/"%char.

Definition unc_drive (d : string) : Prop :=
  exists a b,
    d = String bsl (String bsl (a +:+ String bsl b)) /\
    has_char bsl a = false /\ has_char "/" a = false /\
    has_char bsl b = false /\ has_char "/" b = false /\
    ~ (a = "?" /\ upper b = "UNC").

Definition anchor (d : string) : Prop := letter_drive d \/ unc_drive d.

(** The paths with such a drive and a root. *)
Definition anchored_path (p : win_path) : Prop :=
  anchor (wp_drive p) /\
  wp_root p = "\" /\
  Forall (fun c => valid_win_part c = true) (wp_parts p).

(** ** Strings without separators *)

Lemma to_backslash_id (s : string) : has_char "/" s = false -> to_backslash s = s.
Proof.
  induction s as [|c s IH]; [done|]. cbn [has_char to_backslash].
  intros [Hc Hs]%orb_false_iff. apply bool_decide_eq_false in Hc.
  by rewrite decide_False, IH.
Qed.

Lemma has_char_app (c : ascii) (s t : string) :
  has_char c (s +:+ t) = has_char c s || has_char c t.
Proof.
  induction s as [|a s IH]; [done|]. rewrite string_app_cons. cbn [has_char].
  by rewrite IH, orb_assoc.
Qed.

Lemma has_char_join (c : ascii) (sep : string) (l : list string) :
  has_char c sep = false -> Forall (fun x => has_char c x = false) l ->
  has_char c (join_with sep l) = false.
Proof.
  intros Hsep. induction 1 as [|x l Hx Hl IH]; [done|].
  destruct l as [|y l]; [done|]. rewrite join_with_cons, !has_char_app.
  by rewrite Hx, Hsep, IH.
Qed.

Lemma last_is_app (c : ascii) (s t : string) :
  t <> "" -> last_is c (s +:+ t) = last_is c t.
Proof.
  intros Ht. induction s as [|a s IH]; [done|]. rewrite string_app_cons.
  cbn [last_is]. rewrite IH. destruct (s +:+ t) eqn:E; [|done].
  by destruct s, t.
Qed.

Lemma last_is_has_char (c : ascii) (s : string) :
  has_char c s = false -> last_is c s = false.
Proof.
  induction s as [|a s IH]; [done|]. cbn [has_char].
  intros [Ha Hs]%orb_false_iff. destruct s; [done|]. by apply IH.
Qed.

Lemma valid_win_part_spec (c : string) :
  valid_win_part c = true <->
  keeps_part c = true /\ has_char bsl c = false /\ has_char "/" c = false.
Proof.
  unfold valid_win_part. rewrite !andb_true_iff, !negb_true_iff. tauto.
Qed.

Lemma win_is_name_valid (n : string) :
  win_is_name n = true -> valid_win_part n = true.
Proof. unfold win_is_name. by intros [[? _]%andb_true_iff _]%andb_true_iff. Qed.

(** What is joined of valid parts ends with no separator. *)
Lemma last_is_join (l : list string) :
  Forall (fun c => valid_win_part c = true) l ->
  last_is bsl (join_with "\" l) = false.
Proof.
  induction 1 as [|x l Hx Hl IH]; [done|].
  apply valid_win_part_spec in Hx as (_ & Hx & _).
  destruct l as [|y l]; [by apply last_is_has_char|].
  rewrite join_with_cons, string_app_cons, string_app_nil_l, last_is_app by done.
  cbn [last_is]. destruct (join_with "\" (y :: l)) eqn:E; [|done].
  apply Forall_cons in Hl as [Hy _]. apply valid_win_part_spec in Hy as (Hy & _).
  destruct l; simpl in E; [by subst y|]. by destruct y.
Qed.

Lemma join_valid_empty (l : list string) :
  Forall (fun c => valid_win_part c = true) l ->
  is_empty (join_with "\" l) = bool_decide (l = []).
Proof.
  destruct 1 as [|x l Hx Hl]; [done|].
  apply valid_win_part_spec in Hx as (Hx & _). unfold is_empty.
  rewrite !bool_decide_eq_false_2; [done..|].
  destruct l; simpl; [by intros ->|]. by destruct x.
Qed.

(** ** Paths with a drive and a root *)

Lemma anchor_no_slash (d : string) : anchor d -> has_char "/" d = false.
Proof.
  intros [(c & -> & _ & Hc)|(a & b & -> & _ & Ha & _ & Hb & _)]; cbn [has_char].
  - by rewrite bool_decide_eq_false_2.
  - by rewrite has_char_app; cbn [has_char]; rewrite Ha, Hb.
Qed.

Lemma anchor_nonempty (d r : string) : anchor d -> is_empty (d +:+ r) = false.
Proof. by intros [(c & -> & _)|(a & b & -> & _)]. Qed.

Lemma win_splitroot_letter (c : ascii) (r : string) :
  c <> bsl ->
  win_splitroot (String c (String ":" (String bsl r))) = (String c ":", "\", r).
Proof.
  intros Hc. unfold win_splitroot.
  rewrite !startswith_cons, !(bool_decide_eq_false_2 (_ = c)) by done.
  reflexivity.
Qed.

Lemma win_splitroot_unc (a b r : string) :
  has_char bsl a = false -> has_char bsl b = false ->
  ~ (a = "?" /\ upper b = "UNC") ->
  win_splitroot (String bsl (String bsl (a +:+ String bsl (b +:+ String bsl r)))) =
  (String bsl (String bsl (a +:+ String bsl b)), "\", r).
Proof.
  intros Ha Hb Hn. unfold win_splitroot.
  rewrite !startswith_cons, startswith_nil, !bool_decide_eq_true_2 by done.
  cbn [andb skip].
  rewrite !split_on_app_sep by done.
  pose proof (join_split_on bsl r) as Hr.
  destruct (split_on bsl r) as [|x more] eqn:E; [by apply split_on_nonempty in E|].
  assert (bool_decide (a = "?") && bool_decide (upper b = "UNC") = false) as ->.
  { apply andb_false_iff. destruct (decide (a = "?")) as [->|];
      [right|left]; apply bool_decide_eq_false_2; naive_solver. }
  cbn [drop take app].
  replace (join_with "\" (x :: more)) with r by (by rewrite <- Hr).
  rewrite join_with_cons. cbn [join_with].
  by rewrite !string_app_cons, !string_app_nil_l.
Qed.

(** [splitroot] finds the drive and the root of what is printed. *)
Lemma win_splitroot_anchor (d r : string) :
  anchor d -> win_splitroot (d +:+ String bsl r) = (d, "\", r).
Proof.
  intros [(c & -> & Hc & _)|(a & b & -> & Ha & _ & Hb & _ & Hn)].
  - by apply win_splitroot_letter.
  - rewrite !string_app_cons, string_app_assoc, string_app_cons.
    by apply win_splitroot_unc.
Qed.

Lemma win_splitroot_name (n : string) :
  win_is_name n = true -> win_splitroot n = ("", "", n).
Proof.
  unfold win_is_name. rewrite !andb_true_iff, !negb_true_iff.
  intros [[(Hk & Hb & _)%valid_win_part_spec Hn] _].
  destruct n as [|a r]; [done|]. cbn [has_char] in Hb.
  apply orb_false_iff in Hb as [Ha%bool_decide_eq_false _].
  unfold win_splitroot.
  rewrite !startswith_cons, !(bool_decide_eq_false_2 (_ = a)), Hn by done.
  reflexivity.
Qed.

Lemma valid_parts_no_slash (parts : list string) :
  Forall (fun x => valid_win_part x = true) parts ->
  has_char "/" (join_with "\" parts) = false.
Proof.
  intros Hp. apply has_char_join; [done|].
  eapply Forall_impl; [done|by intros x (_ & _ & ?)%valid_win_part_spec].
Qed.

(** Parsing a printed path with a drive and a root gives the path. *)
Lemma win_parse_anchored (d : string) (parts : list string) :
  anchor d -> Forall (fun x => valid_win_part x = true) parts ->
  win_parse (d +:+ String bsl (join_with "\" parts)) = WinPath d "\" parts.
Proof.
  intros Hd Hp. unfold win_parse.
  rewrite to_backslash_id, win_splitroot_anchor by
    (try done; rewrite has_char_app; cbn [has_char];
     by rewrite anchor_no_slash, valid_parts_no_slash).
  f_equal. apply parts_of_join.
  eapply Forall_impl; [done|by intros x (? & ? & _)%valid_win_part_spec].
Qed.

Lemma win_str_anchored (p : win_path) :
  anchored_path p ->
  win_str p = wp_drive p +:+ String bsl (join_with "\" (wp_parts p)).
Proof.
  destruct p as [d r parts]. intros (Hd & Hr & _). simpl in *. subst r.
  unfold win_str. cbn [wp_drive wp_root wp_parts].
  change (is_empty "\") with false. rewrite andb_false_r. cbn [negb].
  rewrite anchor_nonempty by done. by rewrite string_app_cons, string_app_nil_l.
Qed.

(** What is printed has backslashes only. *)
Lemma win_str_no_slash (p : win_path) :
  anchored_path p -> has_char "/" (win_str p) = false.
Proof.
  intros Hp. rewrite win_str_anchored by done. destruct Hp as (Hd & _ & Hparts).
  rewrite has_char_app. cbn [has_char].
  by rewrite anchor_no_slash, valid_parts_no_slash.
Qed.

(** Printing and parsing, for the paths with a drive and a root. *)
Lemma win_parse_str (p : win_path) :
  anchored_path p -> win_parse (win_str p) = p.
Proof.
  intros Hp. rewrite win_str_anchored by done. destruct Hp as (Hd & Hr & Hp).
  rewrite win_parse_anchored by done. destruct p; simpl in *; by subst.
Qed.

(** [p / n] for a name adds the name to the parts. *)
Lemma win_join_name (p : win_path) (n : string) :
  anchored_path p -> win_is_name n = true ->
  win_join p n = WinPath (wp_drive p) "\" (wp_parts p ++ [n]).
Proof.
  intros Hp Hn. pose proof (win_str_anchored p Hp) as Hs.
  destruct Hp as (Hd & _ & Hp).
  pose proof (win_is_name_valid n Hn) as Hv.
  pose proof Hv as (_ & _ & Hn2)%valid_win_part_spec.
  unfold win_join, nt_join.
  rewrite Hs, to_backslash_id, win_splitroot_anchor, win_splitroot_name by done.
  change (is_empty "") with true. cbn [negb andb orb].
  change (is_empty "\") with false. rewrite andb_false_r. cbn [andb].
  rewrite join_valid_empty, last_is_join by done.
  rewrite <- (win_parse_anchored (wp_drive p) (wp_parts p ++ [n]));
    [|done|by apply Forall_app; split; [|constructor]].
  f_equal. rewrite string_app_cons, string_app_nil_l. f_equal. f_equal.
  destruct (decide (wp_parts p = [])) as [E|E].
  - rewrite E. reflexivity.
  - rewrite bool_decide_eq_false_2 by done. simpl.
    rewrite join_with_snoc by done. by rewrite !string_app_assoc.
Qed.

Lemma win_join_anchored (p : win_path) (n : string) :
  anchored_path p -> win_is_name n = true -> anchored_path (win_join p n).
Proof.
  intros Hp Hn. rewrite win_join_name by done.
  destruct Hp as (Hd & _ & Hp). split_and!; [done..|].
  apply Forall_app. split; [done|]. constructor; [|done].
  by apply win_is_name_valid.
Qed.

(** What [Path] makes of a string is often such a path. *)
Example anchored_letter : anchored_path (win_parse "C:/Users/me/env").
Proof.
  split_and!; [left; by exists "C"%char|by vm_compute|vm_compute; by repeat constructor].
Qed.

Example anchored_extended : anchored_path (win_parse "\\?\C:\env").
Proof.
  split_and!; [right|by vm_compute|vm_compute; by repeat constructor].
  exists "?", "C:". split_and!; [by vm_compute..|]. by intros [_ [=]].
Qed.

Example anchored_unc : anchored_path (win_parse "//server/share/envs/base").
Proof.
  split_and!; [right|by vm_compute|vm_compute; by repeat constructor].
  exists "server", "share". split_and!; [by vm_compute..|]. by intros [[=] _].
Qed.

(** ** Concrete checks against [pathlib] *)

Example win_parse_drive :
  win_parse "c:/Program Files/" = WinPath "c:" "\" ["Program Files"].
Proof. reflexivity. Qed.

Example win_parse_drive_relative : win_parse "C:foo" = WinPath "C:" "" ["foo"].
Proof. reflexivity. Qed.

Example win_parse_rooted : win_parse "/Windows/./x" = WinPath "" "\" ["Windows"; "x"].
Proof. reflexivity. Qed.

Example win_parse_unc :
  win_parse "//host/share/file" = WinPath "\\host\share" "\" ["file"].
Proof. reflexivity. Qed.

Example win_parse_unc_alone : win_parse "\\host\share" = WinPath "\\host\share" "\" [].
Proof. reflexivity. Qed.

Example win_parse_extended :
  win_parse "\\?\C:\env" = WinPath "\\?\C:" "\" ["env"].
Proof. reflexivity. Qed.

Example win_parse_extended_unc :
  win_parse "\\?\UNC\host\share\env" = WinPath "\\?\UNC\host\share" "\" ["env"].
Proof. reflexivity. Qed.

Example win_str_empty : win_str (win_parse "") = ".".
Proof. reflexivity. Qed.

Example win_str_forward : win_str (win_parse "C:/Users/me/env") = "C:\Users\me\env".
Proof. reflexivity. Qed.

Example win_join_rooted :
  win_str (win_join (win_parse "c:/Windows") "/Program Files") = "c:\Program Files".
Proof. reflexivity. Qed.

Example win_join_other_drive :
  win_str (win_join (win_parse "c:/Windows") "d:bar") = "d:bar".
Proof. reflexivity. Qed.

Example win_join_unc :
  win_str (win_join (win_parse "//host/share") "x") = "\\host\share\x".
Proof. reflexivity. Qed.

Example win_hook_example :
  win_str (Path (PurePath := win_PurePath) "C:/Users/me/env" / "shell" / "condabin" / "conda-hook.ps1")
  = "C:\Users\me\env\shell\condabin\conda-hook.ps1".
Proof. reflexivity. Qed.

Example win_hook_extended :
  win_str (Path (PurePath := win_PurePath) "\\?\C:\env" / "shell" / "condabin" / "conda-hook.ps1")
  = "\\?\C:\env\shell\condabin\conda-hook.ps1".
Proof. reflexivity. Qed.
