(* ===== verification/FileSys.v ===== *)
(** * FileSys: the world the checker runs in

    The checker reads the file system through [Path.exists()],
    [Path.is_dir()] and [open(...)]/[read()], and writes lines to the two
    standard streams with [print].  [FileSystem] is the interface to the
    file system and to the console, with [FileSystemLaws] the facts a real
    one satisfies.  [sys.stdout] encodes what it is given with
    [errors='strict'], so that [print] raises [UnicodeEncodeError] for a
    text its encoding does not have; [sys.stderr] replaces what it cannot
    encode and does not raise.  A
    [World] holds the file system, the files currently open and the trace
    of everything the program did so far; the primitives below are the
    Python calls of the source, as computations over a [World]. *)

From Stdlib Require Import String Ascii.
From stdpp Require Import base tactics option list strings.
From S2P Require Import Prelude PyStr Decode Paths.

(** ** The interface to the file system *)

Class FileSystem (PP : PurePath) : Type := {
  (** the state of the file system *)
  fs : Type;
  (** [p.exists()]; [pathlib] lets some [OSError]s through *)
  fs_exists : fs -> path -> outcome bool;
  (** [p.is_dir()] *)
  fs_is_dir : fs -> path -> outcome bool;
  (** [open(p, 'r', encoding='utf-8', errors='ignore')]: raises, or gives
      a file object whose [read()] returns the decoded text or raises *)
  fs_open : fs -> path -> outcome (outcome string);
  (** what writing a text to [sys.stdout] raises, if anything: the
      stream encodes with the encoding of the console or of the locale,
      and [errors='strict'] *)
  fs_stdout : fs -> string -> option exn;
}.

(** What holds of the three calls on any real file system. *)
Class FileSystemLaws {PP : PurePath} (FS : FileSystem PP) : Prop := {
  fs_is_dir_exists s p :
    fs_is_dir s p = Return true -> fs_exists s p = Return true;
  fs_open_exists s p d :
    fs_open s p = Return d -> fs_exists s p = Return true;
  fs_open_not_dir s p d :
    fs_open s p = Return d -> fs_is_dir s p = Return false;
  fs_child_parent s p n :
    is_name n = true -> fs_exists s (p / n) = Return true ->
    fs_is_dir s p = Return true;
  (** every encoding Python uses for a console holds ASCII *)
  fs_stdout_ascii s line : ascii_text line = true -> fs_stdout s line = None;
  (** and what it raises otherwise is a [UnicodeEncodeError] *)
  fs_stdout_error s line e :
    fs_stdout s line = Some e -> exn_class e = UnicodeEncodeError;
}.

(** A file system on which [exists()] and [is_dir()] never raise. *)
Definition fs_total {PP : PurePath} {FS : FileSystem PP} (s : fs) : Prop :=
  forall p, returns (fs_exists s p) = true /\ returns (fs_is_dir s p) = true.

(** The outcome of getting the text of a file: what [open] and then
    [read] give. *)
Definition read_text {PP : PurePath} {FS : FileSystem PP}
    (s : fs) (file_path : path) : outcome string :=
  match fs_open s file_path with
  | Return d => d
  | Raise e => Raise e
  end.

(** A file system on which no call raises but [open] and [read], and
    these raise instances of [Exception] only. *)
Definition no_escape {PP : PurePath} {FS : FileSystem PP} (s : fs) : Prop :=
  fs_total s /\ forall p e, read_text s p = Raise e -> catchable e = true.

(** ** Events and worlds *)

(** [sys.stdout] and [sys.stderr]. *)
Inductive stream : Type := stdout | stderr.

#[global] Instance stream_eq_dec : EqDecision stream.
Proof. solve_decision. Defined.

Section World.
Context {PP : PurePath} {FS : FileSystem PP}.

(** What the program does to its surroundings, one event per call. *)
Inductive event : Type :=
| EvExists (p : path)
| EvIsDir (p : path)
| EvOpen (p : path) (ok : bool)
| EvRead (p : path)
| EvClose (p : path)
| EvPrint (s : stream) (line : string).

#[global] Instance event_eq_dec : EqDecision event.
Proof. solve_decision. Defined.

Record World : Type := mkWorld {
  (** the file system; nothing below writes to it *)
  w_fs : fs;
  (** the files that are open, the last opened first *)
  w_open : list path;
  (** the events so far, the oldest first *)
  w_trace : list event;
}.

(** A file object: the path it was opened on and what [read()] yields. *)
Record file : Type := mkFile { f_name : path; f_content : outcome string }.

(** The world a process starts in. *)
Definition initial_world (s : fs) : World := mkWorld s [] [].

Definition log (e : event) (w : World) : World :=
  mkWorld (w_fs w) (w_open w) (w_trace w ++ [e]).

(** Remove one occurrence of [p], the most recent one. *)
Fixpoint remove_first (p : path) (l : list path) : list path :=
  match l with
  | [] => []
  | q :: l' => if decide (p = q) then l' else q :: remove_first p l'
  end.

(** ** The primitives *)

(** [p.exists()] *)
Definition path_exists (p : path) : py World bool :=
  fun w => (fs_exists (w_fs w) p, log (EvExists p) w).

(** [p.is_dir()] *)
Definition path_is_dir (p : path) : py World bool :=
  fun w => (fs_is_dir (w_fs w) p, log (EvIsDir p) w).

(** [open(p, 'r', encoding='utf-8', errors='ignore')] *)
Definition py_open (p : path) : py World file :=
  fun w =>
    match fs_open (w_fs w) p with
    | Return d =>
        (Return (mkFile p d), mkWorld (w_fs w) (p :: w_open w) (w_trace w ++ [EvOpen p true]))
    | Raise e => (Raise e, log (EvOpen p false) w)
    end.

(** [f.read()] *)
Definition file_read (f : file) : py World string :=
  fun w => (f_content f, log (EvRead (f_name f)) w).

(** [f.close()], which the [with] statement calls on exit *)
Definition file_close (f : file) : py World unit :=
  fun w =>
    (Return tt,
     mkWorld (w_fs w) (remove_first (f_name f) (w_open w))
       (w_trace w ++ [EvClose (f_name f)])).

(** [with open(p, ...) as f: body f]: the file is closed on every exit
    from [body]; when [open] itself raises there is nothing to close. *)
Definition with_open {A} (p : path) (body : file -> py World A) : py World A :=
  f ← py_open p; try_finally (body f) (file_close f).

(** [print(line, file=s)]: on [sys.stdout] a text the stream cannot
    encode raises and nothing is written; [sys.stderr] writes every
    text. *)
Definition print (s : stream) (line : string) : py World unit :=
  fun w =>
    match s, fs_stdout (w_fs w) line with
    | stdout, Some e => (Raise e, w)
    | _, _ => (Return tt, log (EvPrint s line) w)
    end.

(** ** Observations *)

(** The lines written to stream [s], in order. *)
Definition printed (s : stream) (tr : list event) : list string :=
  omap (fun e => match e with
                 | EvPrint s' line => if decide (s = s') then Some line else None
                 | _ => None
                 end) tr.

(** The paths the program tried to open, in order. *)
Definition opened (tr : list event) : list path :=
  omap (fun e => match e with EvOpen p _ => Some p | _ => None end) tr.

(** The events of [w'] that came after [w]. *)
Definition trace_since (w w' : World) : list event :=
  drop (length (w_trace w)) (w_trace w').

(** ** Relations between the worlds before and after *)

(** The file system is the same. *)
Definition same_fs (w w' : World) : Prop := w_fs w' = w_fs w.

(** The same files are open. *)
Definition same_open (w w' : World) : Prop := w_open w' = w_open w.

(** The trace only grew. *)
Definition trace_grows (w w' : World) : Prop := w_trace w `prefix_of` w_trace w'.

(** All that a read-only program may do: the file system is the same and
    nothing is taken back from the trace. *)
Definition evolves (w w' : World) : Prop := same_fs w w' /\ trace_grows w w'.

#[global] Instance same_fs_preorder : PreOrder same_fs.
Proof. split; [done|]. intros w1 w2 w3. unfold same_fs. congruence. Qed.

#[global] Instance same_open_preorder : PreOrder same_open.
Proof. split; [done|]. intros w1 w2 w3. unfold same_open. congruence. Qed.

#[global] Instance trace_grows_preorder : PreOrder trace_grows.
Proof.
  split; unfold trace_grows.
  - by intros w.
  - intros w1 w2 w3 H1 H2. by etrans.
Qed.

#[global] Instance evolves_preorder : PreOrder evolves.
Proof.
  split.
  - intros w. split; reflexivity.
  - intros w1 w2 w3 [H1 H2] [H3 H4]. split; by etrans.
Qed.

(** ** The primitives, one lemma per behaviour *)

Lemma evolves_log e w : evolves w (log e w).
Proof. split; [done|]. by apply prefix_app_r. Qed.

Lemma path_exists_evolves p : preserves evolves (path_exists p).
Proof. intros w. apply evolves_log. Qed.

Lemma path_is_dir_evolves p : preserves evolves (path_is_dir p).
Proof. intros w. apply evolves_log. Qed.

Lemma py_open_evolves p : preserves evolves (py_open p).
Proof.
  intros w. unfold py_open. destruct (fs_open _ _); simpl.
  - split; [done|]. by apply prefix_app_r.
  - apply evolves_log.
Qed.

Lemma file_read_evolves f : preserves evolves (file_read f).
Proof. intros w. apply evolves_log. Qed.

Lemma file_close_evolves f : preserves evolves (file_close f).
Proof. intros w. split; [done|]. by apply prefix_app_r. Qed.

Lemma print_evolves s line : preserves evolves (print s line).
Proof.
  intros w. unfold print.
  destruct s, (fs_stdout (w_fs w) line); simpl; (reflexivity || apply evolves_log).
Qed.

Lemma with_open_evolves {A} p (body : file -> py World A) :
  (forall f, preserves evolves (body f)) -> preserves evolves (with_open p body).
Proof.
  intros Hb. apply preserves_bind; [apply _|apply py_open_evolves|].
  intros f. apply preserves_try_finally; [apply _|apply Hb|apply file_close_evolves].
Qed.

Lemma path_exists_same_open p : preserves same_open (path_exists p).
Proof. by intros w. Qed.

Lemma path_is_dir_same_open p : preserves same_open (path_is_dir p).
Proof. by intros w. Qed.

Lemma file_read_same_open f : preserves same_open (file_read f).
Proof. by intros w. Qed.

Lemma print_same_open s line : preserves same_open (print s line).
Proof. intros w. unfold print. by destruct s, (fs_stdout (w_fs w) line). Qed.

Lemma remove_first_head p l : remove_first p (p :: l) = l.
Proof. simpl. by rewrite decide_True. Qed.

(** The [with] statement leaves open exactly the files that were open,
    whatever its body returns or raises, as long as the body itself
    leaves them so. *)
Lemma with_open_same_open {A} p (body : file -> py World A) :
  (forall f, preserves same_open (body f)) -> preserves same_open (with_open p body).
Proof.
  intros Hb w. unfold with_open. rewrite run_bind. unfold py_open.
  destruct (fs_open (w_fs w) p) as [d|e]; [|done].
  unfold try_finally.
  specialize (Hb (mkFile p d) (mkWorld (w_fs w) (p :: w_open w) (w_trace w ++ [EvOpen p true]))).
  destruct (body _ _) as [r w']. unfold same_open in *. simpl in *.
  by rewrite Hb, remove_first_head.
Qed.

(** The primitives read nothing but the file system. *)
Lemma path_exists_respects p : respects w_fs (path_exists p).
Proof. intros w1 w2 H. unfold path_exists. simpl. by rewrite H. Qed.

Lemma path_is_dir_respects p : respects w_fs (path_is_dir p).
Proof. intros w1 w2 H. unfold path_is_dir. simpl. by rewrite H. Qed.

Lemma py_open_respects p : respects w_fs (py_open p).
Proof.
  intros w1 w2 H. unfold py_open. rewrite H. by destruct (fs_open _ _).
Qed.

Lemma file_read_respects f : respects w_fs (file_read f).
Proof. by intros w1 w2 H. Qed.

Lemma file_close_respects f : respects w_fs (file_close f).
Proof. by intros w1 w2 H. Qed.

Lemma print_respects s line : respects w_fs (print s line).
Proof.
  intros w1 w2 H. unfold print. rewrite H. by destruct s, (fs_stdout (w_fs w2) line).
Qed.

Lemma with_open_respects {A} p (body : file -> py World A) :
  (forall f, respects w_fs (body f)) -> respects w_fs (with_open p body).
Proof.
  intros Hb. apply respects_bind; [apply py_open_respects|].
  intros f. apply respects_try_finally; [apply Hb|apply file_close_respects].
Qed.

(** [print] to [sys.stderr] never raises. *)
Lemma print_stderr_total line : total (print stderr line).
Proof. by intros w. Qed.

(** ** Running the primitives *)

Lemma run_path_exists p w :
  path_exists p w = (fs_exists (w_fs w) p, log (EvExists p) w).
Proof. reflexivity. Qed.

Lemma run_path_is_dir p w :
  path_is_dir p w = (fs_is_dir (w_fs w) p, log (EvIsDir p) w).
Proof. reflexivity. Qed.

Lemma run_print_stderr line w :
  print stderr line w = (Return tt, log (EvPrint stderr line) w).
Proof. reflexivity. Qed.

Lemma run_print_stdout line w :
  print stdout line w =
  match fs_stdout (w_fs w) line with
  | None => (Return tt, log (EvPrint stdout line) w)
  | Some e => (Raise e, w)
  end.
Proof. unfold print. by destruct (fs_stdout (w_fs w) line). Qed.

(** An ASCII text is written on either stream. *)
Lemma run_print_ascii {FL : FileSystemLaws FS} s line w :
  ascii_text line = true -> print s line w = (Return tt, log (EvPrint s line) w).
Proof.
  intros H. destruct s; [|done]. by rewrite run_print_stdout, fs_stdout_ascii.
Qed.

(** Opening and reading a file in one [with] block, by cases on what the
    file system answers. *)
Lemma run_with_open_read p w :
  with_open p file_read w =
  match fs_open (w_fs w) p with
  | Return d =>
      (d, mkWorld (w_fs w) (w_open w) (w_trace w ++ [EvOpen p true; EvRead p; EvClose p]))
  | Raise e => (Raise e, log (EvOpen p false) w)
  end.
Proof.
  unfold with_open. rewrite run_bind. unfold py_open.
  destruct (fs_open (w_fs w) p) as [d|e]; [|done].
  unfold try_finally, file_read, file_close, log. simpl.
  by rewrite decide_True, <- !app_assoc.
Qed.

(** ** Observations of a trace *)

Lemma printed_app s tr1 tr2 : printed s (tr1 ++ tr2) = printed s tr1 ++ printed s tr2.
Proof. apply omap_app. Qed.

Lemma opened_app tr1 tr2 : opened (tr1 ++ tr2) = opened tr1 ++ opened tr2.
Proof. apply omap_app. Qed.

Lemma trace_since_app w tr :
  trace_since w (mkWorld (w_fs w) (w_open w) (w_trace w ++ tr)) = tr.
Proof. unfold trace_since. simpl. by rewrite drop_app_length. Qed.

Lemma trace_grows_since w w' :
  trace_grows w w' -> w_trace w' = w_trace w ++ trace_since w w'.
Proof.
  intros [tr H]. unfold trace_since. by rewrite H, drop_app_length.
Qed.

End World.

Arguments World {PP} FS.
Arguments event {PP}.
Arguments file {PP}.

(** [world_simpl]: reduce the projections of the worlds the primitives
    build, leaving the program's own definitions folded. *)
Ltac world_simpl := cbn [negb log w_fs w_open w_trace fst snd].

(** [world_eq]: close an equation between results whose worlds differ only
    in how their traces are bracketed. *)
Ltac world_eq :=
  unfold log; simpl; rewrite <- ?app_assoc, ?app_nil_r; simpl; done.

#[export] Hint Resolve path_exists_evolves path_is_dir_evolves py_open_evolves
  file_read_evolves file_close_evolves print_evolves with_open_evolves
  path_exists_same_open path_is_dir_same_open file_read_same_open
  print_same_open with_open_same_open
  path_exists_respects path_is_dir_respects py_open_respects
  file_read_respects file_close_respects print_respects with_open_respects
  print_stderr_total : py.

#[export] Hint Rewrite @run_path_exists @run_path_is_dir @run_print_stderr
  @run_with_open_read : py.
