(* ===== verification/MemFS.v ===== *)
(** * MemFS: a file system in memory

    An implementation of [FileSystem] on POSIX paths: a finite map from
    absolute lists of parts to nodes, and a working directory.  A path is
    resolved one part at a time, so that a missing or unsearchable
    ancestor, or a file in the place of a directory, gives the error the
    operating system gives.  The three calls turn that error into what
    [pathlib] and [open] do with it; a file holds bytes, and reading it
    gives the text [Decode.v] makes of them.  The state also holds the
    encoding of [sys.stdout], which decides what [print] can write.  The
    instance satisfies [FileSystemLaws], and the concrete runs of the
    other files use it. *)

From Stdlib Require Import String Ascii NArith.
From Stdlib.Strings Require Import Byte.
From stdpp Require Import base tactics option list strings gmap.
From S2P Require Import Prelude PyStr Decode Paths FileSys.

(** ** Nodes and states *)

Inductive mnode : Type :=
(** a directory, and whether it may be searched *)
| MDir (searchable : bool)
(** a regular file: whether it may be opened for reading, and what
    reading it gives once it is open, its bytes or an error *)
| MFile (readable : bool) (data : outcome (list byte)).

(** The encoding of [sys.stdout]: UTF-8, as on a terminal; ASCII, as
    under the C locale of older versions; Windows code page 1252, as on
    Windows when the output goes to a file or a pipe. *)
Inductive encoding : Type := utf_8 | us_ascii | cp1252.

Record memfs : Type := MemFS {
  (** the nodes, by absolute path; the root is [[]] *)
  m_nodes : gmap (list string) mnode;
  (** the working directory, against which relative paths resolve *)
  m_cwd : list string;
  (** the encoding of [sys.stdout] *)
  m_stdout : encoding;
}.

(** The result of [stat] on a path. *)
Inductive stat_result : Type :=
| StNode (n : mnode)
| ENOENT
| ENOTDIR
| EACCES.

(** ** Resolution *)

(** The parent of an absolute path; the root is its own parent. *)
Definition parent_of (cur : list string) : list string := removelast cur.

(** Follow [rest] from the directory [cur]: each step needs [cur] to be a
    searchable directory. *)
Fixpoint walk (m : gmap (list string) mnode) (cur rest : list string) : stat_result :=
  match rest with
  | [] =>
      match m !! cur with
      | Some n => StNode n
      | None => ENOENT
      end
  | name :: rest' =>
      match m !! cur with
      | Some (MDir true) =>
          walk m (if decide (name = "..") then parent_of cur else cur ++ [name]) rest'
      | Some (MDir false) => EACCES
      | Some (MFile _ _) => ENOTDIR
      | None => ENOENT
      end
  end.

(** [os.stat(p)] *)
Definition stat (s : memfs) (p : posix_path) : stat_result :=
  if bool_decide (pp_root p = "") then walk (m_nodes s) [] (m_cwd s ++ pp_parts p)
  else walk (m_nodes s) [] (pp_parts p).

(** ** Errors *)

(** [str(e)] of an [OSError] raised for path [p]. *)
Definition os_error_str (errno : string) (what : string) (p : posix_path) : string :=
  "[Errno " +:+ errno +:+ "] " +:+ what +:+ ": '" +:+ posix_str p +:+ "'".

Definition permission_denied (p : posix_path) : exn :=
  PyExc PermissionError (os_error_str "13" "Permission denied" p).

Definition no_such_file (p : posix_path) : exn :=
  PyExc FileNotFoundError (os_error_str "2" "No such file or directory" p).

Definition not_a_directory (p : posix_path) : exn :=
  PyExc NotADirectoryError (os_error_str "20" "Not a directory" p).

Definition is_a_directory (p : posix_path) : exn :=
  PyExc IsADirectoryError (os_error_str "21" "Is a directory" p).

(** ** The three calls *)

(** [p.exists()]: a missing path or a file in the way is [False], a
    directory that may not be searched raises. *)
Definition mem_exists (s : memfs) (p : posix_path) : outcome bool :=
  match stat s p with
  | StNode _ => Return true
  | ENOENT | ENOTDIR => Return false
  | EACCES => Raise (permission_denied p)
  end.

(** [p.is_dir()] *)
Definition mem_is_dir (s : memfs) (p : posix_path) : outcome bool :=
  match stat s p with
  | StNode (MDir _) => Return true
  | StNode (MFile _ _) => Return false
  | ENOENT | ENOTDIR => Return false
  | EACCES => Raise (permission_denied p)
  end.

(** [open(p, 'r', encoding='utf-8', errors='ignore')]; [read()] on the
    file it gives decodes the bytes. *)
Definition mem_open (s : memfs) (p : posix_path) : outcome (outcome string) :=
  match stat s p with
  | StNode (MFile true data) => Return (outcome_map text_of_bytes data)
  | StNode (MFile false _) => Raise (permission_denied p)
  | StNode (MDir _) => Raise (is_a_directory p)
  | ENOENT => Raise (no_such_file p)
  | ENOTDIR => Raise (not_a_directory p)
  | EACCES => Raise (permission_denied p)
  end.

(** ** The console *)

Definition one_of (l : list N) (b : byte) : bool := bool_decide (Byte.to_N b ∈ l).

(** The characters of code page 1252 beyond ASCII, by their bytes in
    UTF-8: U+00A0 to U+00FF, and the 27 characters the code page has in
    the place of the C1 controls. *)
Definition cp1252_two (b1 b2 : byte) : bool :=
  one_of [0xC2%N] b1 && byte_in 0xA0 0xBF b2
  || one_of [0xC3%N] b1 && byte_in 0x80 0xBF b2
  || one_of [0xC5%N] b1 && one_of [0x92; 0x93; 0xA0; 0xA1; 0xB8; 0xBD; 0xBE]%N b2
  || one_of [0xC6%N] b1 && one_of [0x92%N] b2
  || one_of [0xCB%N] b1 && one_of [0x86; 0x9C]%N b2.

Definition cp1252_three (b1 b2 b3 : byte) : bool :=
  one_of [0xE2%N] b1 &&
  (one_of [0x80%N] b2 &&
     one_of [0x93; 0x94; 0x98; 0x99; 0x9A; 0x9C; 0x9D; 0x9E; 0xA0; 0xA1; 0xA2;
             0xA6; 0xB0; 0xB9; 0xBA]%N b3
   || one_of [0x82%N] b2 && one_of [0xAC%N] b3
   || one_of [0x84%N] b2 && one_of [0xA2%N] b3).

(** Every character of the text, given by its UTF-8 bytes, is in code
    page 1252. *)
Fixpoint cp1252_encodes (l : list byte) : bool :=
  match l with
  | [] => true
  | b1 :: l1 =>
      if is_ascii_byte b1 then cp1252_encodes l1
      else
        match l1 with
        | [] => false
        | b2 :: l2 =>
            if cp1252_two b1 b2 then cp1252_encodes l2
            else
              match l2 with
              | [] => false
              | b3 :: l3 => cp1252_three b1 b2 b3 && cp1252_encodes l3
              end
        end
  end.

(** [text.encode(enc, errors='strict')] succeeds.  A text that is not
    well-formed UTF-8 stands for a [str] with lone surrogates, as made
    from a command line that could not be decoded: no encoding takes
    it. *)
Definition encodes (enc : encoding) (text : string) : bool :=
  match enc with
  | utf_8 => bool_decide (well_formed (list_byte_of_string text))
  | us_ascii => ascii_text text
  | cp1252 => cp1252_encodes (list_byte_of_string text)
  end.

(** What [print] to [sys.stdout] raises.  The text of the error, which
    names the codec and the character, is never read by the program and
    is left empty. *)
Definition mem_stdout (s : memfs) (text : string) : option exn :=
  if encodes (m_stdout s) text then None else Some (PyExc UnicodeEncodeError "").

#[global] Instance mem_FileSystem : FileSystem posix_PurePath := {|
  fs := memfs;
  fs_exists := mem_exists;
  fs_is_dir := mem_is_dir;
  fs_open := mem_open;
  fs_stdout := mem_stdout;
|}.

(** ** Building a file system *)

(** A file system from the list of its nodes, with a UTF-8 console. *)
Definition memfs_of (cwd : list string) (l : list (list string * mnode)) : memfs :=
  MemFS (list_to_map l) cwd utf_8.

(** The same file system with another encoding of [sys.stdout]. *)
Definition with_stdout (enc : encoding) (s : memfs) : memfs :=
  MemFS (m_nodes s) (m_cwd s) enc.

(** A readable file with the given bytes. *)
Definition binary_file (data : list byte) : mnode := MFile true (Return data).

(** A readable file holding the given text, encoded in UTF-8. *)
Definition text_file (text : string) : mnode :=
  binary_file (list_byte_of_string text).

(** A searchable directory. *)
Definition directory : mnode := MDir true.

(** ** Resolution, step by step *)

Lemma walk_app m cur l1 l2 :
  walk m cur (l1 ++ l2) =
  match walk m cur l1 with
  | StNode _ =>
      walk m (fold_left (fun c n => if decide (n = "..") then parent_of c else c ++ [n]) l1 cur) l2
  | r => r
  end.
Proof.
  revert cur. induction l1 as [|n l1 IH]; intros cur; simpl.
  - destruct (m !! cur) as [nd|] eqn:E; [done|]. destruct l2; simpl; by rewrite E.
  - destruct (m !! cur) as [[[]|]|]; by try apply IH.
Qed.

(** A path that resolves to a node ends on a key of the map. *)
Lemma walk_node_lookup m cur l nd :
  walk m cur l = StNode nd ->
  m !! fold_left (fun c n => if decide (n = "..") then parent_of c else c ++ [n]) l cur
  = Some nd.
Proof.
  revert cur. induction l as [|x l IH]; intros cur; simpl.
  - destruct (m !! cur); naive_solver.
  - destruct (m !! cur) as [[[]|]|]; by try apply IH.
Qed.

(** Resolving one more ordinary name succeeds only below a directory. *)
Lemma walk_snoc_node m cur l n nd :
  walk m cur (l ++ [n]) = StNode nd ->
  exists b, walk m cur l = StNode (MDir b).
Proof.
  rewrite walk_app. destruct (walk m cur l) as [nd'| | |] eqn:E; try done.
  apply walk_node_lookup in E. simpl. rewrite E.
  destruct nd' as [b|]; [by exists b|done].
Qed.

Lemma stat_join_node (s : memfs) (p : posix_path) (n : string) nd :
  posix_is_name n = true -> stat s (posix_join p n) = StNode nd ->
  exists b, stat s p = StNode (MDir b).
Proof.
  intros [Hn _]%posix_is_name_spec. rewrite posix_join_simple by done.
  unfold stat. simpl. case_bool_decide; [rewrite app_assoc|]; apply walk_snoc_node.
Qed.

(** ** The console and ASCII *)

Lemma cp1252_encodes_ascii (l : list byte) :
  Forall (fun b => is_ascii_byte b = true) l -> cp1252_encodes l = true.
Proof. induction 1 as [|b l Hb _ IH]; [done|]. simpl. by rewrite Hb. Qed.

(** Every encoding takes an ASCII text. *)
Lemma encodes_ascii (enc : encoding) (text : string) :
  ascii_text text = true -> encodes enc text = true.
Proof.
  intros H. pose proof (ascii_text_Forall _ H) as Hf. destruct enc; simpl; [|done|].
  - by apply bool_decide_eq_true_2, well_formed_iff, utf8_ignore_ascii.
  - by apply cp1252_encodes_ascii.
Qed.

Example encodes_check_mark :
  encodes utf_8 "✓" = true /\ encodes cp1252 "✓" = false /\ encodes us_ascii "✓" = false.
Proof. by vm_compute. Qed.

Example encodes_latin : encodes cp1252 "café €" = true /\ encodes us_ascii "café" = false.
Proof. by vm_compute. Qed.

(** A byte that continues no sequence stands for a lone surrogate. *)
Example encodes_surrogate : encodes utf_8 (String "200" "") = false.
Proof. by vm_compute. Qed.

(** ** The laws *)

#[global] Instance mem_FileSystemLaws : FileSystemLaws mem_FileSystem.
Proof.
  split; simpl; unfold mem_exists, mem_is_dir, mem_open, mem_stdout.
  - intros s p. by destruct (stat s p) as [[]| | |].
  - intros s p d. by destruct (stat s p) as [[|[]]| | |].
  - intros s p d. by destruct (stat s p) as [[|[]]| | |].
  - intros s p n Hn. destruct (stat s (posix_join p n)) as [nd| | |] eqn:E; try done.
    intros _. destruct (stat_join_node s p n nd Hn E) as [b ->]. done.
  - intros s line H. by rewrite encodes_ascii.
  - intros s line e. by destruct (encodes _ _); intros [= <-].
Qed.

(** ** Files *)

(** A path that resolves to a readable file exists, and opening it gives
    the text of its bytes. *)
Lemma mem_exists_node (s : memfs) (p : posix_path) (n : mnode) :
  stat s p = StNode n -> mem_exists s p = Return true.
Proof. unfold mem_exists. by intros ->. Qed.

Lemma mem_open_file (s : memfs) (p : posix_path) (data : list byte) :
  stat s p = StNode (MFile true (Return data)) ->
  mem_open s p = Return (Return (text_of_bytes data)).
Proof. unfold mem_open. by intros ->. Qed.

(** A node that makes no call escape: a directory that may be searched,
    or a file whose [read()] raises an [Exception] if it raises. *)
Definition tame_node (n : mnode) : bool :=
  match n with
  | MDir searchable => searchable
  | MFile _ (Raise e) => catchable e
  | MFile _ (Return _) => true
  end.

(** A file system all of whose nodes are tame. *)
Definition tame (s : memfs) : Prop :=
  map_Forall (fun _ n => tame_node n = true) (m_nodes s).

#[global] Instance tame_dec s : Decision (tame s).
Proof. unfold tame. apply _. Defined.

Lemma walk_tame m cur rest :
  map_Forall (fun _ n => tame_node n = true) m -> walk m cur rest <> EACCES.
Proof.
  intros Hs. revert cur. induction rest as [|n rest IH]; intros cur; simpl.
  - by destruct (m !! cur).
  - destruct (m !! cur) as [[[]|]|] eqn:E; try done. by apply Hs in E.
Qed.

Lemma stat_tame (s : memfs) (p : posix_path) : tame s -> stat s p <> EACCES.
Proof. intros Hs. unfold stat. case_bool_decide; by apply walk_tame. Qed.

Lemma stat_node_lookup (s : memfs) (p : posix_path) (n : mnode) :
  stat s p = StNode n -> exists k, m_nodes s !! k = Some n.
Proof.
  unfold stat. case_bool_decide; intros Hw%walk_node_lookup; eauto.
Qed.

(** On a tame file system nothing escapes. *)
Lemma tame_no_escape (s : memfs) : tame s -> no_escape (FS := mem_FileSystem) s.
Proof.
  intros Hs. split.
  - intros p. simpl. unfold mem_exists, mem_is_dir.
    pose proof (stat_tame s p Hs). by destruct (stat s p) as [[]| | |].
  - intros p e. unfold read_text. simpl. unfold mem_open.
    pose proof (stat_tame s p Hs).
    destruct (stat s p) as [[|[] [|e']]| | |] eqn:E; try done; intros [= <-]; try done.
    apply stat_node_lookup in E as [k E]. by apply Hs in E.
Qed.

(** ** A sample environment *)

(** An environment at [/opt/env] with the given node as its hook script,
    beside a directory [/opt/locked] that may not be searched. *)
Definition sample_env_with (hook : mnode) : memfs :=
  memfs_of [] [
    ([], directory);
    (["opt"], directory);
    (["opt"; "locked"], MDir false);
    (["opt"; "locked"; "env"], directory);
    (["opt"; "env"], directory);
    (["opt"; "env"; "conda-meta"], directory);
    (["opt"; "env"; "shell"], directory);
    (["opt"; "env"; "shell"; "condabin"], directory);
    (["opt"; "env"; "shell"; "condabin"; "conda-hook.ps1"], hook)
  ].

(** The same environment on a file system with no locked directory. *)
Definition plain_env (hook : string) : memfs :=
  memfs_of [] [
    ([], directory);
    (["opt"], directory);
    (["opt"; "env"], directory);
    (["opt"; "env"; "conda-meta"], directory);
    (["opt"; "env"; "shell"], directory);
    (["opt"; "env"; "shell"; "condabin"], directory);
    (["opt"; "env"; "shell"; "condabin"; "conda-hook.ps1"], text_file hook)
  ].

(** An environment whose [conda-meta] is a regular file. *)
Definition conda_meta_file_env : memfs :=
  memfs_of [] [([], directory); (["opt"], directory);
               (["opt"; "env"], directory);
               (["opt"; "env"; "conda-meta"], text_file "not a directory");
               (["opt"; "env"; "shell"], directory);
               (["opt"; "env"; "shell"; "condabin"], directory);
               (["opt"; "env"; "shell"; "condabin"; "conda-hook.ps1"],
                text_file "Write-Host hello")].

(** The environment whose hook script holds the given text. *)
Definition sample_env (hook : string) : memfs := sample_env_with (text_file hook).

(** The world of a process started on the file system [s]. *)
Definition mem_world (s : memfs) : World mem_FileSystem := initial_world s.

(** The path of the hook script in the sample environment. *)
Definition sample_hook : @path posix_PurePath :=
  Path "/opt/env/shell/condabin/conda-hook.ps1".

Example sample_env_hook_exists :
  mem_exists (sample_env "x") (posix_parse "/opt/env/shell/condabin/conda-hook.ps1")
  = Return true.
Proof. vm_compute. reflexivity. Qed.

Example sample_env_missing :
  mem_exists (sample_env "x") (posix_parse "/opt/other") = Return false.
Proof. vm_compute. reflexivity. Qed.

Example sample_env_dotdot :
  mem_is_dir (sample_env "x") (posix_parse "/opt/env/shell/../conda-meta") = Return true.
Proof. vm_compute. reflexivity. Qed.

Example sample_env_file_in_the_way :
  mem_open (sample_env "x") (posix_parse "/opt/env/shell/condabin/conda-hook.ps1/x")
  = Raise (not_a_directory (posix_parse "/opt/env/shell/condabin/conda-hook.ps1/x")).
Proof. vm_compute. reflexivity. Qed.
