(* ===== verification/Scanner.v ===== *)
(** * Scanner: [check_file_for_extended_paths] and [get_files_to_check]

    The pattern scanner of the source: one file is tested for the two
    extended-length path prefixes, a missing or unreadable file becoming an
    issue of its own.  [file_issues] and [file_events] state, as functions
    of what the file system answers, the issues a file gives and the calls
    made on the way; [check_file_run] proves that the program computes
    exactly those, and the theorems after it are its consequences.  The
    path of the hook script is studied on both kinds of path: it is a
    well-formed path with the three parts added on POSIX paths, and on
    Windows paths with a drive and a root, where it also survives
    printing and parsing. *)

From Stdlib Require Import String Ascii.
From stdpp Require Import base tactics option list strings.
From S2P Require Import Prelude PyStr Paths WinPaths FileSys MemFS.

Section Scanner.
Context {PP : PurePath} {FS : FileSystem PP}.

(** ** The program *)

(** The two prefixes the content is tested for. *)
Definition fwd_prefix : string := "//?/".
Definition back_prefix : string := "\\?\".

(** The four messages, as the f-strings of the source build them. *)
Definition msg_missing (file_path : path) : string :=
  "File does not exist: " +:+ path_str file_path.

Definition msg_fwd (file_path : path) : string :=
  "Found //?/ extended-length path prefix in " +:+ path_str file_path.

Definition msg_back (file_path : path) : string :=
  "Found \\?\ extended-length path prefix in " +:+ path_str file_path.

Definition msg_read_error (file_path : path) (e : exn) : string :=
  "Error reading file " +:+ path_str file_path +:+ ": " +:+ exn_str e.

(** The two tests on the text read, each appending to [issues]. *)
Definition scan_content (file_path : path) (content : string)
    (issues : list string) : list string :=
  let issues :=
    if contains fwd_prefix content then issues ++ [msg_fwd file_path] else issues in
  let issues :=
    if contains back_prefix content then issues ++ [msg_back file_path] else issues in
  issues.

Definition check_file_for_extended_paths (file_path : path)
    : py (World FS) (list string) :=
  let issues := [] in
  found ← path_exists file_path;
  if negb found then mret [msg_missing file_path]
  else
    try_except
      (content ← with_open file_path file_read;
       mret (scan_content file_path content issues))
      (fun e => mret (issues ++ [msg_read_error file_path e])).

(** The one file checked today: the PowerShell hook of the environment. *)
Definition conda_hook (env_path : path) : path :=
  env_path / "shell" / "condabin" / "conda-hook.ps1".

Definition get_files_to_check (env_path : path) : list path :=
  let files_to_check := [conda_hook env_path] in
  files_to_check.

(** ** What the scanner is to compute *)

(** The issues of one file, from the answers of the file system. *)
Definition file_issues (s : fs) (file_path : path) : outcome (list string) :=
  match fs_exists s file_path with
  | Raise e => Raise e
  | Return false => Return [msg_missing file_path]
  | Return true =>
      match read_text s file_path with
      | Return content => Return (scan_content file_path content [])
      | Raise e =>
          if catchable e then Return [msg_read_error file_path e] else Raise e
      end
  end.

(** The calls made on one file, in order. *)
Definition file_events (s : fs) (file_path : path) : list event :=
  match fs_exists s file_path with
  | Return true =>
      match fs_open s file_path with
      | Return _ =>
          [EvExists file_path; EvOpen file_path true; EvRead file_path;
           EvClose file_path]
      | Raise _ => [EvExists file_path; EvOpen file_path false]
      end
  | _ => [EvExists file_path]
  end.

(** ** The program computes it *)

Lemma check_file_run (file_path : path) (w : World FS) :
  check_file_for_extended_paths file_path w =
  (file_issues (w_fs w) file_path,
   mkWorld (w_fs w) (w_open w) (w_trace w ++ file_events (w_fs w) file_path)).
Proof.
  unfold check_file_for_extended_paths, file_issues, file_events, read_text.
  rewrite run_bind, run_path_exists.
  destruct (fs_exists (w_fs w) file_path) as [[]|e]; try done.
  cbn [negb]. unfold try_except. rewrite run_bind, run_with_open_read. simpl.
  destruct (fs_open (w_fs w) file_path) as [[content|e]|e]; unfold log; simpl;
    rewrite <- ?app_assoc; try done; by destruct (catchable e).
Qed.

(** ** What holds of every run, by composition *)

(** The scanner writes nothing and only adds to the trace. *)
Lemma check_file_evolves (file_path : path) :
  preserves evolves (check_file_for_extended_paths file_path).
Proof. unfold check_file_for_extended_paths. py_auto. Qed.

(** It leaves open the files that were open. *)
Lemma check_file_same_open (file_path : path) :
  preserves same_open (check_file_for_extended_paths file_path).
Proof. unfold check_file_for_extended_paths. py_auto. Qed.

(** Its outcome is a function of the file system. *)
Lemma check_file_respects (file_path : path) :
  respects w_fs (check_file_for_extended_paths file_path).
Proof. unfold check_file_for_extended_paths. py_auto. Qed.

(** ** The tests on the content *)

Lemma scan_content_cases (file_path : path) (content : string) :
  scan_content file_path content [] =
  (if contains fwd_prefix content then [msg_fwd file_path] else []) ++
  (if contains back_prefix content then [msg_back file_path] else []).
Proof.
  unfold scan_content.
  by destruct (contains fwd_prefix content), (contains back_prefix content).
Qed.

Lemma scan_content_acc (file_path : path) (content : string) (issues : list string) :
  scan_content file_path content issues =
  issues ++ scan_content file_path content [].
Proof.
  unfold scan_content.
  destruct (contains fwd_prefix content), (contains back_prefix content);
    simpl; by rewrite ?app_nil_r, <- ?app_assoc.
Qed.

Lemma scan_content_length (file_path : path) (content : string) :
  length (scan_content file_path content []) <= 2.
Proof.
  rewrite scan_content_cases.
  destruct (contains fwd_prefix content), (contains back_prefix content);
    simpl; lia.
Qed.

Lemma scan_content_nil (file_path : path) (content : string) :
  scan_content file_path content [] = [] <->
  ~ Substring fwd_prefix content /\ ~ Substring back_prefix content.
Proof.
  rewrite scan_content_cases, <- !contains_false.
  destruct (contains fwd_prefix content), (contains back_prefix content);
    simpl; split; (done || by intros [??]).
Qed.

(** Every message names the file it is about. *)
Lemma msg_missing_names_file (file_path : path) :
  Substring (path_str file_path) (msg_missing file_path).
Proof. apply Substring_suffix. Qed.

Lemma msg_read_error_names_file (file_path : path) (e : exn) :
  Substring (path_str file_path) (msg_read_error file_path e).
Proof. apply Substring_infix. Qed.

Lemma scan_content_names_file (file_path : path) (content issue : string) :
  issue ∈ scan_content file_path content [] -> Substring (path_str file_path) issue.
Proof.
  rewrite scan_content_cases, elem_of_app.
  destruct (contains fwd_prefix content), (contains back_prefix content);
    rewrite ?list_elem_of_singleton, ?elem_of_nil;
    intros [H|H]; try done; subst issue; apply Substring_suffix.
Qed.

(** What [file_issues] returns is short and names the file. *)
Lemma file_issues_shape (s : fs) (file_path : path) (issues : list string) :
  file_issues s file_path = Return issues ->
  length issues <= 2 /\
  forall issue, issue ∈ issues -> Substring (path_str file_path) issue.
Proof.
  unfold file_issues.
  destruct (fs_exists _ _) as [[]|]; [|intros [= <-]|done].
  - destruct (read_text _ _) as [content|e].
    + intros [= <-]. split; [apply scan_content_length|].
      apply scan_content_names_file.
    + destruct (catchable e); [|done]. intros [= <-]. split; [simpl; lia|].
      intros issue ->%list_elem_of_singleton. apply msg_read_error_names_file.
  - split; [simpl; lia|].
    intros issue ->%list_elem_of_singleton. apply msg_missing_names_file.
Qed.

(** The issues of a file that is read are those of its text. *)
Lemma file_issues_read (s : fs) (file_path : path) (content : string) :
  fs_exists s file_path = Return true ->
  fs_open s file_path = Return (Return content) ->
  file_issues s file_path = Return (scan_content file_path content []).
Proof. unfold file_issues, read_text. by intros -> ->. Qed.

(** ** The scanner, property by property *)

(** C6: the issues [check_file_for_extended_paths] returns, or the
    exception it raises, are those of [file_issues]: a function of what
    the file system answers for this one path, whatever else the world
    holds. *)
Theorem check_file_refines (file_path : path) (w : World FS) :
  (check_file_for_extended_paths file_path w).1 = file_issues (w_fs w) file_path.
Proof. by rewrite check_file_run. Qed.

(** The calls [check_file_for_extended_paths] makes are, in this
    order, [exists()], then [open()], then [read()] and [close()]: the
    file is not opened when it does not exist, and not read when it cannot
    be opened. *)
Theorem check_file_trace (file_path : path) (w : World FS) :
  w_trace (check_file_for_extended_paths file_path w).2 =
  w_trace w ++ file_events (w_fs w) file_path.
Proof. by rewrite check_file_run. Qed.

(** C5: [check_file_for_extended_paths] leaves open exactly the files
    that were open before the call, on every exit: normal return, an
    error turned into an issue, or an exception that escapes. *)
Theorem check_file_closes_file (file_path : path) (w : World FS) :
  w_open (check_file_for_extended_paths file_path w).2 = w_open w.
Proof. by rewrite check_file_run. Qed.

(** C11: a file that does not exist gives exactly one issue, "File does
    not exist: <path>", and the file is never opened. *)
Theorem check_file_missing (file_path : path) (w : World FS) :
  fs_exists (w_fs w) file_path = Return false ->
  (check_file_for_extended_paths file_path w).1 = Return [msg_missing file_path] /\
  opened (trace_since w (check_file_for_extended_paths file_path w).2) = [].
Proof.
  intros H. rewrite check_file_run. cbn [fst snd]. rewrite trace_since_app.
  unfold file_issues, file_events. by rewrite H.
Qed.

(** C4: for a file that is read, the issues are decided by the two
    substring tests alone: the [//?/] message is there exactly when the
    text contains [//?/], the [\\?\] message exactly when it contains
    [\\?\], the first before the second, and nothing else. *)
Theorem check_file_scanned (file_path : path) (content : string) (w : World FS) :
  fs_exists (w_fs w) file_path = Return true ->
  fs_open (w_fs w) file_path = Return (Return content) ->
  (check_file_for_extended_paths file_path w).1 =
  Return ((if bool_decide (Substring "//?/" content) then [msg_fwd file_path] else []) ++
          (if bool_decide (Substring "\\?\" content) then [msg_back file_path] else [])).
Proof.
  intros Hex Hop. rewrite check_file_run. cbn [fst].
  rewrite (file_issues_read _ _ content), scan_content_cases by done.
  by rewrite !contains_decide.
Qed.

(** C29: an [Exception] raised by [open()] or by [read()] does not escape:
    it becomes the single issue "Error reading file <path>: <error>". *)
Theorem check_file_read_error (file_path : path) (e : exn) (w : World FS) :
  fs_exists (w_fs w) file_path = Return true ->
  read_text (w_fs w) file_path = Raise e ->
  catchable e = true ->
  (check_file_for_extended_paths file_path w).1 =
  Return [msg_read_error file_path e].
Proof.
  intros Hex Hrd He. rewrite check_file_run. simpl.
  unfold file_issues. by rewrite Hex, Hrd, He.
Qed.

(** An exception that is not an [Exception] ([KeyboardInterrupt])
    raised while the file is opened or read is not caught by the
    [except Exception] clause: it escapes the function. *)
Theorem check_file_interrupt_escapes (file_path : path) (e : exn) (w : World FS) :
  fs_exists (w_fs w) file_path = Return true ->
  read_text (w_fs w) file_path = Raise e ->
  catchable e = false ->
  (check_file_for_extended_paths file_path w).1 = Raise e.
Proof.
  intros Hex Hrd He. rewrite check_file_run. simpl.
  unfold file_issues. by rewrite Hex, Hrd, He.
Qed.

(** An exception raised by [file_path.exists()] escapes
    [check_file_for_extended_paths] even when it is an [Exception]: the
    call stands before the [try] block. *)
Theorem check_file_exists_error_escapes (file_path : path) (e : exn) (w : World FS) :
  fs_exists (w_fs w) file_path = Raise e ->
  (check_file_for_extended_paths file_path w).1 = Raise e.
Proof.
  intros Hex. rewrite check_file_run. simpl. unfold file_issues. by rewrite Hex.
Qed.

(** C34: what escapes the scanner.  An exception raised by
    [file_path.exists()] escapes even when it is an [Exception], because
    the call stands before the [try] block; an exception raised while the
    file is opened or read escapes when it is not an [Exception]
    ([KeyboardInterrupt]), because the clause is [except Exception]. *)
Theorem check_file_escapes (file_path : path) (e : exn) (w : World FS) :
  (fs_exists (w_fs w) file_path = Raise e ->
   (check_file_for_extended_paths file_path w).1 = Raise e) /\
  (fs_exists (w_fs w) file_path = Return true ->
   read_text (w_fs w) file_path = Raise e ->
   catchable e = false ->
   (check_file_for_extended_paths file_path w).1 = Raise e).
Proof.
  split; [apply check_file_exists_error_escapes|apply check_file_interrupt_escapes].
Qed.

(** Whatever the file system holds, a call that returns gives at
    most two issues, and each of them names the file. *)
Theorem check_file_issues_shape (file_path : path) (issues : list string) (w : World FS) :
  (check_file_for_extended_paths file_path w).1 = Return issues ->
  length issues <= 2 /\
  forall issue, issue ∈ issues -> Substring (path_str file_path) issue.
Proof. rewrite check_file_run. apply file_issues_shape. Qed.

End Scanner.

(** ** The file to check, on POSIX paths *)

Lemma simple_name_shell : simple_name "shell".
Proof. reflexivity. Qed.

Lemma simple_name_condabin : simple_name "condabin".
Proof. reflexivity. Qed.

Lemma simple_name_hook : simple_name "conda-hook.ps1".
Proof. reflexivity. Qed.

(** [get_files_to_check] names exactly one file, and on POSIX paths
    it is rendered as the environment path followed by
    [/shell/condabin/conda-hook.ps1]. *)
Theorem get_files_to_check_posix (env_path : posix_path) :
  pp_parts env_path <> [] ->
  map posix_str (get_files_to_check (PP := posix_PurePath) env_path) =
  [posix_str env_path +:+ "/shell/condabin/conda-hook.ps1"].
Proof.
  intros Hp. unfold get_files_to_check, conda_hook. simpl.
  assert (forall p n, pp_parts p <> [] -> simple_name n ->
            pp_parts (posix_join p n) <> []) as Hne.
  { intros p n _ Hn. rewrite posix_join_parts by done. by destruct (pp_parts p). }
  rewrite !posix_str_join;
    auto using simple_name_shell, simple_name_condabin, simple_name_hook.
  by rewrite !string_app_assoc.
Qed.

(** The hook script of a path, part by part. *)
Lemma conda_hook_posix (p : posix_path) :
  conda_hook (PP := posix_PurePath) p =
  PosixPath (pp_root p) (pp_parts p ++ ["shell"; "condabin"; "conda-hook.ps1"]).
Proof.
  unfold conda_hook. simpl.
  rewrite !posix_join_simple
    by auto using simple_name_shell, simple_name_condabin, simple_name_hook.
  simpl. by rewrite <- !app_assoc.
Qed.

(** C24: the paths [get_files_to_check] builds are well-formed path
    objects: whatever string the environment path was made from, each has
    one of the three roots and parts that are neither empty, nor [.], nor
    hold a separator; the hook script keeps the root of the environment
    and adds three parts to its parts. *)
Theorem get_files_to_check_wf (env_path : string) :
  Forall wf_posix_path (get_files_to_check (PP := posix_PurePath) (Path env_path)) /\
  get_files_to_check (PP := posix_PurePath) (Path env_path) =
  [PosixPath (pp_root (posix_parse env_path))
     (pp_parts (posix_parse env_path) ++ ["shell"; "condabin"; "conda-hook.ps1"])].
Proof.
  unfold get_files_to_check. split; [|by rewrite conda_hook_posix].
  apply Forall_singleton. unfold conda_hook. simpl.
  repeat apply posix_join_wf. apply posix_parse_wf.
Qed.

(** ** The file to check, on Windows paths *)

Lemma win_hook_names :
  win_is_name "shell" = true /\ win_is_name "condabin" = true /\
  win_is_name "conda-hook.ps1" = true.
Proof. vm_compute. done. Qed.

Lemma conda_hook_windows (p : win_path) :
  anchored_path p ->
  conda_hook (PP := win_PurePath) p =
  WinPath (wp_drive p) "\" (wp_parts p ++ ["shell"; "condabin"; "conda-hook.ps1"]) /\
  anchored_path (conda_hook (PP := win_PurePath) p).
Proof.
  intros Hp. destruct win_hook_names as (H1 & H2 & H3). unfold conda_hook.
  cbn [joinpath win_PurePath].
  split; [|by repeat apply win_join_anchored].
  rewrite !win_join_name by (try done; by repeat apply win_join_anchored).
  cbn [wp_drive wp_parts]. by rewrite <- !app_assoc.
Qed.

(** C25: on Windows, for an environment on a drive with a root (a drive
    letter, or a UNC or device drive such as [\\server\share] and
    [\\?\C:]), the one path [get_files_to_check] builds keeps the drive
    and the root of the environment and adds the parts [shell],
    [condabin], [conda-hook.ps1]; the messages print it with backslashes
    only, also when the environment path was given with forward slashes,
    and parsing what is printed gives the path back. *)
Theorem get_files_to_check_windows (p : win_path) :
  anchored_path p ->
  get_files_to_check (PP := win_PurePath) p =
  [WinPath (wp_drive p) "\" (wp_parts p ++ ["shell"; "condabin"; "conda-hook.ps1"])] /\
  has_char "/" (path_str (conda_hook (PP := win_PurePath) p)) = false /\
  Path (path_str (conda_hook (PP := win_PurePath) p)) = conda_hook (PP := win_PurePath) p.
Proof.
  intros Hp. destruct (conda_hook_windows p Hp) as [Heq Hh].
  unfold get_files_to_check. split_and!.
  - by rewrite Heq.
  - by apply win_str_no_slash.
  - by apply win_parse_str.
Qed.

Lemma get_files_to_check_windows_witness :
  get_files_to_check (PP := win_PurePath) (Path (PurePath := win_PurePath) "C:/Users/me/env") =
  [WinPath "C:" "\" ["Users"; "me"; "env"; "shell"; "condabin"; "conda-hook.ps1"]] /\
  has_char "/" (path_str (conda_hook (PP := win_PurePath) (Path (PurePath := win_PurePath) "C:/Users/me/env"))) = false /\
  Path (path_str (conda_hook (PP := win_PurePath) (Path (PurePath := win_PurePath) "C:/Users/me/env"))) =
  conda_hook (PP := win_PurePath) (Path (PurePath := win_PurePath) "C:/Users/me/env").
Proof.
  apply (get_files_to_check_windows (win_parse "C:/Users/me/env")).
  split_and!; [left; by exists "C"%char|by vm_compute|vm_compute; by repeat constructor].
Defined.

Lemma get_files_to_check_posix_witness :
  map posix_str (get_files_to_check (PP := posix_PurePath) (Path "envs/base")) =
  [posix_str (Path "envs/base") +:+ "/shell/condabin/conda-hook.ps1"].
Proof. by apply get_files_to_check_posix. Defined.

(** ** Concrete runs *)

Lemma check_file_missing_witness :
  (check_file_for_extended_paths (FS := mem_FileSystem) (Path "/opt/env/none.ps1")
     (mem_world (sample_env ""))).1
  = Return [msg_missing (Path "/opt/env/none.ps1")] /\
  opened (trace_since (mem_world (sample_env ""))
            (check_file_for_extended_paths (FS := mem_FileSystem) (Path "/opt/env/none.ps1")
               (mem_world (sample_env ""))).2) = [].
Proof. apply (check_file_missing (FS := mem_FileSystem)). reflexivity. Defined.

Lemma check_file_scanned_witness :
  (check_file_for_extended_paths (FS := mem_FileSystem) sample_hook
     (mem_world (sample_env "$p = '//?/C:/env'; cd \\?\C:\env"))).1
  = Return ["Found //?/ extended-length path prefix in /opt/env/shell/condabin/conda-hook.ps1";
            "Found \\?\ extended-length path prefix in /opt/env/shell/condabin/conda-hook.ps1"].
Proof.
  apply (check_file_scanned (FS := mem_FileSystem) sample_hook
           "$p = '//?/C:/env'; cd \\?\C:\env"); reflexivity.
Defined.

Lemma check_file_read_error_witness :
  (check_file_for_extended_paths (FS := mem_FileSystem) sample_hook
     (mem_world (sample_env_with (MFile false (Return []))))).1
  = Return [msg_read_error sample_hook (permission_denied sample_hook)].
Proof. apply (check_file_read_error (FS := mem_FileSystem)); reflexivity. Defined.

Lemma check_file_interrupt_escapes_witness :
  (check_file_for_extended_paths (FS := mem_FileSystem) sample_hook
     (mem_world
        (sample_env_with (MFile true (Raise (PyExc KeyboardInterrupt "")))))).1
  = Raise (PyExc KeyboardInterrupt "").
Proof.
  apply (check_file_interrupt_escapes (FS := mem_FileSystem)); reflexivity.
Defined.

Lemma check_file_exists_error_escapes_witness :
  (check_file_for_extended_paths (FS := mem_FileSystem) (Path "/opt/locked/env/hook.ps1")
     (mem_world (sample_env ""))).1
  = Raise (permission_denied (Path "/opt/locked/env/hook.ps1")).
Proof.
  apply (check_file_exists_error_escapes (FS := mem_FileSystem)); reflexivity.
Defined.

Lemma check_file_issues_shape_witness :
  length [msg_fwd sample_hook] <= 2 /\
  forall issue, issue ∈ [msg_fwd sample_hook] ->
    Substring (path_str sample_hook) issue.
Proof.
  apply (check_file_issues_shape (FS := mem_FileSystem) sample_hook
           [msg_fwd sample_hook] (mem_world (sample_env "//?/"))).
  reflexivity.
Defined.

#[export] Hint Rewrite @check_file_run : py.
#[export] Hint Resolve check_file_evolves check_file_same_open
  check_file_respects : py.
#[export] Hint Unfold fwd_prefix back_prefix : py.
