(* ===== verification/Checker.v ===== *)
(** * Checker: [check_conda_environment]

    The environment validator and the loop over the files to check.  The
    three structural checks stop at the first that fails, with one issue;
    an environment that passes them has each of its files scanned, the
    issues accumulated in order.  [env_result] and [env_events] give the
    result and the calls as functions of the file system's answers,
    [check_conda_environment_run] proves the program computes them, and
    [CheckSpec] is the contract of the function as a relation, which the
    program is proved to meet in both directions. *)

From Stdlib Require Import String Ascii.
From stdpp Require Import base tactics option list strings.
From S2P Require Import Prelude PyStr Paths FileSys MemFS Scanner.

Section Checker.
Context {PP : PurePath} {FS : FileSystem PP}.

(** ** The program *)

(** The three messages of the structural checks: each holds the path
    string as it was given, not the path object made from it. *)
Definition msg_env_missing (env_path : string) : string :=
  "Environment path does not exist: " +:+ env_path.

Definition msg_env_not_dir (env_path : string) : string :=
  "Environment path is not a directory: " +:+ env_path.

Definition msg_not_conda (env_path : string) : string :=
  "Not a conda environment (no conda-meta directory): " +:+ env_path.

(** The loop [for file_path in files_to_check], with [all_issues] the
    variable it extends. *)
Definition check_files (files_to_check : list path) (all_issues : list string)
    : py (World FS) (list string) :=
  for_each files_to_check
    (fun file_path all_issues =>
       issues ← check_file_for_extended_paths file_path;
       mret (all_issues ++ issues))
    all_issues.

Definition check_conda_environment (env_path : string)
    : py (World FS) (bool * list string) :=
  let env_path_obj := Path env_path in
  found ← path_exists env_path_obj;
  if negb found then mret (false, [msg_env_missing env_path])
  else
    is_dir ← path_is_dir env_path_obj;
    if negb is_dir then mret (false, [msg_env_not_dir env_path])
    else
      let conda_meta := env_path_obj / "conda-meta" in
      has_meta ← path_exists conda_meta;
      if negb has_meta then mret (false, [msg_not_conda env_path])
      else
        let all_issues := [] in
        let files_to_check := get_files_to_check env_path_obj in
        all_issues ← check_files files_to_check all_issues;
        mret ((length all_issues =? 0)%nat, all_issues).

(** ** What the loop computes *)

(** The issues of the files, in order, after those already found; the
    first exception that escapes a file ends the loop. *)
Fixpoint files_issues (s : fs) (files : list path) (acc : list string)
    : outcome (list string) :=
  match files with
  | [] => Return acc
  | file_path :: rest =>
      match file_issues s file_path with
      | Return issues => files_issues s rest (acc ++ issues)
      | Raise e => Raise e
      end
  end.

(** The calls made on the files, in order. *)
Fixpoint files_events (s : fs) (files : list path) : list event :=
  match files with
  | [] => []
  | file_path :: rest =>
      file_events s file_path ++
      match file_issues s file_path with
      | Return _ => files_events s rest
      | Raise _ => []
      end
  end.

Lemma check_files_run (files : list path) (acc : list string) (w : World FS) :
  check_files files acc w =
  (files_issues (w_fs w) files acc,
   mkWorld (w_fs w) (w_open w) (w_trace w ++ files_events (w_fs w) files)).
Proof.
  unfold check_files. revert acc w.
  induction files as [|file_path rest IH]; intros acc w.
  - simpl. rewrite app_nil_r. by destruct w.
  - rewrite for_each_cons, run_bind, run_bind, check_file_run. simpl.
    destruct (file_issues (w_fs w) file_path) as [issues|e].
    + rewrite run_ret, IH. simpl. by rewrite app_assoc.
    + by rewrite app_nil_r.
Qed.

(** ** What the function computes *)

(** The verdict of the three structural checks: the message of the first
    that fails, or [None] when the path is accepted as an environment. *)
Definition validate (s : fs) (env_path : string) : outcome (option string) :=
  match fs_exists s (Path env_path) with
  | Raise e => Raise e
  | Return false => Return (Some (msg_env_missing env_path))
  | Return true =>
      match fs_is_dir s (Path env_path) with
      | Raise e => Raise e
      | Return false => Return (Some (msg_env_not_dir env_path))
      | Return true =>
          match fs_exists s (Path env_path / "conda-meta") with
          | Raise e => Raise e
          | Return false => Return (Some (msg_not_conda env_path))
          | Return true => Return None
          end
      end
  end.

(** The calls of the structural checks, in order. *)
Definition validate_events (s : fs) (env_path : string) : list event :=
  match fs_exists s (Path env_path) with
  | Return true =>
      match fs_is_dir s (Path env_path) with
      | Return true =>
          [EvExists (Path env_path); EvIsDir (Path env_path);
           EvExists (Path env_path / "conda-meta")]
      | _ => [EvExists (Path env_path); EvIsDir (Path env_path)]
      end
  | _ => [EvExists (Path env_path)]
  end.

(** The path is accepted as an environment: it exists, is a directory and
    has a [conda-meta] entry. *)
Definition is_environment (s : fs) (env_path : string) : Prop :=
  fs_exists s (Path env_path) = Return true /\
  fs_is_dir s (Path env_path) = Return true /\
  fs_exists s (Path env_path / "conda-meta") = Return true.

Definition env_result (s : fs) (env_path : string) : outcome (bool * list string) :=
  match validate s env_path with
  | Raise e => Raise e
  | Return (Some msg) => Return (false, [msg])
  | Return None =>
      match files_issues s (get_files_to_check (Path env_path)) [] with
      | Return all_issues => Return ((length all_issues =? 0)%nat, all_issues)
      | Raise e => Raise e
      end
  end.

Definition env_events (s : fs) (env_path : string) : list event :=
  validate_events s env_path ++
  match validate s env_path with
  | Return None => files_events s (get_files_to_check (Path env_path))
  | _ => []
  end.

Lemma check_conda_environment_run (env_path : string) (w : World FS) :
  check_conda_environment env_path w =
  (env_result (w_fs w) env_path,
   mkWorld (w_fs w) (w_open w) (w_trace w ++ env_events (w_fs w) env_path)).
Proof.
  unfold check_conda_environment, env_result, env_events, validate, validate_events.
  rewrite run_bind, run_path_exists.
  destruct (fs_exists (w_fs w) (Path env_path)) as [[]|e]; [|done..].
  world_simpl. rewrite run_bind, run_path_is_dir. world_simpl.
  destruct (fs_is_dir (w_fs w) (Path env_path)) as [[]|e]; [|world_eq..].
  world_simpl. rewrite run_bind, run_path_exists. world_simpl.
  destruct (fs_exists (w_fs w) (Path env_path / "conda-meta")) as [[]|e];
    [|world_eq..].
  world_simpl. rewrite run_bind, check_files_run. world_simpl.
  destruct (files_issues _ _ _); world_eq.
Qed.

(** ** What holds of every run, by composition *)

Lemma check_conda_environment_evolves (env_path : string) :
  preserves evolves (check_conda_environment env_path).
Proof. unfold check_conda_environment, check_files. py_auto. Qed.

Lemma check_conda_environment_same_open (env_path : string) :
  preserves same_open (check_conda_environment env_path).
Proof. unfold check_conda_environment, check_files. py_auto. Qed.

Lemma check_conda_environment_respects (env_path : string) :
  respects w_fs (check_conda_environment env_path).
Proof. unfold check_conda_environment, check_files. py_auto. Qed.

(** ** The contract *)

(** What [check_conda_environment] promises for a path, given the file
    system: one constructor per way of returning. *)
Inductive CheckSpec (s : fs) (env_path : string) : bool * list string -> Prop :=
| PathNotFound :
    fs_exists s (Path env_path) = Return false ->
    CheckSpec s env_path (false, [msg_env_missing env_path])
| NotADirectory :
    fs_exists s (Path env_path) = Return true ->
    fs_is_dir s (Path env_path) = Return false ->
    CheckSpec s env_path (false, [msg_env_not_dir env_path])
| NotAnEnvironment :
    fs_exists s (Path env_path) = Return true ->
    fs_is_dir s (Path env_path) = Return true ->
    fs_exists s (Path env_path / "conda-meta") = Return false ->
    CheckSpec s env_path (false, [msg_not_conda env_path])
| Scanned (per_file : list (list string)) :
    fs_exists s (Path env_path) = Return true ->
    fs_is_dir s (Path env_path) = Return true ->
    fs_exists s (Path env_path / "conda-meta") = Return true ->
    Forall2 (fun file_path issues => file_issues s file_path = Return issues)
      (get_files_to_check (Path env_path)) per_file ->
    CheckSpec s env_path (bool_decide (concat per_file = []), concat per_file).

(** ** Facts on the loop *)

Lemma files_issues_acc (s : fs) (files : list path) (acc : list string) :
  files_issues s files acc =
  outcome_map (app acc) (files_issues s files []).
Proof.
  revert acc. induction files as [|file_path rest IH]; intros acc; simpl.
  - by rewrite app_nil_r.
  - destruct (file_issues s file_path) as [issues|e]; [|done].
    rewrite (IH (acc ++ issues)), (IH issues).
    destruct (files_issues s rest []); simpl; by rewrite ?app_assoc.
Qed.

Lemma files_issues_app (s : fs) (l1 l2 : list path) (acc : list string) :
  files_issues s (l1 ++ l2) acc =
  match files_issues s l1 acc with
  | Return acc' => files_issues s l2 acc'
  | Raise e => Raise e
  end.
Proof.
  revert acc. induction l1 as [|file_path l1 IH]; intros acc; simpl; [done|].
  by destruct (file_issues s file_path).
Qed.

(** The loop returns exactly when every file gives its issues, and then
    returns them concatenated in the order of the files. *)
Lemma files_issues_Return (s : fs) (files : list path) (all : list string) :
  files_issues s files [] = Return all <->
  exists per_file,
    Forall2 (fun file_path issues => file_issues s file_path = Return issues)
      files per_file /\ all = concat per_file.
Proof.
  revert all. induction files as [|file_path rest IH]; intros all; simpl.
  - split; [intros [= <-]; by exists []|].
    intros (per_file & ->%Forall2_nil_inv_l & ->). done.
  - destruct (file_issues s file_path) as [issues|e] eqn:E.
    + rewrite files_issues_acc. split.
      * destruct (files_issues s rest []) as [more|e'] eqn:E'; [|done].
        intros [= <-]. destruct (proj1 (IH more) eq_refl) as (per_file & H & ->).
        exists (issues :: per_file). split; [by constructor|done].
      * intros (per_file & (issues' & per_rest & E2 & H & ->)%Forall2_cons_inv_l & ->).
        rewrite E in E2. injection E2 as <-.
        rewrite (proj2 (IH (concat per_rest))); [done|eauto].
    + split; [done|].
      intros (per_file & (issues' & per_rest & E2 & _)%Forall2_cons_inv_l & _).
      by rewrite E in E2.
Qed.

Lemma files_issues_length (s : fs) (files : list path) (all : list string) :
  files_issues s files [] = Return all -> length all <= 2 * length files.
Proof.
  intros (per_file & H & ->)%files_issues_Return.
  induction H as [|file_path issues rest per_rest Hi _ IH]; simpl; [lia|].
  rewrite length_app. apply file_issues_shape in Hi as [Hi _]. lia.
Qed.

Lemma length_eqb_0_decide {A} (l : list A) :
  (length l =? 0)%nat = bool_decide (l = []).
Proof. by destruct l. Qed.

(** The structural checks accept the path exactly when the three calls
    answer [True]. *)
Lemma validate_None (s : fs) (env_path : string) :
  validate s env_path = Return None <-> is_environment s env_path.
Proof.
  unfold validate, is_environment.
  destruct (fs_exists s (Path env_path)) as [[]|];
    [|by split; [|intros (?&?&?)]..].
  destruct (fs_is_dir s (Path env_path)) as [[]|];
    [|by split; [|intros (?&?&?)]..].
  by destruct (fs_exists s (Path env_path / "conda-meta")) as [[]|];
    (split; [|intros (?&?&?)]).
Qed.

Lemma env_result_accepted (s : fs) (env_path : string) :
  validate s env_path = Return None ->
  env_result s env_path =
  outcome_map (fun all_issues => (bool_decide (all_issues = []), all_issues))
    (files_issues s (get_files_to_check (Path env_path)) []).
Proof.
  unfold env_result. intros ->.
  destruct (files_issues _ _ _); simpl; by rewrite ?length_eqb_0_decide.
Qed.

(** Where no call of the file system escapes, nothing escapes a file, the
    loop or the function. *)
Lemma file_issues_returns (s : fs) (file_path : path) :
  no_escape s -> returns (file_issues s file_path) = true.
Proof.
  intros [Ht Hc]. unfold file_issues. destruct (Ht file_path) as [H _].
  destruct (fs_exists s file_path) as [[]|]; [|done..].
  destruct (read_text s file_path) as [|e] eqn:E; [done|]. by rewrite (Hc _ _ E).
Qed.

Lemma files_issues_returns (s : fs) (files : list path) (acc : list string) :
  no_escape s -> returns (files_issues s files acc) = true.
Proof.
  intros Hs. revert acc. induction files as [|file_path rest IH]; intros acc; [done|].
  simpl. pose proof (file_issues_returns s file_path Hs).
  by destruct (file_issues s file_path).
Qed.

Lemma validate_returns (s : fs) (env_path : string) :
  fs_total s -> returns (validate s env_path) = true.
Proof.
  intros Ht. unfold validate.
  destruct (Ht (Path env_path)) as [H1 H2].
  destruct (Ht (Path env_path / "conda-meta")) as [H3 _].
  destruct (fs_exists s (Path env_path)) as [[]|]; [|done..].
  destruct (fs_is_dir s (Path env_path)) as [[]|]; [|done..].
  by destruct (fs_exists s (Path env_path / "conda-meta")) as [[]|].
Qed.

(** Success is reported with an empty list of issues and only then. *)
Lemma env_result_consistent (s : fs) (env_path : string)
    (success : bool) (issues : list string) :
  env_result s env_path = Return (success, issues) ->
  (success = true <-> issues = []).
Proof.
  unfold env_result. destruct (validate _ _) as [[msg|]|]; [| |done].
  - intros [= <- <-]. split; done.
  - destruct (files_issues _ _ _) as [all|]; [|done].
    intros [= <- <-]. by rewrite length_zero_iff_nil_b.
Qed.

(** ** How long the function runs *)

Lemma file_events_length (s : fs) (file_path : path) :
  length (file_events s file_path) <= 4.
Proof.
  unfold file_events. destruct (fs_exists s file_path) as [[]|]; simpl; try lia.
  destruct (fs_open s file_path); simpl; lia.
Qed.

Lemma files_events_length (s : fs) (files : list path) :
  length (files_events s files) <= 4 * length files.
Proof.
  induction files as [|file_path rest IH]; simpl; [lia|].
  rewrite length_app. pose proof (file_events_length s file_path).
  destruct (file_issues s file_path); simpl; lia.
Qed.

Lemma validate_events_length (s : fs) (env_path : string) :
  length (validate_events s env_path) <= 3.
Proof.
  unfold validate_events. destruct (fs_exists s _) as [[]|]; simpl; try lia.
  destruct (fs_is_dir s _) as [[]|]; simpl; lia.
Qed.

Lemma env_events_length (s : fs) (env_path : string) :
  length (env_events s env_path) <=
  3 + 4 * length (get_files_to_check (Path env_path)).
Proof.
  unfold env_events. rewrite length_app.
  pose proof (validate_events_length s env_path).
  pose proof (files_events_length s (get_files_to_check (Path env_path))).
  destruct (validate s env_path) as [[msg|]|]; simpl in *; lia.
Qed.

Lemma env_result_issues_length (s : fs) (env_path : string)
    (success : bool) (issues : list string) :
  env_result s env_path = Return (success, issues) ->
  length issues <= 2 * length (get_files_to_check (Path env_path)).
Proof.
  unfold env_result. destruct (validate _ _) as [[msg|]|]; [| |done].
  - intros [= <- <-]. simpl. lia.
  - destruct (files_issues _ _ _) as [all|] eqn:Hf; [|done].
    intros [= <- <-]. by apply files_issues_length in Hf.
Qed.

Lemma env_result_returns (s : fs) (env_path : string) :
  no_escape s -> returns (env_result s env_path) = true.
Proof.
  intros Hs. unfold env_result.
  pose proof (validate_returns s env_path (proj1 Hs)).
  pose proof (files_issues_returns s (get_files_to_check (Path env_path)) [] Hs).
  destruct (validate _ _) as [[msg|]|]; [done| |done].
  by destruct (files_issues _ _ _).
Qed.

(** ** The function, property by property *)

(** C2: [check_conda_environment] returns a result [r] exactly when the
    contract [CheckSpec] relates the file system and the path to [r]:
    path not found, not a directory, not an environment, or the issues of
    the files to check concatenated in their order. *)
Theorem check_conda_environment_meets_spec
    (env_path : string) (r : bool * list string) (w : World FS) :
  (check_conda_environment env_path w).1 = Return r <->
  CheckSpec (w_fs w) env_path r.
Proof.
  rewrite check_conda_environment_run. cbn [fst]. split.
  - unfold env_result.
    destruct (validate (w_fs w) env_path) as [[msg|]|] eqn:Hv; [| |done].
    + intros [= <-]. revert Hv. unfold validate.
      destruct (fs_exists _ (Path env_path)) as [[]|] eqn:E1;
        [|by try (intros [= <-]; constructor)..].
      destruct (fs_is_dir _ _) as [[]|] eqn:E2;
        [|by try (intros [= <-]; constructor)..].
      by destruct (fs_exists _ (_ / _)) as [[]|] eqn:E3;
        try (intros [= <-]; constructor).
    + apply validate_None in Hv as (E1 & E2 & E3).
      destruct (files_issues _ _ _) as [all|] eqn:Hf; [|done].
      intros [= <-]. apply files_issues_Return in Hf as (per_file & H & ->).
      rewrite length_eqb_0_decide. by constructor.
  - intros [E1|E1 E2|E1 E2 E3|per_file E1 E2 E3 H].
    + unfold env_result, validate. by rewrite E1.
    + unfold env_result, validate. by rewrite E1, E2.
    + unfold env_result, validate. by rewrite E1, E2, E3.
    + rewrite env_result_accepted by (by apply validate_None).
      rewrite (proj2 (files_issues_Return _ _ (concat per_file))); [done|eauto].
Qed.

(** C3: in every result [(success, issues)] that [check_conda_environment]
    returns, [success] is true exactly when [issues] is empty. *)
Theorem check_result_consistent
    (env_path : string) (success : bool) (issues : list string) (w : World FS) :
  (check_conda_environment env_path w).1 = Return (success, issues) ->
  (success = true <-> issues = []).
Proof.
  rewrite check_conda_environment_run. apply env_result_consistent.
Qed.

(** The calls of [check_conda_environment] are, in this order,
    [exists()] and [is_dir()] on the environment path, [exists()] on its
    [conda-meta] entry, then the calls of each file to check in turn; the
    sequence stops at the first structural check that fails. *)
Theorem check_conda_environment_trace (env_path : string) (w : World FS) :
  w_trace (check_conda_environment env_path w).2 =
  w_trace w ++ env_events (w_fs w) env_path.
Proof. by rewrite check_conda_environment_run. Qed.

(** When the environment path does not exist the result is failure
    with the single issue "Environment path does not exist: <env_path>",
    and the only call made is the one [exists()]. *)
Theorem check_path_not_found (env_path : string) (w : World FS) :
  fs_exists (w_fs w) (Path env_path) = Return false ->
  check_conda_environment env_path w =
  (Return (false, [msg_env_missing env_path]), log (EvExists (Path env_path)) w).
Proof.
  intros E. rewrite check_conda_environment_run.
  unfold env_result, env_events, validate, validate_events. rewrite E. world_eq.
Qed.

(** When the environment path exists and is not a directory the
    result is failure with the single issue "Environment path is not a
    directory: <env_path>"; nothing is asked about [conda-meta] and no
    file is opened. *)
Theorem check_not_a_directory (env_path : string) (w : World FS) :
  fs_exists (w_fs w) (Path env_path) = Return true ->
  fs_is_dir (w_fs w) (Path env_path) = Return false ->
  (check_conda_environment env_path w).1 = Return (false, [msg_env_not_dir env_path]) /\
  trace_since w (check_conda_environment env_path w).2 =
  [EvExists (Path env_path); EvIsDir (Path env_path)].
Proof.
  intros E1 E2. rewrite check_conda_environment_run. cbn [fst snd].
  rewrite trace_since_app.
  unfold env_result, env_events, validate, validate_events. by rewrite E1, E2.
Qed.

(** When the environment directory has no [conda-meta] entry the
    result is failure with the single issue "Not a conda environment (no
    conda-meta directory): <env_path>", and no file is opened. *)
Theorem check_not_an_environment (env_path : string) (w : World FS) :
  fs_exists (w_fs w) (Path env_path) = Return true ->
  fs_is_dir (w_fs w) (Path env_path) = Return true ->
  fs_exists (w_fs w) (Path env_path / "conda-meta") = Return false ->
  (check_conda_environment env_path w).1 = Return (false, [msg_not_conda env_path]) /\
  opened (trace_since w (check_conda_environment env_path w).2) = [].
Proof.
  intros E1 E2 E3. rewrite check_conda_environment_run. cbn [fst snd].
  rewrite trace_since_app.
  unfold env_result, env_events, validate, validate_events. by rewrite E1, E2, E3.
Qed.

(** C30: a structural check that fails ends the function at once, with
    failure and the one issue of that check: "Environment path does not
    exist" after the one call of [exists()]; "Environment path is not a
    directory" after [exists()] and [is_dir()], nothing being asked about
    [conda-meta]; "Not a conda environment" when there is no [conda-meta]
    entry.  In none of the three cases is a file opened. *)
Theorem check_structural_failures (env_path : string) (w : World FS) :
  (fs_exists (w_fs w) (Path env_path) = Return false ->
   check_conda_environment env_path w =
   (Return (false, [msg_env_missing env_path]), log (EvExists (Path env_path)) w)) /\
  (fs_exists (w_fs w) (Path env_path) = Return true ->
   fs_is_dir (w_fs w) (Path env_path) = Return false ->
   (check_conda_environment env_path w).1 = Return (false, [msg_env_not_dir env_path]) /\
   trace_since w (check_conda_environment env_path w).2 =
   [EvExists (Path env_path); EvIsDir (Path env_path)]) /\
  (fs_exists (w_fs w) (Path env_path) = Return true ->
   fs_is_dir (w_fs w) (Path env_path) = Return true ->
   fs_exists (w_fs w) (Path env_path / "conda-meta") = Return false ->
   (check_conda_environment env_path w).1 = Return (false, [msg_not_conda env_path]) /\
   opened (trace_since w (check_conda_environment env_path w).2) = []).
Proof.
  split_and!; [apply check_path_not_found|apply check_not_a_directory|
               apply check_not_an_environment].
Qed.

(** [check_conda_environment] writes nothing to the file system and
    leaves open exactly the files that were open before the call,
    whatever it returns or raises. *)
Theorem check_conda_environment_read_only (env_path : string) (w : World FS) :
  w_fs (check_conda_environment env_path w).2 = w_fs w /\
  w_open (check_conda_environment env_path w).2 = w_open w.
Proof. by rewrite check_conda_environment_run. Qed.

(** Running [check_conda_environment] a second time, in the world the
    first run left, gives the same result as the first run. *)
Theorem check_conda_environment_idempotent (env_path : string) (w : World FS) :
  (check_conda_environment env_path (check_conda_environment env_path w).2).1 =
  (check_conda_environment env_path w).1.
Proof.
  apply (rerun_same w_fs); [apply check_conda_environment_respects|].
  apply check_conda_environment_evolves.
Qed.

(** C33: on a file system whose [exists()] and [is_dir()] never raise and
    whose read errors are all instances of [Exception],
    [check_conda_environment] always returns a result: no exception
    escapes it. *)
Theorem check_conda_environment_returns (env_path : string) (w : World FS) :
  no_escape (w_fs w) ->
  returns (check_conda_environment env_path w).1 = true.
Proof.
  intros Hs. rewrite check_conda_environment_run. by apply env_result_returns.
Qed.

(** C35: an exception raised by one of the three structural calls
    ([exists()] or [is_dir()] on the environment path, [exists()] on
    [conda-meta]) escapes [check_conda_environment]: none of them stands
    in a [try] block. *)
Theorem check_validation_error_escapes (env_path : string) (e : exn) (w : World FS) :
  validate (w_fs w) env_path = Raise e ->
  (check_conda_environment env_path w).1 = Raise e.
Proof.
  intros E. rewrite check_conda_environment_run. cbn [fst]. unfold env_result.
  by rewrite E.
Qed.

(** The result never holds more than two issues per file to check, and
    there is a file to check. *)
Theorem check_issue_count
    (env_path : string) (success : bool) (issues : list string) (w : World FS) :
  (check_conda_environment env_path w).1 = Return (success, issues) ->
  1 <= length (get_files_to_check (Path env_path)) /\
  length issues <= 2 * length (get_files_to_check (Path env_path)).
Proof.
  rewrite check_conda_environment_run. cbn [fst].
  intros H%env_result_issues_length. split; [simpl; lia|done].
Qed.

(** C37: two path strings that make the same path object are checked
    alike: the same calls in the same order and the same verdict; only the
    text of a structural issue, which quotes the string, can differ. *)
Theorem check_same_path_object (env_path1 env_path2 : string) (w : World FS) :
  Path env_path1 = Path env_path2 ->
  w_trace (check_conda_environment env_path1 w).2 =
  w_trace (check_conda_environment env_path2 w).2 /\
  outcome_map fst (check_conda_environment env_path1 w).1 =
  outcome_map fst (check_conda_environment env_path2 w).1.
Proof.
  intros H. rewrite !check_conda_environment_run. cbn [fst snd w_trace].
  unfold env_events, env_result, validate_events, validate. rewrite H.
  destruct (fs_exists _ (Path env_path2)) as [[]|]; [|done..].
  destruct (fs_is_dir _ (Path env_path2)) as [[]|]; [|done..].
  destruct (fs_exists _ (_ / _)) as [[]|]; [|done..].
  by destruct (files_issues _ _ _).
Qed.

(** C9: for any list of files, the loop over the files returns exactly
    when every file gives its issues, and then returns the issues found
    before followed by those of each file, in the order of the list. *)
Theorem check_files_in_order
    (files : list path) (acc all : list string) (w : World FS) :
  (check_files files acc w).1 = Return all <->
  exists per_file,
    Forall2 (fun file_path issues => file_issues (w_fs w) file_path = Return issues)
      files per_file /\ all = acc ++ concat per_file.
Proof.
  rewrite check_files_run. cbn [fst]. rewrite files_issues_acc. split.
  - destruct (files_issues (w_fs w) files []) as [more|] eqn:E; [|done].
    intros [= <-]. apply files_issues_Return in E as (per_file & H & ->). eauto.
  - intros (per_file & H & ->).
    rewrite (proj2 (files_issues_Return _ _ (concat per_file))); [done|eauto].
Qed.

(** An environment whose hook script does not exist fails with the
    single issue "File does not exist: <hook>": absence is reported, not
    skipped. *)
Theorem check_missing_hook (env_path : string) (w : World FS) :
  is_environment (w_fs w) env_path ->
  fs_exists (w_fs w) (conda_hook (Path env_path)) = Return false ->
  (check_conda_environment env_path w).1 =
  Return (false, [msg_missing (conda_hook (Path env_path))]).
Proof.
  intros Henv%validate_None E. rewrite check_conda_environment_run. cbn [fst].
  rewrite env_result_accepted by done. simpl. unfold file_issues. by rewrite E.
Qed.

(** For an environment whose hook script is read, success means that
    the text holds neither prefix, and the issues are the [//?/] message
    when the text holds [//?/] followed by the [\\?\] message when it
    holds [\\?\]. *)
Theorem check_env_scanned (env_path content : string) (w : World FS) :
  is_environment (w_fs w) env_path ->
  fs_exists (w_fs w) (conda_hook (Path env_path)) = Return true ->
  fs_open (w_fs w) (conda_hook (Path env_path)) = Return (Return content) ->
  (check_conda_environment env_path w).1 =
  Return
    (bool_decide (~ Substring "//?/" content /\ ~ Substring "\\?\" content),
     (if bool_decide (Substring "//?/" content)
      then [msg_fwd (conda_hook (Path env_path))] else []) ++
     (if bool_decide (Substring "\\?\" content)
      then [msg_back (conda_hook (Path env_path))] else [])).
Proof.
  intros Henv%validate_None E1 E2. rewrite check_conda_environment_run. cbn [fst].
  rewrite env_result_accepted by done. simpl.
  unfold file_issues, read_text. rewrite E1, E2. simpl.
  rewrite scan_content_cases, !contains_decide. do 2 f_equal.
  apply bool_decide_ext.
  do 2 case_bool_decide; simpl; split; (done || tauto || by intros [??]).
Qed.

(** C38: nothing is asked of [conda-meta] but that it exists.  On a file
    system that satisfies [FileSystemLaws], a path with an entry of that
    name passes all three structural checks, be the entry a directory or a
    regular file, and the result is the one of scanning the files. *)
Theorem conda_meta_file_accepted `{!FileSystemLaws FS}
    (env_path : string) (w : World FS) :
  is_name "conda-meta" = true ->
  fs_exists (w_fs w) (Path env_path / "conda-meta") = Return true ->
  (check_conda_environment env_path w).1 =
  outcome_map (fun all_issues => (bool_decide (all_issues = []), all_issues))
    (files_issues (w_fs w) (get_files_to_check (Path env_path)) []).
Proof.
  intros Hn E. rewrite check_conda_environment_run. cbn [fst].
  apply env_result_accepted, validate_None.
  pose proof (fs_child_parent _ _ _ Hn E) as Hd.
  split_and!; [by apply fs_is_dir_exists|done..].
Qed.

End Checker.

#[export] Hint Rewrite @check_files_run @check_conda_environment_run : py.
#[export] Hint Resolve check_conda_environment_evolves
  check_conda_environment_same_open check_conda_environment_respects : py.

(** ** Concrete runs *)

Lemma check_result_consistent_witness : true = true <-> @nil string = [].
Proof.
  apply (check_result_consistent (FS := mem_FileSystem) "/opt/env" true []
           (mem_world (sample_env "Write-Host hello"))).
  vm_compute. reflexivity.
Defined.

Lemma check_path_not_found_witness :
  check_conda_environment "/nowhere" (mem_world (sample_env "")) =
  (Return (false, [msg_env_missing "/nowhere"]),
   log (EvExists (Path "/nowhere")) (mem_world (sample_env ""))).
Proof. apply (check_path_not_found (FS := mem_FileSystem)). reflexivity. Defined.

Lemma check_not_a_directory_witness :
  (check_conda_environment "/opt/env/shell/condabin/conda-hook.ps1"
     (mem_world (sample_env ""))).1
  = Return (false, [msg_env_not_dir "/opt/env/shell/condabin/conda-hook.ps1"]) /\
  trace_since (mem_world (sample_env ""))
    (check_conda_environment "/opt/env/shell/condabin/conda-hook.ps1"
       (mem_world (sample_env ""))).2
  = [EvExists sample_hook; EvIsDir sample_hook].
Proof. apply (check_not_a_directory (FS := mem_FileSystem)); reflexivity. Defined.

Lemma check_not_an_environment_witness :
  (check_conda_environment "/opt" (mem_world (sample_env ""))).1
  = Return (false, [msg_not_conda "/opt"]) /\
  opened (trace_since (mem_world (sample_env ""))
            (check_conda_environment "/opt" (mem_world (sample_env ""))).2) = [].
Proof. apply (check_not_an_environment (FS := mem_FileSystem)); reflexivity. Defined.

Lemma check_conda_environment_returns_witness :
  returns (check_conda_environment "/opt/env" (mem_world (plain_env "//?/"))).1 = true.
Proof.
  apply (check_conda_environment_returns (FS := mem_FileSystem)).
  apply tame_no_escape, (bool_decide_unpack _). vm_compute. exact I.
Defined.

Lemma check_validation_error_escapes_witness :
  (check_conda_environment "/opt/locked/env" (mem_world (sample_env ""))).1
  = Raise (permission_denied (Path "/opt/locked/env")).
Proof.
  apply (check_validation_error_escapes (FS := mem_FileSystem)). reflexivity.
Defined.

Lemma check_issue_count_witness :
  1 <= length (get_files_to_check (Path "/opt/env")) /\
  length [msg_fwd sample_hook; msg_back sample_hook]
  <= 2 * length (get_files_to_check (Path "/opt/env")).
Proof.
  apply (check_issue_count (FS := mem_FileSystem) "/opt/env" false
           [msg_fwd sample_hook; msg_back sample_hook]
           (mem_world (sample_env "//?/ and \\?\"))).
  vm_compute. reflexivity.
Defined.

Lemma check_missing_hook_witness :
  (check_conda_environment "/opt/env"
     (mem_world (memfs_of [] [([], directory); (["opt"], directory);
                               (["opt"; "env"], directory);
                               (["opt"; "env"; "conda-meta"], directory)]))).1
  = Return (false, [msg_missing sample_hook]).
Proof.
  apply (check_missing_hook (FS := mem_FileSystem)); [split_and!|]; reflexivity.
Defined.

Lemma check_env_scanned_witness :
  (check_conda_environment "/opt/env" (mem_world (sample_env "cd //?/C:/env"))).1
  = Return (false, [msg_fwd sample_hook]).
Proof.
  apply (check_env_scanned (FS := mem_FileSystem) "/opt/env" "cd //?/C:/env");
    [split_and!|..]; reflexivity.
Defined.

(** ** What the structural checks let through *)

Lemma conda_meta_file_accepted_witness :
  fs_is_dir conda_meta_file_env (Path "/opt/env" / "conda-meta") = Return false /\
  (check_conda_environment "/opt/env" (mem_world conda_meta_file_env)).1
  = Return (true, []).
Proof.
  split; [reflexivity|].
  apply (conda_meta_file_accepted (FS := mem_FileSystem)); reflexivity.
Defined.

Lemma check_same_path_object_witness :
  w_trace (check_conda_environment "" (mem_world (sample_env ""))).2 =
  w_trace (check_conda_environment "." (mem_world (sample_env ""))).2 /\
  outcome_map fst (check_conda_environment "" (mem_world (sample_env ""))).1 =
  outcome_map fst (check_conda_environment "." (mem_world (sample_env ""))).1.
Proof. apply (check_same_path_object (FS := mem_FileSystem)). reflexivity. Defined.
