(* ===== verification/ScanBytes.v ===== *)
(** * ScanBytes: the scan and the bytes of the file

    The scanner tests the text [read()] returns, which is not the file:
    the file is opened with [encoding='utf-8'] and [errors='ignore'], and
    line ends are translated.  On the in-memory file system, whose files
    hold bytes, the theorems of this file say what the verdict of the
    scanner means for the bytes: no occurrence of a prefix in the bytes is
    missed, on a well-formed UTF-8 file the verdict is exactly that of the
    bytes, and on other files it need not be: a byte that is not UTF-8
    is dropped and joins the texts around it ([text_of_bytes_joined]), and
    a file in UTF-16 is read with a NUL after every character
    ([utf8_ignore_utf16le]), so that no prefix is found in it. *)

From Stdlib Require Import String Ascii.
From Stdlib.Strings Require Import Byte.
From stdpp Require Import base tactics option list strings.
From S2P Require Import Prelude PyStr Decode Paths FileSys MemFS Scanner Checker.

(** ** The prefixes as bytes *)

Definition fwd_bytes : list byte := list_byte_of_string fwd_prefix.
Definition back_bytes : list byte := list_byte_of_string back_prefix.

(** The UTF-16 encoding (little endian, with its byte order mark) of an
    ASCII text: how Windows PowerShell writes a script by default. *)
Definition utf16le (s : string) : list byte :=
  [xff; xfe]%byte ++ flat_map (fun b => [b; x00]%byte) (list_byte_of_string s).

(** Such a text read as UTF-8: a NUL stands after every character. *)
Definition NUL : ascii := "000"%char.

Fixpoint spaced (s : string) : string :=
  match s with
  | EmptyString => EmptyString
  | String c s' => String c (String NUL (spaced s'))
  end.

(** Two ASCII texts with one byte between them. *)
Definition joined (pre : string) (b : byte) (post : string) : list byte :=
  list_byte_of_string pre ++ b :: list_byte_of_string post.

(** The bytes [cd //?], one byte that is not UTF-8, and [/tmp]. *)
Definition joined_data : list byte := joined "cd //?" xff "/tmp".

(** A file with bytes that are not UTF-8 around the prefix. *)
Definition damaged_data : list byte :=
  [xe2; x82]%byte ++ fwd_bytes ++ [xff; x0d; x0a]%byte.

(** A well-formed file with a character outside ASCII and Windows line
    ends. *)
Definition cafe_data : list byte :=
  ["c"; "a"; "f"; xc3; xa9; x0d; x0a]%byte ++ back_bytes ++ [x0d; x0a]%byte.

(** The issues the two tests give on the bytes themselves. *)
Definition scan_bytes (file_path : posix_path) (data : list byte) : list string :=
  (if bool_decide (Infix fwd_bytes data) then [msg_fwd file_path] else []) ++
  (if bool_decide (Infix back_bytes data) then [msg_back file_path] else []).

(** ** The text of a file and its bytes *)

Lemma contains_text_of_bytes (needle : string) (data : list byte) :
  needle <> "" -> ascii_text needle = true -> one_line needle = true ->
  Infix (list_byte_of_string needle) data ->
  contains needle (text_of_bytes data) = true.
Proof. intros. by apply contains_spec, text_of_bytes_keeps. Qed.

Lemma contains_text_of_bytes_exact (needle : string) (data : list byte) :
  well_formed data -> one_line needle = true ->
  contains needle (text_of_bytes data) =
  bool_decide (Infix (list_byte_of_string needle) data).
Proof.
  intros Hd Hn. rewrite contains_decide. apply bool_decide_ext.
  by apply text_of_bytes_exact.
Qed.

(** The scanner on a readable file of the in-memory file system. *)
Lemma check_file_on_bytes (file_path : posix_path) (data : list byte)
    (w : World mem_FileSystem) :
  stat (w_fs w) file_path = StNode (MFile true (Return data)) ->
  (check_file_for_extended_paths file_path w).1 =
  Return (scan_content file_path (text_of_bytes data) []).
Proof.
  intros Hst. rewrite check_file_run. cbn [fst].
  apply file_issues_read; simpl; eauto using mem_exists_node, mem_open_file.
Qed.

(** On well-formed bytes the two tests of the scanner are those of the
    bytes. *)
Lemma scan_content_well_formed (file_path : posix_path) (data : list byte) :
  well_formed data ->
  scan_content file_path (text_of_bytes data) [] = scan_bytes file_path data.
Proof.
  intros Hd. by rewrite scan_content_cases, !contains_text_of_bytes_exact.
Qed.

(** ** A byte that is not UTF-8 between ASCII texts *)

Lemma ascii_text_app (s t : string) :
  ascii_text s = true -> ascii_text t = true ->
  Forall (fun b => is_ascii_byte b = true) (list_byte_of_string (s +:+ t)).
Proof.
  intros Hs Ht. rewrite list_byte_of_string_app.
  apply Forall_app; split; by apply ascii_text_Forall.
Qed.

(** The byte is dropped: the text read is that of the file without it. *)
Lemma text_of_bytes_joined (pre post : string) (b : byte) :
  ascii_text pre = true -> ascii_text post = true -> post <> "" ->
  is_ascii_byte b = false ->
  text_of_bytes (joined pre b post) = text_of_bytes (list_byte_of_string (pre +:+ post)).
Proof.
  intros Hpre Hpost Hne Hb. unfold text_of_bytes, decode, joined.
  rewrite (utf8_ignore_ascii (list_byte_of_string (pre +:+ post)))
    by by apply ascii_text_app.
  apply ascii_text_Forall in Hpre, Hpost.
  destruct post as [|c post]; [done|]. rewrite list_byte_of_string_cons in *.
  rewrite utf8_ignore_stray, utf8_ignore_ascii by (done || by inversion Hpost).
  by rewrite list_byte_of_string_app.
Qed.

(** ** A text in UTF-16 read as UTF-8 *)

Lemma utf8_ignore_utf16le (s : string) :
  ascii_text s = true ->
  string_of_list_byte (utf8_ignore (utf16le s)) = spaced s.
Proof.
  intros Hs%ascii_text_Forall. unfold utf16le.
  change ([xff; xfe]%byte ++ ?l) with (xff :: xfe :: l)%byte.
  rewrite !utf8_ignore_no_lead by done.
  induction s as [|c s IH]; [done|].
  rewrite list_byte_of_string_cons in *. inversion_clear Hs as [|?? Hc Hs'].
  cbn [flat_map app]. rewrite !utf8_ignore_ascii_cons by done.
  rewrite !string_of_list_byte_cons, IH by done.
  by rewrite ascii_of_byte_of_ascii.
Qed.

(** No needle of two characters or more, none of the first two a NUL,
    occurs in a text that has a NUL after every character. *)
Lemma contains_spaced (a b : ascii) (needle s : string) :
  a <> NUL -> b <> NUL -> contains (String a (String b needle)) (spaced s) = false.
Proof.
  intros Ha Hb. induction s as [|c s IH]; [done|].
  cbn [spaced]. rewrite contains_unfold, !startswith_cons.
  rewrite (bool_decide_eq_false_2 (b = NUL)), andb_false_r by done. cbn [orb].
  rewrite contains_unfold, startswith_cons.
  by rewrite (bool_decide_eq_false_2 (a = NUL)) by done.
Qed.

Lemma scan_content_utf16le (file_path : posix_path) (s : string) :
  ascii_text s = true ->
  scan_content file_path (text_of_bytes (utf16le s)) [] = [].
Proof.
  intros Hs. rewrite scan_content_cases. unfold text_of_bytes, decode.
  rewrite !contains_universal_newlines, utf8_ignore_utf16le by done.
  unfold fwd_prefix, back_prefix. by rewrite !contains_spaced.
Qed.

(** ** What the verdict says of the bytes *)

(** C13: no occurrence is missed.  When the bytes of a readable file hold
    one of the two prefixes, the scanner reports it, whatever the other
    bytes of the file are: bytes that are not UTF-8 are dropped by the
    decoder, the ASCII bytes of the prefix never are. *)
Theorem scan_misses_nothing (file_path : posix_path) (data : list byte)
    (w : World mem_FileSystem) :
  stat (w_fs w) file_path = StNode (MFile true (Return data)) ->
  exists issues,
    (check_file_for_extended_paths file_path w).1 = Return issues /\
    (Infix fwd_bytes data -> msg_fwd file_path ∈ issues) /\
    (Infix back_bytes data -> msg_back file_path ∈ issues).
Proof.
  intros Hst. eexists. split; [by apply check_file_on_bytes|].
  rewrite scan_content_cases. split; intros H; apply elem_of_app; [left|right].
  - rewrite (contains_text_of_bytes fwd_prefix) by done. apply list_elem_of_singleton. done.
  - rewrite (contains_text_of_bytes back_prefix) by done. apply list_elem_of_singleton. done.
Qed.

(** C12: on a file that is well-formed UTF-8 the verdict of the scanner is
    the verdict of the two tests on the bytes of the file: neither the
    decoding nor the translation of line ends creates or hides an
    occurrence. *)
Theorem scan_exact_on_well_formed (file_path : posix_path) (data : list byte)
    (w : World mem_FileSystem) :
  stat (w_fs w) file_path = StNode (MFile true (Return data)) ->
  well_formed data ->
  (check_file_for_extended_paths file_path w).1 = Return (scan_bytes file_path data).
Proof.
  intros Hst Hd. by rewrite (check_file_on_bytes _ data), scan_content_well_formed.
Qed.

(** C39: a byte that is not UTF-8 between two ASCII texts is invisible to
    the scan: the decoder drops it, and the file is judged as the two texts
    joined.  So a file that holds [//?], such a byte and [/] is reported as
    holding the prefix [//?/], which its bytes do not hold. *)
Theorem lenient_decoding_joins_prefix (pre post : string) (b : byte)
    (file_path : posix_path) (w : World mem_FileSystem) :
  ascii_text pre = true -> ascii_text post = true -> post <> "" ->
  is_ascii_byte b = false ->
  stat (w_fs w) file_path = StNode (MFile true (Return (joined pre b post))) ->
  (check_file_for_extended_paths file_path w).1 =
  Return (scan_bytes file_path (list_byte_of_string (pre +:+ post))).
Proof.
  intros Hpre Hpost Hne Hb Hst.
  rewrite (check_file_on_bytes _ (joined pre b post)), text_of_bytes_joined by done.
  by rewrite scan_content_well_formed by by apply well_formed_ascii, ascii_text_app.
Qed.

(** C40: a file written in UTF-16 is never flagged, whatever its text
    holds: read as UTF-8, the byte order mark is dropped, every character
    is followed by a NUL, and the four characters of a prefix never stand
    together. *)
Theorem utf16_hook_not_flagged (text : string) (file_path : posix_path)
    (w : World mem_FileSystem) :
  ascii_text text = true ->
  stat (w_fs w) file_path = StNode (MFile true (Return (utf16le text))) ->
  (check_file_for_extended_paths file_path w).1 = Return [].
Proof.
  intros Ht Hst. by rewrite (check_file_on_bytes _ (utf16le text)), scan_content_utf16le.
Qed.

(** ** Concrete runs *)

Lemma scan_misses_nothing_witness :
  exists issues,
    (check_file_for_extended_paths sample_hook
       (mem_world (sample_env_with (binary_file damaged_data)))).1 = Return issues /\
    (Infix fwd_bytes damaged_data -> msg_fwd sample_hook ∈ issues) /\
    (Infix back_bytes damaged_data -> msg_back sample_hook ∈ issues).
Proof.
  apply (scan_misses_nothing sample_hook damaged_data). vm_compute. reflexivity.
Defined.

Lemma scan_exact_on_well_formed_witness :
  (check_file_for_extended_paths sample_hook
     (mem_world (sample_env_with (binary_file cafe_data)))).1
  = Return (scan_bytes sample_hook cafe_data).
Proof.
  apply scan_exact_on_well_formed; [vm_compute; reflexivity|].
  apply (bool_decide_unpack _). vm_compute. exact I.
Defined.

Example cafe_data_scanned :
  scan_bytes sample_hook cafe_data = [msg_back sample_hook].
Proof. vm_compute. reflexivity. Qed.

Lemma lenient_decoding_joins_prefix_witness :
  ~ Infix fwd_bytes joined_data /\
  (check_file_for_extended_paths sample_hook
     (mem_world (sample_env_with (binary_file joined_data)))).1
  = Return [msg_fwd sample_hook].
Proof.
  split; [apply (bool_decide_eq_false_1 (Infix fwd_bytes joined_data)); by vm_compute|].
  rewrite (lenient_decoding_joins_prefix "cd //?" "/tmp" xff) by by vm_compute.
  vm_compute. reflexivity.
Defined.

Lemma utf16_hook_not_flagged_witness :
  Substring fwd_prefix "$p = '//?/C:/env'" /\
  (check_file_for_extended_paths sample_hook
     (mem_world (sample_env_with (binary_file (utf16le "$p = '//?/C:/env'"))))).1
  = Return [].
Proof.
  split; [by exists "$p = '", "C:/env'"|].
  apply (utf16_hook_not_flagged "$p = '//?/C:/env'"); by vm_compute.
Defined.

(** The environment whose hook script is in UTF-16 is reported clean. *)
Example utf16_environment_clean :
  (check_conda_environment "/opt/env"
     (mem_world (sample_env_with (binary_file (utf16le "$p = '//?/C:/env'"))))).1
  = Return (true, []).
Proof. vm_compute. reflexivity. Qed.
