(* ===== verification/ArgParse.v ===== *)
(** * ArgParse: what [main] asks of [argparse]

    [main] builds a parser with one positional argument, [env_path], and
    calls [parse_args()] on the arguments of the process.  The call either
    returns the value of [env_path], or prints a usage or help text and
    raises [SystemExit].  [ArgumentParser] is that interface, with the laws
    [main] relies on.

    [one_positional] implements it the way [argparse] of Python 3.12
    treats the parser of lines 95 to 101: every word is classified as a
    positional argument or an option ([parse_optional]), the words are
    consumed from left to right ([consume]), the help option ends the
    run at once, and what is missing or left over is an error reported
    after the usage line.  [parse_known_args] is the result as a value;
    [one_positional_parse] prints and exits accordingly.  The texts are
    those [argparse] writes on a terminal of 80 columns, given as the
    lines they hold; the help text is ASCII, so that every console takes
    it, and the errors go to [stderr]. *)

From Stdlib Require Import String Ascii ZArith Arith.
From stdpp Require Import base tactics option list strings.
From S2P Require Import Prelude PyStr Decode Paths FileSys MemFS.

(** ** The interface *)

Class ArgumentParser {PP : PurePath} (FS : FileSystem PP) : Type := {
  (** [parser.parse_args()] on the arguments after the program name,
      giving [args.env_path] *)
  parse_args : list string -> py (World FS) string;
  (** a single argument that does not start with [-] is the path, and
      nothing is printed *)
  parse_args_positional env_path w :
    startswith env_path "-" = false ->
    parse_args [env_path] w = (Return env_path, w);
  (** the parser only prints: it asks nothing of the file system and
      opens no file *)
  parse_args_prints argv w :
    w_fs (parse_args argv w).2 = w_fs w /\
    w_open (parse_args argv w).2 = w_open w /\
    exists lines, w_trace (parse_args argv w).2 =
                  w_trace w ++ map (fun l => EvPrint l.1 l.2) lines;
  (** when it does not return, it raises [SystemExit] *)
  parse_args_exits argv w e :
    (parse_args argv w).1 = Raise e -> exists code, exn_class e = SystemExit code;
}.

(** The laws in the form the automation uses. *)
Lemma parse_args_evolves {PP : PurePath} {FS : FileSystem PP}
    {AP : ArgumentParser FS} (argv : list string) :
  preserves evolves (parse_args argv).
Proof.
  intros w. destruct (parse_args_prints argv w) as (Hfs & _ & lines & Ht).
  split; [done|]. unfold trace_grows. rewrite Ht. by apply prefix_app_r.
Qed.

Lemma parse_args_same_open {PP : PurePath} {FS : FileSystem PP}
    {AP : ArgumentParser FS} (argv : list string) :
  preserves same_open (parse_args argv).
Proof. intros w. by destruct (parse_args_prints argv w) as (_ & Hop & _). Qed.

#[export] Hint Resolve parse_args_evolves parse_args_same_open : py.

(** ** The parser [main] builds *)

(** The name [argparse] shows for the program: the last component of
    [sys.argv[0]]. *)
Definition prog : string := "check_env_files.py".

(** [description=...] *)
Definition description : string :=
  "Check conda environment files for Windows extended-length path issues".

(** The positional argument and its [help=...] *)
Definition env_path_dest : string := "env_path".

Definition env_path_help : string := "Full path to the conda environment directory".

(** [parser.format_usage()] *)
Definition usage : string := "usage: " +:+ prog +:+ " [-h] " +:+ env_path_dest.

(** [parser.format_help()], line by line *)
Definition help_lines : list string :=
  [usage; "";
   description; "";
   "positional arguments:";
   "  " +:+ env_path_dest +:+ "    " +:+ env_path_help; "";
   "options:";
   "  -h, --help  show this help message and exit"].

(** *** Words *)

(** What [_parse_optional] makes of a word: a positional argument, the
    help option (written [-h...] or [--h...], perhaps with an argument
    given in the same word), or an option the parser does not have. *)
Inductive word_class : Type :=
| Positional
| Option_help (short : bool) (explicit : option string)
| Option_unknown.

Definition is_option (c : word_class) : bool :=
  match c with Positional => false | _ => true end.

Definition is_digit (c : ascii) : bool :=
  let n := nat_of_ascii c in (48 <=? n) && (n <=? 57).

(** [\d+$]: digits up to the end, or up to a newline that ends the word *)
Fixpoint digits_to_end (s : string) : bool :=
  match s with
  | EmptyString => false
  | String c s' =>
      is_digit c && (is_empty s' || bool_decide (s' = String LF "") || digits_to_end s')
  end.

(** [\d*\.\d+$] *)
Fixpoint fraction (s : string) : bool :=
  match s with
  | EmptyString => false
  | String c s' =>
      if bool_decide (c = "."%char) then digits_to_end s' else is_digit c && fraction s'
  end.

(** [^-\d+$|^-\d*\.\d+$], the words that look like a negative number *)
Definition negative_number (arg : string) : bool :=
  startswith arg "-" && (digits_to_end (skip 1 arg) || fraction (skip 1 arg)).

(** The end of [_parse_optional], for a word that begins with [-] and is
    no known option: a negative number or a word with a space is meant as
    a positional argument. *)
Definition unknown_word (arg : string) : word_class :=
  if negative_number arg then Positional
  else if has_char " " arg then Positional
  else Option_unknown.

(** [_get_option_tuples]: [--h], [--he], ... abbreviate [--help]; [-h]
    followed by more characters is [-h] with them as its argument. *)
Definition abbreviation (arg : string) (explicit : option (string * string))
    : word_class :=
  if startswith arg "--" then
    let option_prefix := from_option fst arg explicit in
    if startswith "--help" option_prefix then Option_help false (snd <$> explicit)
    else unknown_word arg
  else if startswith arg "-h" then Option_help true (Some (skip 2 arg))
  else unknown_word arg.

(** [_parse_optional] *)
Definition parse_optional (arg : string) : word_class :=
  if negb (startswith arg "-") then Positional
  else if bool_decide (arg = "-h") then Option_help true None
  else if bool_decide (arg = "--help") then Option_help false None
  else if bool_decide (arg = "-") then Positional
  else
    let explicit := split_once "=" arg in
    match explicit with
    | Some (option_string, explicit_arg) =>
        if bool_decide (option_string = "-h") then Option_help true (Some explicit_arg)
        else if bool_decide (option_string = "--help") then
          Option_help false (Some explicit_arg)
        else abbreviation arg explicit
    | None => abbreviation arg explicit
    end.

(** *** The result *)

(** The errors [parser.error] is called with. *)
Inductive arg_error : Type :=
| Required
| Unrecognized (extras : list string)
| Ignored_explicit (explicit_arg : string).

(** What [parse_args] comes to: the namespace with [env_path], the help
    text and exit 0, or an error and exit 2. *)
Inductive parsed : Type :=
| Namespace (env_path : string)
| Print_help
| Arg_error (e : arg_error).

(** [consume_optional] on [-h] with an argument in the same word: the
    characters after [-h] are read as more one-letter options.  [None]
    when they are all [h], the rest at the first that is not. *)
Fixpoint bundled (explicit_arg : string) : option string :=
  match explicit_arg with
  | EmptyString => Some EmptyString
  | String c rest =>
      if bool_decide (c = "h"%char) then
        if is_empty rest then None else bundled rest
      else Some explicit_arg
  end.

(** [consume_optional] on the help option *)
Definition take_help (short : bool) (explicit : option string) : parsed :=
  match explicit with
  | None => Print_help
  | Some explicit_arg =>
      if short then
        match bundled explicit_arg with
        | None => Print_help
        | Some rest => Arg_error (Ignored_explicit rest)
        end
      else Arg_error (Ignored_explicit explicit_arg)
  end.

(** An option stands among the words, before a [--] if there is one. *)
Fixpoint has_option (ws : list string) : bool :=
  match ws with
  | [] => false
  | w :: ws' =>
      negb (bool_decide (w = "--")) && (is_option (parse_optional w) || has_option ws')
  end.

(** [consume_positionals] after the last option.  [env_path] takes the
    first word, with a [--] before or after it; the rest is left over. *)
Definition consume_positionals (value : option string) (extras rest : list string)
    : option string * list string :=
  match value, rest with
  | Some _, _ => (value, extras ++ rest)
  | None, [] => (None, extras)
  | None, w :: more =>
      if bool_decide (w = "--") then
        match more with
        | [] => (None, extras ++ [w])
        | v :: more' => (Some v, extras ++ more')
        end
      else
        match more with
        | sep :: more' =>
            if bool_decide (sep = "--") then (Some w, extras ++ more')
            else (Some w, extras ++ more)
        | [] => (Some w, extras)
        end
  end.

(** The end of [parse_args]: a missing [env_path] first, then what was
    left over. *)
Definition finish (value : option string) (extras : list string) : parsed :=
  match value with
  | None => Arg_error Required
  | Some env_path =>
      match extras with
      | [] => Namespace env_path
      | _ => Arg_error (Unrecognized extras)
      end
  end.

(** The loop of [_parse_known_args]: while an option is ahead, a
    positional word is [env_path] if that is not yet set and left over
    otherwise, an unknown option is left over, and the help option ends
    the run. *)
Fixpoint consume (ws : list string) (value : option string) (extras : list string)
    : parsed :=
  match ws with
  | [] => finish value extras
  | w :: ws' =>
      if has_option ws then
        match parse_optional w with
        | Positional =>
            match value with
            | None => consume ws' (Some w) extras
            | Some _ => consume ws' value (extras ++ [w])
            end
        | Option_unknown => consume ws' value (extras ++ [w])
        | Option_help short explicit => take_help short explicit
        end
      else
        let '(value, extras) := consume_positionals value extras ws in
        finish value extras
  end.

(** [parser.parse_args(argv)], as a value *)
Definition parse_known_args (argv : list string) : parsed := consume argv None [].

(** *** Texts *)

Definition hex_digit (n : nat) : ascii :=
  ascii_of_nat (if n <? 10 then 48 + n else 87 + n).

(** One character of [repr(s)], between quotes [quote]. *)
Definition repr_char (quote c : ascii) : string :=
  let n := nat_of_ascii c in
  if bool_decide (c = quote) || bool_decide (c = "\"%char) then String "\" (String c "")
  else if n =? 9 then "\t"
  else if n =? 10 then "\n"
  else if n =? 13 then "\r"
  else if (n <? 32) || (n =? 127) then
    String "\" (String "x" (String (hex_digit (n / 16)) (String (hex_digit (n mod 16)) "")))
  else String c "".

Fixpoint repr_body (quote : ascii) (s : string) : string :=
  match s with
  | EmptyString => EmptyString
  | String c s' => repr_char quote c +:+ repr_body quote s'
  end.

(** [repr(s)]: between single quotes, or double quotes when the text
    holds a single quote and no double one.  The bytes of characters
    beyond ASCII are kept, which is what [repr] does for those that can
    be printed. *)
Definition py_repr (s : string) : string :=
  let quote : ascii :=
    if has_char "'" s && negb (has_char "034" s) then "034"%char else "'"%char in
  String quote (repr_body quote s +:+ String quote "").

(** The message of an error. *)
Definition error_message (e : arg_error) : string :=
  match e with
  | Required => "the following arguments are required: " +:+ env_path_dest
  | Unrecognized extras => "unrecognized arguments: " +:+ join_with " " extras
  | Ignored_explicit explicit_arg =>
      "argument -h/--help: ignored explicit argument " +:+ py_repr explicit_arg
  end.

(** What [parser.error(message)] writes on [stderr]. *)
Definition error_lines (e : arg_error) : list string :=
  [usage; prog +:+ ": error: " +:+ error_message e].

Section OnePositional.
Context {PP : PurePath} {FS : FileSystem PP}.

(** [parser.exit(code)] after printing [lines] to [s]. *)
Definition exit_with (s : stream) (lines : list string) (code : Z)
    : py (World FS) string :=
  _ ← for_each lines (fun line _ => print s line) tt;
  py_raise (PyExc (SystemExit code) "").

(** [parser.parse_args()] for the parser of [main]: [args.env_path], or
    the help text on [stdout] and exit 0, or the usage line and the error
    on [stderr] and exit 2. *)
Definition one_positional_parse (argv : list string) : py (World FS) string :=
  match parse_known_args argv with
  | Namespace env_path => mret env_path
  | Print_help => exit_with stdout help_lines 0
  | Arg_error e => exit_with stderr (error_lines e) 2
  end.

End OnePositional.

(** ** The words *)

Lemma parse_optional_positional (arg : string) :
  startswith arg "-" = false -> parse_optional arg = Positional.
Proof. intros H. unfold parse_optional. by rewrite H. Qed.

(** [--] itself would abbreviate [--help]: the loop has to set it apart
    before it classifies a word. *)
Example parse_optional_double_dash : parse_optional "--" = Option_help false None.
Proof. reflexivity. Qed.

Lemma positional_not_double_dash (w : string) :
  parse_optional w = Positional -> w <> "--".
Proof. by intros H ->. Qed.

Lemma take_help_not_Namespace (short : bool) (explicit : option string) (p : string) :
  take_help short explicit <> Namespace p.
Proof.
  unfold take_help. destruct explicit as [e|]; [|done].
  destruct short; [|done]. by destruct (bundled e).
Qed.

(** ** The loop *)

Lemma consume_positionals_extras (value : option string) (extras rest : list string) :
  exists more, (consume_positionals value extras rest).2 = extras ++ more.
Proof.
  unfold consume_positionals. destruct value as [v|]; simpl; [by eexists|].
  destruct rest as [|w [|v more]]; simpl; repeat case_bool_decide; simpl;
    try (by eexists); by exists []; rewrite app_nil_r.
Qed.

Lemma finish_Namespace (value : option string) (extras : list string) (p : string) :
  finish value extras = Namespace p <-> value = Some p /\ extras = [].
Proof.
  unfold finish. destruct value as [v|], extras; split; try done.
  - by intros [= ->].
  - by intros [[= ->] _].
  - by intros [_ [=]].
  - by intros [[=] _].
  - by intros [[=] _].
Qed.

(** Without an option ahead, the loop is over. *)
Lemma consume_no_option (ws : list string) (value : option string) (extras : list string) :
  has_option ws = false ->
  consume ws value extras =
  finish (consume_positionals value extras ws).1 (consume_positionals value extras ws).2.
Proof.
  intros H. destruct ws as [|w ws]; cbn [consume].
  - destruct value; simpl; by rewrite ?app_nil_r.
  - rewrite H. by destruct (consume_positionals _ _ _).
Qed.

(** A run that gives a namespace met no option and left nothing over. *)
Lemma consume_Namespace (ws : list string) (value : option string)
    (extras : list string) (p : string) :
  consume ws value extras = Namespace p -> has_option ws = false /\ extras = [].
Proof.
  revert value extras. induction ws as [|w ws IH]; intros value extras.
  { simpl. by intros [_ ->]%finish_Namespace. }
  cbn [consume]. destruct (has_option (w :: ws)) eqn:Ho.
  - intros H. exfalso. cbn [has_option] in Ho.
    apply andb_true_iff in Ho as [_ Ho].
    destruct (parse_optional w) as [|short explicit|] eqn:Hw.
    + destruct value as [v|]; apply IH in H as [H1 H2].
      * by destruct extras.
      * simpl in Ho. congruence.
    + by apply take_help_not_Namespace in H.
    + apply IH in H as [_ H]. by destruct extras.
  - destruct (consume_positionals value extras (w :: ws)) as [v ex] eqn:Hc.
    intros [_ ->]%finish_Namespace. split; [done|].
    destruct (consume_positionals_extras value extras (w :: ws)) as [more Hm].
    rewrite Hc in Hm. simpl in Hm. by destruct extras.
Qed.

(** ** The command lines the parser accepts *)

(** One word that is no option, with a [--] before or after it or alone;
    after [--] any word is taken. *)
Inductive accepted : list string -> string -> Prop :=
| accepted_alone p : parse_optional p = Positional -> accepted [p] p
| accepted_after_dashes p : accepted ["--"; p] p
| accepted_before_dashes p : parse_optional p = Positional -> accepted [p; "--"] p.

Lemma has_option_positional (w : string) (ws : list string) :
  has_option (w :: ws) = false -> w <> "--" -> parse_optional w = Positional.
Proof.
  cbn [has_option]. intros H Hw. rewrite bool_decide_eq_false_2 in H by done.
  simpl in H. apply orb_false_iff in H as [H _]. by destruct (parse_optional w).
Qed.

Lemma parse_known_args_accepted (argv : list string) (p : string) :
  parse_known_args argv = Namespace p <-> accepted argv p.
Proof.
  unfold parse_known_args. split.
  - intros H. pose proof H as [Ho _]%consume_Namespace.
    rewrite consume_no_option in H by done. apply finish_Namespace in H as [Hv He].
    destruct argv as [|w [|v more]]; [done|..];
      pose proof (has_option_positional _ _ Ho) as Hw; clear Ho;
      cbn [consume_positionals] in Hv, He;
      repeat case_bool_decide; simplify_eq/=; constructor; auto.
  - intros [q Hq| |q Hq]; cbn [consume].
    + pose proof (positional_not_double_dash _ Hq).
      cbn [has_option]. rewrite Hq. simpl. rewrite andb_false_r. simpl.
      by rewrite bool_decide_eq_false_2.
    + done.
    + pose proof (positional_not_double_dash _ Hq).
      cbn [has_option]. rewrite Hq. simpl. rewrite andb_false_r. simpl.
      by rewrite bool_decide_eq_false_2.
Qed.

(** After [--] every word is a path, the help option included. *)
Lemma parse_known_args_after_dashes (p : string) :
  parse_known_args ["--"; p] = Namespace p.
Proof. apply parse_known_args_accepted. constructor. Qed.

(** ** The help option *)

Lemma has_option_app (pre ws : list string) :
  Forall (fun w => w <> "--") pre -> has_option ws = true -> has_option (pre ++ ws) = true.
Proof.
  intros Hpre Hws. induction Hpre as [|w pre Hw _ IH]; [done|].
  cbn [has_option app]. rewrite IH, orb_true_r. by rewrite bool_decide_eq_false_2.
Qed.

(** The words before the help option do not matter, as long as none of
    them is [--] or the help option with an argument of its own: the
    help is shown even when the command line is wrong in other ways. *)
Lemma consume_help (pre rest : list string) (h : string) (short : bool)
    (value : option string) (extras : list string) :
  Forall (fun w => w <> "--" /\
                   forall s e, parse_optional w <> Option_help s (Some e)) pre ->
  h <> "--" -> parse_optional h = Option_help short None ->
  consume (pre ++ h :: rest) value extras = Print_help.
Proof.
  intros Hpre Hh Hc. revert value extras.
  assert (has_option (h :: rest) = true) as Ho.
  { cbn [has_option]. rewrite Hc. by rewrite bool_decide_eq_false_2. }
  induction Hpre as [|w pre [Hw1 Hw2] Hpre IH]; intros value extras.
  - cbn [app consume]. by rewrite Ho, Hc.
  - assert (has_option (w :: pre ++ h :: rest) = true) as Ho'.
    { apply (has_option_app (w :: pre) (h :: rest)); [|done].
      constructor; [done|]. eapply Forall_impl; [done|by intros ? []]. }
    cbn [app consume]. rewrite Ho'.
    destruct (parse_optional w) as [|s [e|]|] eqn:Hw;
      [|by destruct (Hw2 s e)|done|by apply IH].
    destruct value; by apply IH.
Qed.

Lemma parse_known_args_help (pre rest : list string) (h : string) :
  Forall (fun w => w <> "--" /\
                   forall s e, parse_optional w <> Option_help s (Some e)) pre ->
  h = "-h" \/ h = "--help" ->
  parse_known_args (pre ++ h :: rest) = Print_help.
Proof.
  intros Hpre [->| ->]; by eapply consume_help.
Qed.

(** ** What is missing and what is left over *)

Lemma parse_known_args_nil : parse_known_args [] = Arg_error Required.
Proof. reflexivity. Qed.

(** A second word that is no option is left over. *)
Lemma parse_known_args_two (p q : string) :
  parse_optional p = Positional -> parse_optional q = Positional ->
  parse_known_args [p; q] = Arg_error (Unrecognized [q]).
Proof.
  intros Hp Hq. unfold parse_known_args. cbn [consume has_option].
  rewrite Hp, Hq. simpl. rewrite !andb_false_r. simpl.
  rewrite !bool_decide_eq_false_2 by by apply positional_not_double_dash. done.
Qed.

(** ** Examples *)

Example parse_abbreviated_help : parse_known_args ["--he"] = Print_help.
Proof. reflexivity. Qed.

Example parse_bundled_help : parse_known_args ["-hh"] = Print_help.
Proof. reflexivity. Qed.

Example parse_help_with_argument :
  parse_known_args ["/opt/env"; "--help=yes"] = Arg_error (Ignored_explicit "yes").
Proof. reflexivity. Qed.

Example parse_short_help_with_argument :
  parse_known_args ["-hv"; "/opt/env"] = Arg_error (Ignored_explicit "v").
Proof. reflexivity. Qed.

Example parse_help_after_path : parse_known_args ["/opt/env"; "x"; "-h"] = Print_help.
Proof. reflexivity. Qed.

Example parse_unknown_option :
  parse_known_args ["/opt/env"; "--verbose"] = Arg_error (Unrecognized ["--verbose"]).
Proof. reflexivity. Qed.

Example parse_only_unknown_option : parse_known_args ["-v"] = Arg_error Required.
Proof. reflexivity. Qed.

Example parse_leftover_after_dashes :
  parse_known_args ["a"; "b"; "--"; "c"] = Arg_error (Unrecognized ["b"; "--"; "c"]).
Proof. reflexivity. Qed.

Example parse_dashes_alone : parse_known_args ["--"] = Arg_error Required.
Proof. reflexivity. Qed.

Example parse_negative_number : parse_known_args ["-5"] = Namespace "-5".
Proof. reflexivity. Qed.

Example parse_dash : parse_known_args ["-"] = Namespace "-".
Proof. reflexivity. Qed.

Example parse_empty_word : parse_known_args [""] = Namespace "".
Proof. reflexivity. Qed.

Example parse_word_with_space : parse_known_args ["-my env"] = Namespace "-my env".
Proof. reflexivity. Qed.

Example parse_dashed_path : parse_known_args ["-env"] = Arg_error Required.
Proof. reflexivity. Qed.

Example error_lines_required :
  error_lines Required =
  ["usage: check_env_files.py [-h] env_path";
   "check_env_files.py: error: the following arguments are required: env_path"].
Proof. reflexivity. Qed.

Example error_lines_unrecognized :
  error_lines (Unrecognized ["b"; "--"; "c"]) =
  ["usage: check_env_files.py [-h] env_path";
   "check_env_files.py: error: unrecognized arguments: b -- c"].
Proof. reflexivity. Qed.

Example error_lines_ignored :
  error_lines (Ignored_explicit "it's") =
  ["usage: check_env_files.py [-h] env_path";
   "check_env_files.py: error: argument -h/--help: ignored explicit argument " +:+
   String "034" ("it's" +:+ String "034" "")].
Proof. reflexivity. Qed.

Example help_lines_text :
  help_lines =
  ["usage: check_env_files.py [-h] env_path";
   "";
   "Check conda environment files for Windows extended-length path issues";
   "";
   "positional arguments:";
   "  env_path    Full path to the conda environment directory";
   "";
   "options:";
   "  -h, --help  show this help message and exit"].
Proof. reflexivity. Qed.

(** ** The implementation meets the interface *)

Section OnePositionalLaws.
Context {PP : PurePath} {FS : FileSystem PP} {FL : FileSystemLaws FS}.

(** The lines that every console writes: those for [stderr], and ASCII
    text for [stdout]. *)
Definition writable (s : stream) (lines : list string) : Prop :=
  s = stderr \/ Forall (fun line => ascii_text line = true) lines.

Lemma for_each_print_run (s : stream) (lines : list string) (w : World FS) :
  writable s lines ->
  for_each lines (fun line _ => print s line) tt w =
  (Return tt,
   mkWorld (w_fs w) (w_open w) (w_trace w ++ map (EvPrint s) lines)).
Proof.
  revert w. induction lines as [|line lines IH]; intros w Hw.
  - simpl. rewrite app_nil_r. by destruct w.
  - assert (print s line w = (Return tt, log (EvPrint s line) w)) as Hp.
    { destruct Hw as [->|[H _]%Forall_cons]; [done|by apply run_print_ascii]. }
    rewrite for_each_cons, run_bind, Hp, IH; [world_eq|].
    destruct Hw as [->|[_ H]%Forall_cons]; [by left|by right].
Qed.

Lemma exit_with_run (s : stream) (lines : list string) (code : Z) (w : World FS) :
  writable s lines ->
  exit_with s lines code w =
  (Raise (PyExc (SystemExit code) ""),
   mkWorld (w_fs w) (w_open w) (w_trace w ++ map (EvPrint s) lines)).
Proof. intros Hw. unfold exit_with. by rewrite run_bind, for_each_print_run. Qed.

Lemma help_lines_writable : writable stdout help_lines.
Proof. right. by vm_compute; repeat constructor. Qed.

(** What the parser prints, by the result. *)
Definition parse_lines (r : parsed) : list (stream * string) :=
  match r with
  | Namespace _ => []
  | Print_help => map (pair stdout) help_lines
  | Arg_error e => map (pair stderr) (error_lines e)
  end.

(** The run of the parser: the path returned in the same world, or an
    exit with status 0 after the help text, or with status 2 after the
    usage line and the error. *)
Lemma one_positional_run (argv : list string) (w : World FS) :
  one_positional_parse argv w =
  (match parse_known_args argv with
   | Namespace env_path => Return env_path
   | Print_help => Raise (PyExc (SystemExit 0) "")
   | Arg_error _ => Raise (PyExc (SystemExit 2) "")
   end,
   mkWorld (w_fs w) (w_open w)
     (w_trace w ++ map (fun l => EvPrint l.1 l.2) (parse_lines (parse_known_args argv)))).
Proof.
  unfold one_positional_parse, parse_lines.
  destruct (parse_known_args argv) as [p| |e].
  - simpl. rewrite app_nil_r. by destruct w.
  - by rewrite exit_with_run, map_map by apply help_lines_writable.
  - by rewrite exit_with_run, map_map by by left.
Qed.

#[global] Program Instance one_positional : ArgumentParser FS := {|
  parse_args := one_positional_parse;
|}.
Next Obligation.
  intros env_path w H. rewrite one_positional_run.
  pose proof (parse_optional_positional _ H) as Hc.
  apply accepted_alone, parse_known_args_accepted in Hc. rewrite Hc. simpl.
  rewrite app_nil_r. by destruct w.
Qed.
Next Obligation. intros argv w. rewrite one_positional_run. simpl. eauto. Qed.
Next Obligation.
  intros argv w e. rewrite one_positional_run. simpl.
  destruct (parse_known_args argv); intros [= <-]; by eexists.
Qed.

(** The command lines that reach the checker. *)
Lemma one_positional_Namespace (argv : list string) (env_path : string) (w : World FS) :
  parse_known_args argv = Namespace env_path ->
  parse_args argv w = (Return env_path, w).
Proof.
  intros H. cbn [parse_args one_positional]. rewrite one_positional_run, H. simpl.
  rewrite app_nil_r. by destruct w.
Qed.

(** C17: the command lines [parse_args] takes.  It returns a path exactly
    when the command line is one word that is no option, alone or with
    [--] before or after it; the path is that word, nothing is printed,
    and after [--] any word is taken as the path, one that begins with
    [-] included. *)
Theorem parse_args_accepts (argv : list string) (env_path : string) (w : World FS) :
  (one_positional_parse argv w).1 = Return env_path <-> accepted argv env_path.
Proof.
  rewrite one_positional_run, <- parse_known_args_accepted. cbn [fst].
  destruct (parse_known_args argv); split; by intros [= ->].
Qed.

(** The command lines that end the process at once. *)
Lemma one_positional_exit (argv : list string) (w : World FS) :
  (forall env_path, parse_known_args argv <> Namespace env_path) ->
  exists code s lines,
    (parse_known_args argv = Print_help /\ code = 0%Z /\ s = stdout /\ lines = help_lines \/
     exists e, parse_known_args argv = Arg_error e /\ code = 2%Z /\ s = stderr /\
               lines = error_lines e) /\
    parse_args argv w =
    (Raise (PyExc (SystemExit code) ""),
     mkWorld (w_fs w) (w_open w) (w_trace w ++ map (EvPrint s) lines)).
Proof.
  intros Hn. cbn [parse_args one_positional]. rewrite one_positional_run.
  destruct (parse_known_args argv) as [p| |e]; [by destruct (Hn p)|..];
    unfold parse_lines; rewrite map_map.
  - exists 0%Z, stdout, help_lines. split; [by left|done].
  - exists 2%Z, stderr, (error_lines e). split; [right; by exists e|done].
Qed.

End OnePositionalLaws.

(** ** Concrete runs *)

Lemma parse_args_accepts_witness :
  (one_positional_parse ["--"; "-env"] (mem_world (sample_env ""))).1 = Return "-env"
  <-> accepted ["--"; "-env"] "-env".
Proof. apply parse_args_accepts. Defined.

Example parse_args_after_dashes :
  (one_positional_parse ["--"; "-env"] (mem_world (sample_env ""))).1 = Return "-env".
Proof. reflexivity. Qed.
