(* ===== verification/Main.v ===== *)
(** * Main: [main] and the script's entry point

    The reporter of the source: [main] parses the command line, prints the
    line naming the environment, runs [check_conda_environment], prints
    the verdict and returns the exit code; the last two lines of the
    script pass that code to [sys.exit].  [main_run] gives, for a command
    line the parser accepts, the result and the events of [main] as
    functions of the checker's result and of what the console can show
    ([main_result], [main_events]): the two lines for [stdout] may fail
    to print.  [interpreter] is what the Python runtime makes of the
    script's outcome. *)

From Stdlib Require Import String Ascii ZArith.
From stdpp Require Import base tactics option list strings.
From S2P Require Import Prelude PyStr Paths FileSys MemFS Scanner Checker ArgParse.

Section Main.
Context {PP : PurePath} {FS : FileSystem PP} {AP : ArgumentParser FS}.

(** ** The program *)

Definition msg_checking (env_path : string) : string :=
  "Checking conda environment: " +:+ env_path.

Definition msg_success : string := "✓ No extended-length path issues found".

Definition msg_failure : string := "✗ Extended-length path issues found:".

Definition bullet (issue : string) : string := "  - " +:+ issue.

Definition main (argv : list string) : py (World FS) Z :=
  env_path ← parse_args argv;
  _ ← print stdout (msg_checking env_path);
  '(success, issues) ← check_conda_environment env_path;
  if success : bool then
    _ ← print stdout msg_success;
    mret 0%Z
  else
    _ ← print stderr msg_failure;
    _ ← for_each issues (fun issue _ => print stderr (bullet issue)) tt;
    mret 1%Z.

(** [sys.exit(code)] *)
Definition sys_exit {A} (code : Z) : py (World FS) A :=
  py_raise (PyExc (SystemExit code) "").

(** The script, run as [__main__]: [sys.exit(main())]. *)
Definition script (argv : list string) : py (World FS) unit :=
  code ← main argv;
  sys_exit code.

(** How a process ends: with an exit status, or on an exception nobody
    caught, which the runtime reports on [stderr] with a status that is
    not zero. *)
Inductive termination : Type :=
| Exit (status : Z)
| Uncaught (e : exn).

(** What the runtime makes of the outcome of the top-level code. *)
Definition interpreter {A} (r : outcome A) : termination :=
  match r with
  | Return _ => Exit 0
  | Raise e =>
      match exn_class e with
      | SystemExit code => Exit code
      | _ => Uncaught e
      end
  end.

(** The process: the script run in a world, to its termination. *)
Definition run_script (argv : list string) (w : World FS) : termination * World FS :=
  let '(r, w') := script argv w in (interpreter r, w').

(** ** What [main] computes *)

(** The exit code and the lines of the verdict, from the checker's result. *)
Definition exit_code (success : bool) : Z := if success then 0%Z else 1%Z.

(** The console can show what [main] prints on [stdout] for an
    environment: the line naming it, and the success line. *)
Definition shows_checking (s : fs) (env_path : string) : Prop :=
  fs_stdout s (msg_checking env_path) = None.

Definition shows_success (s : fs) : Prop := fs_stdout s msg_success = None.

(** The branches of the verdict: the success line may fail to print, the
    lines of a failure go to [stderr] and are always written. *)
Definition report_result (s : fs) (success : bool) : outcome Z :=
  if success then
    match fs_stdout s msg_success with
    | None => Return 0%Z
    | Some e => Raise e
    end
  else Return 1%Z.

Definition report_events (s : fs) (success : bool) (issues : list string) : list event :=
  if success then
    match fs_stdout s msg_success with
    | None => [EvPrint stdout msg_success]
    | Some _ => []
    end
  else EvPrint stderr msg_failure :: map (fun issue => EvPrint stderr (bullet issue)) issues.

(** The result of [main] after the command line is parsed. *)
Definition main_result (s : fs) (env_path : string) : outcome Z :=
  match fs_stdout s (msg_checking env_path) with
  | Some e => Raise e
  | None =>
      match env_result s env_path with
      | Return (success, _) => report_result s success
      | Raise e => Raise e
      end
  end.

(** The events of [main] after the command line is parsed. *)
Definition main_events (s : fs) (env_path : string) : list event :=
  match fs_stdout s (msg_checking env_path) with
  | Some _ => []
  | None =>
      EvPrint stdout (msg_checking env_path) :: env_events s env_path ++
      match env_result s env_path with
      | Return (success, issues) => report_events s success issues
      | Raise _ => []
      end
  end.

Lemma for_each_bullets_run (issues : list string) (w : World FS) :
  for_each issues (fun issue _ => print stderr (bullet issue)) tt w =
  (Return tt,
   mkWorld (w_fs w) (w_open w)
     (w_trace w ++ map (fun issue => EvPrint stderr (bullet issue)) issues)).
Proof.
  revert w. induction issues as [|issue issues IH]; intros w.
  - simpl. rewrite app_nil_r. by destruct w.
  - rewrite for_each_cons, run_bind, run_print_stderr, IH. world_eq.
Qed.

(** [main] from the point where the command line is parsed. *)
Lemma main_run (argv : list string) (env_path : string) (w w0 : World FS) :
  parse_args argv w0 = (Return env_path, w) ->
  main argv w0 =
  (main_result (w_fs w) env_path,
   mkWorld (w_fs w) (w_open w) (w_trace w ++ main_events (w_fs w) env_path)).
Proof.
  intros Hp. unfold main, main_result, main_events, report_result, report_events.
  rewrite run_bind, Hp, run_bind, run_print_stdout.
  destruct (fs_stdout (w_fs w) (msg_checking env_path)) as [e|].
  { rewrite app_nil_r. by destruct w. }
  rewrite run_bind. world_simpl. rewrite check_conda_environment_run. world_simpl.
  destruct (env_result (w_fs w) env_path) as [[[] issues]|e]; simpl.
  - rewrite run_bind, run_print_stdout. world_simpl.
    destruct (fs_stdout (w_fs w) msg_success); world_eq.
  - rewrite run_bind, run_print_stderr, run_bind. world_simpl.
    rewrite for_each_bullets_run. world_eq.
  - world_eq.
Qed.

(** On a console that shows the two lines, the result is the exit code
    of the verdict. *)
Lemma main_result_shown (s : fs) (env_path : string) :
  shows_checking s env_path -> shows_success s ->
  main_result s env_path = outcome_map (fun r => exit_code r.1) (env_result s env_path).
Proof.
  unfold main_result, report_result. intros -> Hs.
  destruct (env_result s env_path) as [[[] issues]|e]; [|done..]. by rewrite Hs.
Qed.

Lemma main_events_shown (s : fs) (env_path : string) :
  shows_checking s env_path ->
  main_events s env_path =
  EvPrint stdout (msg_checking env_path) :: env_events s env_path ++
  match env_result s env_path with
  | Return (success, issues) => report_events s success issues
  | Raise _ => []
  end.
Proof. unfold main_events. by intros ->. Qed.

(** When the parser exits, so does [main], at once. *)
Lemma main_parse_exit (argv : list string) (e : exn) (w w0 : World FS) :
  parse_args argv w0 = (Raise e, w) -> main argv w0 = (Raise e, w).
Proof. intros Hp. unfold main. by rewrite run_bind, Hp. Qed.

(** Every run of [main]: what the parser printed, then the events of the
    check when the parser returned a path. *)
Lemma main_cases (argv : list string) (w : World FS) :
  exists lines,
    (main argv w).1 =
    match (parse_args argv w).1 with
    | Return env_path => main_result (w_fs w) env_path
    | Raise e => Raise e
    end /\
    w_fs (main argv w).2 = w_fs w /\
    w_open (main argv w).2 = w_open w /\
    w_trace (main argv w).2 =
    w_trace w ++ map (fun l => EvPrint l.1 l.2) lines ++
    match (parse_args argv w).1 with
    | Return env_path => main_events (w_fs w) env_path
    | Raise _ => []
    end.
Proof.
  destruct (parse_args_prints argv w) as (Hfs & Hop & lines & Ht). exists lines.
  destruct (parse_args argv w) as [[env_path|e] w1] eqn:Hp; simpl in *.
  - rewrite (main_run _ _ _ _ Hp). simpl. by rewrite Hfs, Hop, Ht, <- app_assoc.
  - rewrite (main_parse_exit _ _ _ _ Hp). simpl. by rewrite app_nil_r.
Qed.

Lemma report_events_length (s : fs) (success : bool) (issues : list string) :
  length (report_events s success issues) <= 1 + length issues.
Proof.
  unfold report_events. destruct success; [|simpl; rewrite length_map; lia].
  destruct (fs_stdout s msg_success); simpl; lia.
Qed.

(** The events after the parser are few. *)
Lemma main_events_length (s : fs) (env_path : string) :
  length (main_events s env_path) <=
  5 + 6 * length (get_files_to_check (Path env_path)).
Proof.
  unfold main_events. destruct (fs_stdout s (msg_checking env_path)); [simpl; lia|].
  cbn [length]. rewrite length_app.
  pose proof (env_events_length s env_path).
  destruct (env_result s env_path) as [[success issues]|] eqn:Hr; [|simpl in *; lia].
  pose proof (report_events_length s success issues).
  apply env_result_issues_length in Hr. simpl in *. lia.
Qed.

(** ** Observations of the events *)

Lemma printed_file_events (s : stream) (fsys : fs) (file_path : path) :
  printed s (file_events fsys file_path) = [].
Proof.
  unfold file_events.
  destruct (fs_exists fsys file_path) as [[]|]; [|done..].
  by destruct (fs_open fsys file_path).
Qed.

Lemma printed_files_events (s : stream) (fsys : fs) (files : list path) :
  printed s (files_events fsys files) = [].
Proof.
  induction files as [|file_path rest IH]; [done|]. simpl.
  rewrite printed_app, printed_file_events.
  by destruct (file_issues fsys file_path).
Qed.

(** The checker prints nothing. *)
Lemma printed_env_events (s : stream) (fsys : fs) (env_path : string) :
  printed s (env_events fsys env_path) = [].
Proof.
  unfold env_events. rewrite printed_app.
  assert (printed s (validate_events fsys env_path) = []) as ->.
  { unfold validate_events.
    destruct (fs_exists fsys (Path env_path)) as [[]|]; [|done..].
    by destruct (fs_is_dir fsys (Path env_path)) as [[]|]. }
  destruct (validate fsys env_path) as [[]|]; [done| |done].
  apply printed_files_events.
Qed.

Lemma printed_bullets (issues : list string) :
  printed stderr (map (fun issue => EvPrint stderr (bullet issue)) issues) =
  map bullet issues /\
  printed stdout (map (fun issue => EvPrint stderr (bullet issue)) issues) = [].
Proof. induction issues as [|issue issues [IH1 IH2]]; [done|]. simpl. by rewrite IH1. Qed.

(** What [main] prints on each stream, after the command line is parsed,
    on a console that shows the line naming the environment. *)
Lemma printed_main_events (fsys : fs) (env_path : string) :
  shows_checking fsys env_path ->
  printed stdout (main_events fsys env_path) =
  msg_checking env_path ::
  match env_result fsys env_path, fs_stdout fsys msg_success with
  | Return (true, _), None => [msg_success]
  | _, _ => []
  end /\
  printed stderr (main_events fsys env_path) =
  match env_result fsys env_path with
  | Return (false, issues) => msg_failure :: map bullet issues
  | _ => []
  end.
Proof.
  intros Hc. rewrite main_events_shown by done.
  change (?e :: ?l ++ ?r) with ([e] ++ l ++ r).
  rewrite !printed_app, !printed_env_events.
  destruct (env_result fsys env_path) as [[[] issues]|]; simpl.
  - by destruct (fs_stdout fsys msg_success).
  - by destruct (printed_bullets issues) as [-> ->].
  - by destruct (fs_stdout fsys msg_success).
Qed.

(** The process started on one argument that is no option, on a console
    that shows the two lines of [stdout]. *)
Lemma run_script_run (env_path : string) (w : World FS) :
  startswith env_path "-" = false ->
  shows_checking (w_fs w) env_path -> shows_success (w_fs w) ->
  (run_script [env_path] w).1 =
  match env_result (w_fs w) env_path with
  | Return (success, _) => Exit (exit_code success)
  | Raise e => interpreter (A := unit) (Raise e)
  end.
Proof.
  intros Hp%(parse_args_positional _ w) Hc Hs. unfold run_script, script.
  rewrite run_bind, (main_run _ _ _ _ Hp), main_result_shown by done.
  by destruct (env_result (w_fs w) env_path) as [[[] issues]|e].
Qed.

(** ** [main], property by property *)

(** C7: called with one argument that is no option, on a console that
    shows the lines of [stdout], [main] returns the exit code 0 when
    [check_conda_environment] reports success and 1 when it reports
    failure, and raises what the checker raises. *)
Theorem main_exit_code (env_path : string) (w : World FS) :
  startswith env_path "-" = false ->
  shows_checking (w_fs w) env_path -> shows_success (w_fs w) ->
  (main [env_path] w).1 =
  outcome_map (fun r => if r.1 : bool then 0%Z else 1%Z)
    (check_conda_environment env_path w).1.
Proof.
  intros Hp%(parse_args_positional _ w) Hc Hs.
  by rewrite (main_run _ _ _ _ Hp), main_result_shown, check_conda_environment_run.
Qed.

(** C31: the events of [main] are, in order: the line "Checking conda
    environment: <env_path>" on standard output, then the calls of the
    checker on the file system, then the lines of the verdict; the line
    naming the environment comes before the file system is touched. *)
Theorem main_trace (env_path : string) (w : World FS) :
  startswith env_path "-" = false ->
  shows_checking (w_fs w) env_path ->
  w_trace (main [env_path] w).2 =
  w_trace w ++ [EvPrint stdout (msg_checking env_path)] ++
  env_events (w_fs w) env_path ++
  match (check_conda_environment env_path w).1 with
  | Return (success, issues) => report_events (w_fs w) success issues
  | Raise _ => []
  end.
Proof.
  intros Hp%(parse_args_positional _ w) Hc.
  by rewrite (main_run _ _ _ _ Hp), main_events_shown, check_conda_environment_run.
Qed.

(** On an environment without issues, and a console that shows the
    lines, [main] prints the line naming the environment and the success
    line on standard output, nothing on standard error, and returns 0. *)
Theorem main_clean (env_path : string) (w : World FS) :
  startswith env_path "-" = false ->
  shows_checking (w_fs w) env_path -> shows_success (w_fs w) ->
  (check_conda_environment env_path w).1 = Return (true, []) ->
  (main [env_path] w).1 = Return 0%Z /\
  printed stdout (trace_since w (main [env_path] w).2) =
    [msg_checking env_path; msg_success] /\
  printed stderr (trace_since w (main [env_path] w).2) = [].
Proof.
  intros Hp%(parse_args_positional _ w) Hc Hs. rewrite check_conda_environment_run.
  cbn [fst]. intros Hr. rewrite (main_run _ _ _ _ Hp). cbn [fst snd].
  rewrite trace_since_app, main_result_shown by done.
  destruct (printed_main_events (w_fs w) env_path Hc) as [-> ->].
  by rewrite Hr, Hs.
Qed.

(** The success line needs a console that has its check mark.  When
    [sys.stdout] cannot encode it, [main] on an environment without
    issues prints the line naming the environment and then raises the
    error of [print] in the place of returning 0: the process ends on
    that exception, as for a failure of the program. *)
Theorem main_success_unprintable (env_path : string) (e : exn) (w : World FS) :
  startswith env_path "-" = false ->
  shows_checking (w_fs w) env_path ->
  fs_stdout (w_fs w) msg_success = Some e ->
  exn_class e = UnicodeEncodeError ->
  (check_conda_environment env_path w).1 = Return (true, []) ->
  (main [env_path] w).1 = Raise e /\
  printed stdout (trace_since w (main [env_path] w).2) = [msg_checking env_path] /\
  printed stderr (trace_since w (main [env_path] w).2) = [] /\
  (run_script [env_path] w).1 = Uncaught e.
Proof.
  intros Hp%(parse_args_positional _ w) Hc Hs He. rewrite check_conda_environment_run.
  cbn [fst]. intros Hr. unfold run_script, script.
  rewrite run_bind, (main_run _ _ _ _ Hp). cbn [fst snd]. rewrite trace_since_app.
  destruct (printed_main_events (w_fs w) env_path Hc) as [-> ->].
  unfold main_result, report_result. rewrite Hc, Hr, Hs. simpl. by rewrite He.
Qed.

(** C8: when the checker reports failure with [issues], [main] returns 1,
    prints on standard output only the line naming the environment, and
    on standard error the header followed by one line "  - <issue>" per
    issue, in the order of [issues]. *)
Theorem main_failure (env_path : string) (issues : list string) (w : World FS) :
  startswith env_path "-" = false ->
  shows_checking (w_fs w) env_path ->
  (check_conda_environment env_path w).1 = Return (false, issues) ->
  (main [env_path] w).1 = Return 1%Z /\
  printed stdout (trace_since w (main [env_path] w).2) = [msg_checking env_path] /\
  printed stderr (trace_since w (main [env_path] w).2) =
    msg_failure :: map bullet issues.
Proof.
  intros Hp%(parse_args_positional _ w) Hc. rewrite check_conda_environment_run.
  cbn [fst]. intros Hr. rewrite (main_run _ _ _ _ Hp). cbn [fst snd].
  rewrite trace_since_app.
  destruct (printed_main_events (w_fs w) env_path Hc) as [-> ->].
  unfold main_result, report_result. by rewrite Hc, Hr.
Qed.

(** C32: whatever the command line, [main] writes nothing to the file
    system, takes nothing back from the trace, and leaves open exactly
    the files that were open. *)
Theorem main_read_only (argv : list string) (w : World FS) :
  w_fs (main argv w).2 = w_fs w /\
  w_trace w `prefix_of` w_trace (main argv w).2 /\
  w_open (main argv w).2 = w_open w.
Proof.
  assert (preserves evolves (main argv)) as He by (unfold main; py_auto).
  assert (preserves same_open (main argv)) as Ho by (unfold main; py_auto).
  destruct (He w). by split_and!; [..|apply Ho].
Qed.

(** C22: [main] terminates, and soon: on a command line of one argument
    that is no option it ends, by returning or by raising, after at most
    five events and six more for each file to check, so after at most
    eleven for the one file checked today. *)
Theorem main_terminates (env_path : string) (w : World FS) :
  startswith env_path "-" = false ->
  exists r w',
    main [env_path] w = (r, w') /\
    length (trace_since w w') <= 5 + 6 * length (get_files_to_check (Path env_path)).
Proof.
  intros Hp%(parse_args_positional _ w). eexists _, _.
  split; [apply (main_run _ _ _ _ Hp)|].
  rewrite trace_since_app. apply main_events_length.
Qed.

(** C23: every run of [main] that returns has told its verdict, as the
    last thing it did: a run that returns 0 ends with the success line on
    stdout, a run that returns 1 ends with the failure header on stderr
    followed by the issues, of which there is at least one. *)
Theorem main_reports_verdict (argv : list string) (code : Z) (w : World FS) :
  (main argv w).1 = Return code ->
  (code = 0%Z /\
   exists tr, trace_since w (main argv w).2 = tr ++ [EvPrint stdout msg_success]) \/
  (code = 1%Z /\
   exists tr issues,
     issues <> [] /\
     trace_since w (main argv w).2 =
     tr ++ EvPrint stderr msg_failure ::
           map (fun issue => EvPrint stderr (bullet issue)) issues).
Proof.
  destruct (main_cases argv w) as (lines & Hr & _ & _ & Ht).
  unfold trace_since. rewrite Hr, Ht, drop_app_length. clear Hr Ht.
  destruct (parse_args argv w).1 as [env_path|]; [|done].
  unfold main_result, main_events, report_result, report_events.
  destruct (fs_stdout (w_fs w) (msg_checking env_path)); [done|].
  destruct (env_result (w_fs w) env_path) as [[success issues]|] eqn:He; [|done].
  apply env_result_consistent in He.
  destruct success; [destruct (fs_stdout (w_fs w) msg_success); [done|]|];
    intros [= <-]; [left|right]; (split; [done|]).
  - eexists. by rewrite app_comm_cons, !app_assoc.
  - eexists _, issues. split; [by intros ?%He|].
    by rewrite app_comm_cons, !app_assoc.
Qed.

(** The process started on one argument that is no option ends with
    status 0 when the checker reports success and with status 1 when it
    reports failure. *)
Theorem run_script_status (env_path : string) (success : bool)
    (issues : list string) (w : World FS) :
  startswith env_path "-" = false ->
  shows_checking (w_fs w) env_path -> shows_success (w_fs w) ->
  (check_conda_environment env_path w).1 = Return (success, issues) ->
  (run_script [env_path] w).1 = Exit (if success then 0 else 1)%Z.
Proof.
  intros Hp Hc Hs. rewrite check_conda_environment_run, run_script_run by done.
  cbn [fst]. intros ->. by destruct success.
Qed.

(** The process, from what [main] comes to: its return value is the
    exit status, and what it raises is left to the runtime. *)
Lemma run_script_main (argv : list string) (w : World FS) :
  (run_script argv w).1 =
  match (main argv w).1 with
  | Return code => Exit code
  | Raise e => interpreter (A := unit) (Raise e)
  end.
Proof.
  unfold run_script, script. rewrite run_bind.
  by destruct (main argv w) as [[code|e] w'].
Qed.

(** The process when the parser leaves by [SystemExit]. *)
Lemma run_script_parse_exit (argv : list string) (e : exn) (code : Z)
    (w w' : World FS) :
  parse_args argv w = (Raise e, w') ->
  exn_class e = SystemExit code ->
  run_script argv w = (Exit code, w').
Proof.
  intros Hp He. unfold run_script, script.
  rewrite run_bind, (main_parse_exit _ _ _ _ Hp). simpl. by rewrite He.
Qed.

(** When the parser refuses the command line, the process ends with
    the parser's exit status and the file system is never asked
    anything. *)
Theorem run_script_usage_error (argv : list string) (e : exn) (code : Z)
    (w w' : World FS) :
  parse_args argv w = (Raise e, w') ->
  exn_class e = SystemExit code ->
  (run_script argv w).1 = Exit code /\
  forall p ok, (EvExists p ∉ trace_since w (run_script argv w).2) /\
               (EvOpen p ok ∉ trace_since w (run_script argv w).2).
Proof.
  intros Hp He. rewrite (run_script_parse_exit _ _ _ _ _ Hp He).
  split; [done|]. intros p ok.
  destruct (parse_args_prints argv w) as (_ & _ & lines & Ht).
  rewrite Hp in Ht. simpl in Ht. unfold trace_since. simpl.
  rewrite Ht, drop_app_length.
  split; intros (l & [= ] & _)%list_elem_of_fmap.
Qed.

(** The script leaves the world [main] leaves: [sys.exit] only raises. *)
Lemma run_script_world (argv : list string) (w : World FS) :
  (run_script argv w).2 = (main argv w).2.
Proof.
  unfold run_script, script. rewrite run_bind.
  by destruct (main argv w) as [[code|e] w'].
Qed.

(** C36: an exception that escapes the checker and is not [SystemExit]
    ends the process as an uncaught exception: the exit status is not
    the 0 or 1 of [main], and the program has printed the line naming the
    environment and nothing else, neither a verdict nor an issue.  (What
    the interpreter writes about the exception is not part of the
    trace.) *)
Theorem run_script_uncaught (env_path : string) (e : exn) (w : World FS) :
  startswith env_path "-" = false ->
  shows_checking (w_fs w) env_path ->
  (check_conda_environment env_path w).1 = Raise e ->
  (forall code, exn_class e <> SystemExit code) ->
  (run_script [env_path] w).1 = Uncaught e /\
  printed stdout (trace_since w (run_script [env_path] w).2) = [msg_checking env_path] /\
  printed stderr (trace_since w (run_script [env_path] w).2) = [].
Proof.
  intros Hp%(parse_args_positional _ w) Hc. rewrite check_conda_environment_run.
  cbn [fst]. intros Hr He. rewrite run_script_main, run_script_world.
  rewrite (main_run _ _ _ _ Hp). cbn [fst snd]. rewrite trace_since_app.
  destruct (printed_main_events _ _ Hc) as [-> ->].
  unfold main_result. rewrite Hc, Hr. simpl. split; [|done].
  destruct (exn_class e); try done. by destruct (He code).
Qed.

End Main.

(** ** Concrete runs *)

(** [main] and the script with the memory file system and the parser
    [one_positional]. *)
Definition mem_main : list string -> py (World mem_FileSystem) Z :=
  main (AP := one_positional).

Definition mem_run_script (argv : list string) (w : World mem_FileSystem)
    : termination * World mem_FileSystem :=
  run_script (AP := one_positional) argv w.

Lemma main_exit_code_witness :
  (mem_main ["/opt/env"] (mem_world (sample_env "//?/"))).1 =
  outcome_map (fun r => if r.1 : bool then 0%Z else 1%Z)
    (check_conda_environment "/opt/env" (mem_world (sample_env "//?/"))).1.
Proof. apply (main_exit_code (AP := one_positional)); by vm_compute. Defined.

Lemma main_trace_witness :
  w_trace (mem_main ["/opt"] (mem_world (sample_env ""))).2 =
  w_trace (mem_world (sample_env "")) ++
  [EvPrint stdout (msg_checking "/opt")] ++
  env_events (w_fs (mem_world (sample_env ""))) "/opt" ++
  match (check_conda_environment "/opt" (mem_world (sample_env ""))).1 with
  | Return (success, issues) =>
      report_events (w_fs (mem_world (sample_env ""))) success issues
  | Raise _ => []
  end.
Proof. apply (main_trace (AP := one_positional)); by vm_compute. Defined.

Lemma main_clean_witness :
  (mem_main ["/opt/env"] (mem_world (sample_env "Write-Host hello"))).1 = Return 0%Z /\
  printed stdout
    (trace_since (mem_world (sample_env "Write-Host hello"))
       (mem_main ["/opt/env"] (mem_world (sample_env "Write-Host hello"))).2) =
    [msg_checking "/opt/env"; msg_success] /\
  printed stderr
    (trace_since (mem_world (sample_env "Write-Host hello"))
       (mem_main ["/opt/env"] (mem_world (sample_env "Write-Host hello"))).2) = [].
Proof.
  apply (main_clean (AP := one_positional)); by vm_compute.
Defined.

Lemma main_success_unprintable_witness :
  (mem_main ["/opt/env"]
     (mem_world (with_stdout cp1252 (sample_env "Write-Host hello")))).1 =
  Raise (PyExc UnicodeEncodeError "") /\
  printed stdout
    (trace_since (mem_world (with_stdout cp1252 (sample_env "Write-Host hello")))
       (mem_main ["/opt/env"]
          (mem_world (with_stdout cp1252 (sample_env "Write-Host hello")))).2) =
    [msg_checking "/opt/env"] /\
  printed stderr
    (trace_since (mem_world (with_stdout cp1252 (sample_env "Write-Host hello")))
       (mem_main ["/opt/env"]
          (mem_world (with_stdout cp1252 (sample_env "Write-Host hello")))).2) = [] /\
  (mem_run_script ["/opt/env"]
     (mem_world (with_stdout cp1252 (sample_env "Write-Host hello")))).1 =
  Uncaught (PyExc UnicodeEncodeError "").
Proof.
  apply (main_success_unprintable (AP := one_positional)); by vm_compute.
Defined.

Lemma main_failure_witness :
  (mem_main ["/opt/env"] (mem_world (sample_env "\\?\C:\env"))).1 = Return 1%Z /\
  printed stdout
    (trace_since (mem_world (sample_env "\\?\C:\env"))
       (mem_main ["/opt/env"] (mem_world (sample_env "\\?\C:\env"))).2) =
    [msg_checking "/opt/env"] /\
  printed stderr
    (trace_since (mem_world (sample_env "\\?\C:\env"))
       (mem_main ["/opt/env"] (mem_world (sample_env "\\?\C:\env"))).2) =
    msg_failure :: map bullet [msg_back sample_hook].
Proof.
  apply (main_failure (AP := one_positional)); by vm_compute.
Defined.

Lemma run_script_status_witness :
  (mem_run_script ["/nowhere"] (mem_world (sample_env ""))).1 = Exit 1.
Proof.
  apply (run_script_status (AP := one_positional) "/nowhere" false
           [msg_env_missing "/nowhere"]); by vm_compute.
Defined.

Lemma run_script_usage_error_witness :
  (mem_run_script [] (mem_world (sample_env ""))).1 = Exit 2 /\
  forall p ok,
    (EvExists p ∉ trace_since (mem_world (sample_env ""))
                    (mem_run_script [] (mem_world (sample_env ""))).2) /\
    (EvOpen p ok ∉ trace_since (mem_world (sample_env ""))
                     (mem_run_script [] (mem_world (sample_env ""))).2).
Proof.
  apply (run_script_usage_error (AP := one_positional) []
           (PyExc (SystemExit 2) "") 2 (mem_world (sample_env ""))
           (mkWorld (FS := mem_FileSystem) (sample_env "") []
              (map (EvPrint stderr) (error_lines Required)))); reflexivity.
Defined.

Lemma run_script_uncaught_witness :
  (mem_run_script ["/opt/locked/env"] (mem_world (sample_env ""))).1 =
  Uncaught (permission_denied (Path "/opt/locked/env")) /\
  printed stdout (trace_since (mem_world (sample_env ""))
    (mem_run_script ["/opt/locked/env"] (mem_world (sample_env ""))).2) =
  [msg_checking "/opt/locked/env"] /\
  printed stderr (trace_since (mem_world (sample_env ""))
    (mem_run_script ["/opt/locked/env"] (mem_world (sample_env ""))).2) = [].
Proof.
  apply (run_script_uncaught (AP := one_positional)); [by vm_compute..|done].
Defined.

Lemma main_terminates_witness :
  exists r w',
    mem_main ["/opt/env"] (mem_world (sample_env "cd //?/C:/env")) = (r, w') /\
    length (trace_since (mem_world (sample_env "cd //?/C:/env")) w') <= 11.
Proof. apply (main_terminates (AP := one_positional)). reflexivity. Defined.

Lemma main_reports_verdict_witness :
  (1%Z = 0%Z /\
   exists tr,
     trace_since (mem_world (sample_env "cd //?/C:/env"))
       (mem_main ["/opt/env"] (mem_world (sample_env "cd //?/C:/env"))).2 =
     tr ++ [EvPrint stdout msg_success]) \/
  (1%Z = 1%Z /\
   exists tr issues,
     issues <> [] /\
     trace_since (mem_world (sample_env "cd //?/C:/env"))
       (mem_main ["/opt/env"] (mem_world (sample_env "cd //?/C:/env"))).2 =
     tr ++ EvPrint stderr msg_failure ::
           map (fun issue => EvPrint stderr (bullet issue)) issues).
Proof. apply (main_reports_verdict (AP := one_positional)). reflexivity. Defined.
