(* ===== verification/Protocol.v ===== *)
(** * Protocol: the discipline of file handles

    A file is read only while it is open, closed only when it is open, and
    every file the program opens it closes.  The discipline is a machine
    over the list of open files, driven by the events of the trace:
    [handle_step] is one move of it, [replay] runs it on a trace, [peak]
    is the largest number of files open on the way.  A world is
    [consistent] when its open files are those the machine arrives at on
    its trace.  The programs of the source are proved to drive the machine
    from any list of open files back to the same list, with at most one
    more file open on the way. *)

From Stdlib Require Import String Ascii ZArith Lia.
From stdpp Require Import base tactics option list strings.
From S2P Require Import Prelude PyStr Paths FileSys MemFS Scanner Checker ArgParse Main.

Section Protocol.
Context {PP : PurePath} {FS : FileSystem PP}.

(** ** The machine *)

(** One move: the open files before an event and after it. *)
Inductive handle_step : list path -> event -> list path -> Prop :=
| hs_exists o p : handle_step o (EvExists p) o
| hs_is_dir o p : handle_step o (EvIsDir p) o
| hs_open o p : handle_step o (EvOpen p true) (p :: o)
| hs_open_failed o p : handle_step o (EvOpen p false) o
| hs_read o p : p ∈ o -> handle_step o (EvRead p) o
| hs_close o p : p ∈ o -> handle_step o (EvClose p) (remove_first p o)
| hs_print o s line : handle_step o (EvPrint s line) o.

(** A run of the machine over a trace. *)
Inductive handle_steps : list path -> list event -> list path -> Prop :=
| hss_nil o : handle_steps o [] o
| hss_cons o e o' tr o'' :
    handle_step o e o' -> handle_steps o' tr o'' -> handle_steps o (e :: tr) o''.

(** The move as a function: [None] when the event breaks the
    discipline. *)
Definition handle_next (o : list path) (e : event) : option (list path) :=
  match e with
  | EvOpen p true => Some (p :: o)
  | EvRead p => if decide (p ∈ o) then Some o else None
  | EvClose p => if decide (p ∈ o) then Some (remove_first p o) else None
  | _ => Some o
  end.

Fixpoint replay (o : list path) (tr : list event) : option (list path) :=
  match tr with
  | [] => Some o
  | e :: tr' => handle_next o e ≫= fun o' => replay o' tr'
  end.

(** The largest number of files open at a time along a trace. *)
Fixpoint peak (o : list path) (tr : list event) : nat :=
  match tr with
  | [] => length o
  | e :: tr' =>
      length o `max`
      match handle_next o e with
      | Some o' => peak o' tr'
      | None => 0
      end
  end.

(** An event that neither opens, reads nor closes. *)
Definition silent (e : event) : bool :=
  match e with
  | EvOpen _ true | EvRead _ | EvClose _ => false
  | _ => true
  end.

(** The files successfully opened and the files closed, counted. *)
Definition is_open (e : event) : bool :=
  match e with EvOpen _ true => true | _ => false end.

Definition is_close (e : event) : bool :=
  match e with EvClose _ => true | _ => false end.

Definition opens (tr : list event) : nat :=
  length (filter (fun e => is_open e = true) tr).

Definition closes (tr : list event) : nat :=
  length (filter (fun e => is_close e = true) tr).

(** The open files of a world are those its trace leaves open. *)
Definition consistent (w : World FS) : Prop :=
  replay [] (w_trace w) = Some (w_open w).

(** ** The function and the relation *)

Lemma handle_next_spec (o o' : list path) (e : event) :
  handle_next o e = Some o' <-> handle_step o e o'.
Proof.
  split.
  - destruct e as [| |p []| | |]; simpl; repeat case_decide;
      intros [= <-]; by constructor.
  - intros []; simpl; by rewrite ?decide_True.
Qed.

Lemma replay_spec (o o' : list path) (tr : list event) :
  replay o tr = Some o' <-> handle_steps o tr o'.
Proof.
  revert o. induction tr as [|e tr IH]; intros o; simpl.
  - split; [intros [= <-]; constructor|by inversion 1].
  - split.
    + destruct (handle_next o e) as [o1|] eqn:E; [|done]. simpl.
      intros H%IH. apply handle_next_spec in E. by econstructor.
    + inversion 1 as [|? ? o1 ? ? Hs Hr]; subst.
      apply handle_next_spec in Hs. rewrite Hs. simpl. by apply IH.
Qed.

Lemma replay_app (o : list path) (tr1 tr2 : list event) :
  replay o (tr1 ++ tr2) = replay o tr1 ≫= fun o' => replay o' tr2.
Proof.
  revert o. induction tr1 as [|e tr1 IH]; intros o; simpl; [done|].
  destruct (handle_next o e); simpl; [apply IH|done].
Qed.

Lemma replay_app_Some (o o1 o2 : list path) (tr1 tr2 : list event) :
  replay o tr1 = Some o1 -> replay o1 tr2 = Some o2 ->
  replay o (tr1 ++ tr2) = Some o2.
Proof. intros H1 H2. by rewrite replay_app, H1. Qed.

Lemma handle_steps_app (o o1 o2 : list path) (tr1 tr2 : list event) :
  handle_steps o tr1 o1 -> handle_steps o1 tr2 o2 -> handle_steps o (tr1 ++ tr2) o2.
Proof. rewrite <- !replay_spec. apply replay_app_Some. Qed.

Lemma peak_app (o o1 : list path) (tr1 tr2 : list event) :
  replay o tr1 = Some o1 ->
  peak o (tr1 ++ tr2) = peak o tr1 `max` peak o1 tr2.
Proof.
  revert o. induction tr1 as [|e tr1 IH]; intros o; simpl.
  - intros [= <-]. destruct tr2; simpl; lia.
  - destruct (handle_next o e) as [o'|]; [|done]. simpl.
    intros H%IH. rewrite H. lia.
Qed.

Lemma peak_ge (o : list path) (tr : list event) : length o <= peak o tr.
Proof. destruct tr; simpl; lia. Qed.

(** Silent events leave the machine where it is. *)
Lemma replay_silent (o : list path) (tr : list event) :
  Forall (fun e => silent e = true) tr ->
  replay o tr = Some o /\ peak o tr = length o.
Proof.
  induction 1 as [|e tr He _ [IH1 IH2]]; [done|]. simpl.
  assert (handle_next o e = Some o) as -> by by destruct e as [| |? []| | |].
  simpl. split; [done|lia].
Qed.

Lemma silent_prints (lines : list (stream * string)) :
  Forall (fun e => silent e = true) (map (fun l => EvPrint l.1 l.2) lines).
Proof. apply Forall_forall. by intros e (l & -> & _)%list_elem_of_fmap. Qed.

(** ** What holds of every run of the machine *)

(** The files open at the end are those open at the start and those
    opened, less those closed. *)
Lemma handle_steps_balance (o o' : list path) (tr : list event) :
  handle_steps o tr o' -> length o' + closes tr = length o + opens tr.
Proof.
  induction 1 as [o|o e o' tr o'' Hs _ IH]; [done|].
  unfold closes, opens in *.
  destruct Hs as [| | | |o p Hp|o p Hp|];
    rewrite ?filter_cons_True, ?filter_cons_False by done; simpl in *; try lia.
  assert (length (remove_first p o) + 1 = length o); [|lia].
  clear IH. induction o as [|q o IHo]; [by apply elem_of_nil in Hp|].
  simpl. case_decide; simpl; [lia|].
  apply elem_of_cons in Hp as [->|Hp]; [done|]. specialize (IHo Hp). lia.
Qed.

(** A run that ends with the files it started with has closed as many
    files as it opened. *)
Lemma handle_steps_closed (o : list path) (tr : list event) :
  handle_steps o tr o -> closes tr = opens tr.
Proof. intros H%handle_steps_balance. lia. Qed.

(** ** The programs drive the machine *)

Context {AP : ArgumentParser FS}.

(** A file opened, read and closed: one more file open on the way, none
    at the end. *)
Lemma replay_open_read_close (o : list path) (p : path) :
  replay o [EvOpen p true; EvRead p; EvClose p] = Some o /\
  peak o [EvOpen p true; EvRead p; EvClose p] = S (length o).
Proof.
  assert (p ∈ p :: o) as Hp by (apply elem_of_cons; by left).
  simpl. rewrite !decide_True by done. simpl. rewrite !decide_True by done.
  split; [done|]. simpl. lia.
Qed.

Lemma replay_file_events (o : list path) (s : fs) (file_path : path) :
  replay o (file_events s file_path) = Some o /\
  peak o (file_events s file_path) <= S (length o).
Proof.
  unfold file_events.
  destruct (fs_exists s file_path) as [[]|]; [|split; [done|simpl; lia]..].
  destruct (fs_open s file_path); [|split; [done|simpl; lia]].
  destruct (replay_open_read_close o file_path) as [H1 H2].
  change (replay o (?e :: ?tr)) with (replay o tr).
  change (peak o (?e :: ?tr)) with (length o `max` peak o tr).
  rewrite H1, H2. split; [done|lia].
Qed.

Lemma replay_files_events (o : list path) (s : fs) (files : list path) :
  replay o (files_events s files) = Some o /\
  peak o (files_events s files) <= S (length o).
Proof.
  induction files as [|file_path rest [IH1 IH2]]; simpl; [split; [done|lia]|].
  destruct (replay_file_events o s file_path) as [H1 H2].
  rewrite (peak_app _ o), replay_app, H1 by done. cbn [mbind option_bind].
  destruct (file_issues s file_path); cbn [replay peak]; split; (done || lia).
Qed.

Lemma silent_validate_events (s : fs) (env_path : string) :
  Forall (fun e => silent e = true) (validate_events s env_path).
Proof.
  unfold validate_events.
  destruct (fs_exists s _) as [[]|]; [|by repeat constructor..].
  destruct (fs_is_dir s _) as [[]|]; by repeat constructor.
Qed.

Lemma silent_report_events (s : fs) (success : bool) (issues : list string) :
  Forall (fun e => silent e = true) (report_events s success issues).
Proof.
  unfold report_events. destruct success; [by destruct (fs_stdout _ _); repeat constructor|].
  repeat constructor. apply Forall_forall. by intros e (l & -> & _)%list_elem_of_fmap.
Qed.

Lemma replay_env_events (o : list path) (s : fs) (env_path : string) :
  replay o (env_events s env_path) = Some o /\
  peak o (env_events s env_path) <= S (length o).
Proof.
  unfold env_events.
  destruct (replay_silent o _ (silent_validate_events s env_path)) as [H1 H2].
  destruct (replay_files_events o s (get_files_to_check (Path env_path)))
    as [H3 H4].
  rewrite (peak_app _ o), replay_app, H1, H2 by done. cbn [mbind option_bind].
  destruct (validate s env_path) as [[msg|]|]; cbn [replay peak];
    split; (done || lia).
Qed.

Lemma replay_main_events (o : list path) (s : fs) (env_path : string) :
  replay o (main_events s env_path) = Some o /\
  peak o (main_events s env_path) <= S (length o).
Proof.
  unfold main_events. destruct (replay_env_events o s env_path) as [H1 H2].
  destruct (fs_stdout s (msg_checking env_path)); [split; [done|simpl; lia]|].
  change (replay o (?e :: ?tr)) with (replay o tr).
  change (peak o (?e :: ?tr)) with (length o `max` peak o tr).
  rewrite (peak_app _ o), replay_app, H1 by done. cbn [mbind option_bind].
  destruct (env_result s env_path) as [[success issues]|]; cbn [replay peak];
    [|split; [done|lia]].
  destruct (replay_silent o _ (silent_report_events s success issues)) as [-> ->].
  split; [done|lia].
Qed.

(** Every run of [main], as a run of the machine. *)
Lemma replay_main (argv : list string) (w : World FS) :
  replay (w_open w) (trace_since w (main argv w).2) = Some (w_open w) /\
  peak (w_open w) (trace_since w (main argv w).2) <= S (length (w_open w)).
Proof.
  destruct (main_cases argv w) as (lines & _ & _ & _ & Ht).
  unfold trace_since. rewrite Ht, drop_app_length.
  destruct (replay_silent (w_open w) _ (silent_prints lines)) as [H1 H2].
  rewrite (peak_app _ (w_open w)), replay_app, H1, H2 by done.
  cbn [mbind option_bind].
  destruct (parse_args argv w).1 as [env_path|]; [|split; [done|simpl; lia]].
  destruct (replay_main_events (w_open w) (w_fs w) env_path). split; [done|lia].
Qed.

(** C21: [main] keeps the discipline of file handles.  Whatever the
    command line and the file system, the events of a run are a run of
    the machine from the files that were open back to the same files: no
    file is read or closed that is not open, and as many files are closed
    as were opened. *)
Theorem main_obeys_protocol (argv : list string) (w : World FS) :
  handle_steps (w_open w) (trace_since w (main argv w).2) (w_open w) /\
  closes (trace_since w (main argv w).2) = opens (trace_since w (main argv w).2).
Proof.
  assert (handle_steps (w_open w) (trace_since w (main argv w).2) (w_open w)) as H
    by apply replay_spec, replay_main.
  split; [done|]. by apply handle_steps_closed in H.
Qed.

(** C28: [main] holds at most one file open at a time, beside those that
    were open when it was called. *)
Theorem main_one_file_at_a_time (argv : list string) (w : World FS) :
  peak (w_open w) (trace_since w (main argv w).2) <= S (length (w_open w)).
Proof. apply replay_main. Qed.

(** C27: the open files of the world are those its trace leaves open:
    this holds of the world a process starts in, and the script keeps
    it, whether it ends by [sys.exit] or by an exception. *)
Theorem script_keeps_consistent (argv : list string) (w : World FS) :
  consistent w -> consistent (script argv w).2.
Proof.
  intros Hw. unfold consistent, script. rewrite run_bind.
  pose proof (replay_main argv w) as [Hr _].
  destruct (main_cases argv w) as (lines & _ & _ & Hop & Ht).
  unfold trace_since in Hr. rewrite Ht, drop_app_length in Hr.
  assert (replay [] (w_trace (main argv w).2) = Some (w_open (main argv w).2)) as H
    by (rewrite Hop, Ht; by apply (replay_app_Some _ (w_open w))).
  by destruct (main argv w) as [[code|e] w'].
Qed.

Lemma initial_world_consistent (s : fs) : consistent (initial_world s).
Proof. reflexivity. Qed.

End Protocol.

(** ** Concrete runs *)

Lemma script_keeps_consistent_witness :
  consistent (script (AP := one_positional) ["/opt/env"]
                (mem_world (sample_env "cd //?/C:/env"))).2.
Proof. apply script_keeps_consistent, initial_world_consistent. Defined.

Example replay_sample_run :
  replay [] (w_trace (mem_main ["/opt/env"] (mem_world (sample_env "x"))).2) = Some [] /\
  peak [] (w_trace (mem_main ["/opt/env"] (mem_world (sample_env "x"))).2) = 1.
Proof. vm_compute. done. Qed.

(** A trace that reads a file after closing it is refused. *)
Example replay_read_after_close :
  replay [] [EvOpen sample_hook true; EvClose sample_hook; EvRead sample_hook] = None.
Proof. vm_compute. reflexivity. Qed.
