(* ===== verification/EndToEnd.v ===== *)
(** * EndToEnd: the exit status of the process and the file system

    The components put together: the script run as a process, with the
    parser of [ArgParse.v], on the file system of [MemFS.v] whose files
    hold bytes.  [Clean] says, of the file system alone, what it is for an
    environment to pass the check; the theorems of this file prove that
    the process ends with status 0 exactly on the clean environments and
    with status 1 on all others, and what it does on a command line that
    names no environment. *)

From Stdlib Require Import String Ascii ZArith.
From Stdlib.Strings Require Import Byte.
From stdpp Require Import base tactics option list strings.
From S2P Require Import Prelude PyStr Decode Paths FileSys MemFS Scanner Checker.
From S2P Require Import ScanBytes ArgParse Main.

(** ** The specification *)

(** The hook script of the environment at [env_path]. *)
Definition hook_of (env_path : string) : posix_path :=
  conda_hook (PP := posix_PurePath) (Path env_path).

(** The text of the file at [p] holds neither prefix. *)
Definition clean_file (s : memfs) (p : posix_path) : Prop :=
  exists data,
    stat s p = StNode (MFile true (Return data)) /\
    ~ Substring fwd_prefix (text_of_bytes data) /\
    ~ Substring back_prefix (text_of_bytes data).

(** The environment at [env_path] passes the check: the path leads to a
    directory with an entry [conda-meta], and the hook script is a
    readable file whose text holds neither prefix. *)
Definition Clean (s : memfs) (env_path : string) : Prop :=
  (exists b, stat s (posix_parse env_path) = StNode (MDir b)) /\
  (exists n, stat s (posix_join (posix_parse env_path) "conda-meta") = StNode n) /\
  clean_file s (hook_of env_path).

(** The process: the script started with the arguments [argv] on the file
    system [s], to its termination. *)
Definition process (argv : list string) (s : memfs) : termination :=
  (mem_run_script argv (mem_world s)).1.

(** ** The file system, call by call *)

Lemma mem_exists_true (s : memfs) (p : posix_path) :
  mem_exists s p = Return true <-> exists n, stat s p = StNode n.
Proof.
  unfold mem_exists. destruct (stat s p); split; try done; eauto; by intros [? [=]].
Qed.

Lemma mem_is_dir_true (s : memfs) (p : posix_path) :
  mem_is_dir s p = Return true <-> exists b, stat s p = StNode (MDir b).
Proof.
  unfold mem_is_dir.
  destruct (stat s p) as [[]| | |]; split; try done; eauto; by intros [? [=]].
Qed.

(** A file gives no issue exactly when it is clean. *)
Lemma mem_file_issues_nil (s : memfs) (p : posix_path) :
  file_issues (FS := mem_FileSystem) s p = Return [] <-> clean_file s p.
Proof.
  unfold file_issues, read_text, clean_file. simpl. unfold mem_exists, mem_open.
  destruct (stat s p) as [[b|[] [data|e]]| | |]; simpl;
    try (split; [done|by intros (? & [=] & _)]).
  - split.
    + intros [= H%scan_content_nil]. by exists data.
    + intros (? & [= <-] & H%(scan_content_nil (PP := posix_PurePath) p)). by rewrite H.
  - destruct (catchable e); (split; [done|by intros (? & [=] & _)]).
Qed.

Lemma mem_is_environment (s : memfs) (env_path : string) :
  is_environment (FS := mem_FileSystem) s env_path <->
  (exists b, stat s (posix_parse env_path) = StNode (MDir b)) /\
  (exists n, stat s (posix_join (posix_parse env_path) "conda-meta") = StNode n).
Proof.
  unfold is_environment. simpl.
  rewrite !mem_exists_true, mem_is_dir_true. split; [tauto|].
  intros [[b H] ?]. split_and!; eauto.
Qed.

Lemma Clean_iff (s : memfs) (env_path : string) :
  Clean s env_path <->
  validate (FS := mem_FileSystem) s env_path = Return None /\
  file_issues (FS := mem_FileSystem) s (hook_of env_path) = Return [].
Proof.
  unfold Clean. rewrite validate_None, mem_is_environment, mem_file_issues_nil. tauto.
Qed.

(** The checker reports success exactly on the clean environments. *)
Lemma env_result_clean (s : memfs) (env_path : string) :
  (exists issues, env_result (FS := mem_FileSystem) s env_path = Return (true, issues))
  <-> Clean s env_path.
Proof.
  rewrite Clean_iff. unfold env_result, hook_of.
  destruct (validate _ _) as [[msg|]|];
    [split; [by intros [? [=]]|by intros [[=] _]]|
    |split; [by intros [? [=]]|by intros [[=] _]]].
  cbn [get_files_to_check files_issues].
  destruct (file_issues _ _) as [[|issue issues]|e]; simpl; split;
    try (by intros [? [=]]); try (by intros [_ [=]]).
  by eexists.
Qed.

(** ** The exit status *)

(** The process on any command line, from the result of the parser and
    the result of [main]. *)
Lemma process_run (s : memfs) (argv : list string) :
  process argv s =
  match parse_known_args argv with
  | Namespace env_path =>
      match main_result (FS := mem_FileSystem) s env_path with
      | Return code => Exit code
      | Raise e => interpreter (A := unit) (Raise e)
      end
  | Print_help => Exit 0
  | Arg_error _ => Exit 2
  end.
Proof.
  unfold process, mem_run_script.
  destruct (parse_known_args argv) as [env_path| |e] eqn:Hp.
  - by rewrite run_script_main,
      (main_run _ _ _ _ (one_positional_Namespace _ _ (mem_world s) Hp)).
  - destruct (one_positional_exit argv (mem_world s))
      as (code & st & lines & [(_ & -> & _)|(e & ? & _)] & Hr); [congruence| |congruence].
    by rewrite (run_script_parse_exit _ _ _ _ _ Hr eq_refl).
  - destruct (one_positional_exit argv (mem_world s))
      as (code & st & lines & [(? & _)|(e' & _ & -> & _)] & Hr); [congruence..|].
    by rewrite (run_script_parse_exit _ _ _ _ _ Hr eq_refl).
Qed.

(** What the process has done when it ends: the events of its run. *)
Definition process_trace (argv : list string) (s : memfs) : list event :=
  w_trace (mem_run_script argv (mem_world s)).2.

Lemma process_trace_run (s : memfs) (argv : list string) (env_path : string) :
  parse_known_args argv = Namespace env_path ->
  process_trace argv s = main_events (FS := mem_FileSystem) s env_path.
Proof.
  intros Hp. unfold process_trace, mem_run_script, run_script, script.
  rewrite run_bind, (main_run _ _ _ _ (one_positional_Namespace _ _ (mem_world s) Hp)).
  by destruct (main_result _ _).
Qed.

(** What [print] raises ends the process as an uncaught exception. *)
Lemma mem_stdout_uncaught (s : memfs) (line : string) (e : exn) :
  mem_stdout s line = Some e ->
  e = PyExc UnicodeEncodeError "" /\ interpreter (A := unit) (Raise e) = Uncaught e.
Proof. unfold mem_stdout. by destruct (encodes _ _); intros [= <-]. Qed.

(** Only UTF-8 has the check mark of the success line. *)
Lemma encodes_msg_success (enc : encoding) :
  encodes enc msg_success = true <-> enc = utf_8.
Proof. by destruct enc; vm_compute. Qed.

(** The process on a command line that names a path, by the verdict of
    the checker. *)
Lemma process_verdict (s : memfs) (argv : list string) (env_path : string) :
  parse_known_args argv = Namespace env_path ->
  shows_checking (FS := mem_FileSystem) s env_path ->
  process argv s =
  match env_result (FS := mem_FileSystem) s env_path with
  | Return (true, _) =>
      if encodes (m_stdout s) msg_success then Exit 0
      else Uncaught (PyExc UnicodeEncodeError "")
  | Return (false, _) => Exit 1
  | Raise e => interpreter (A := unit) (Raise e)
  end.
Proof.
  intros Hp Hc. rewrite process_run, Hp. unfold main_result, report_result.
  rewrite Hc. destruct (env_result _ _) as [[[] issues]|e]; [|done..].
  simpl. unfold mem_stdout. by destruct (encodes _ _).
Qed.

(** C1: the exit status tells whether the environment is clean.  The
    process started on a command line that names an environment path, on
    a console that shows the lines it prints on [stdout], ends with
    status 0 when the environment is clean.  When it is not, the process
    ends with status 1 on a file system where no directory is closed to
    the process and reading fails with an [Exception] if it fails.
    Status 1 means that the environment is not clean, and on such a file
    system status 0 means that it is. *)
Theorem process_exit_status (s : memfs) (argv : list string) (env_path : string) :
  parse_known_args argv = Namespace env_path ->
  (Clean s env_path ->
   shows_checking (FS := mem_FileSystem) s env_path ->
   shows_success (FS := mem_FileSystem) s -> process argv s = Exit 0) /\
  (tame s -> ~ Clean s env_path ->
   shows_checking (FS := mem_FileSystem) s env_path -> process argv s = Exit 1) /\
  (process argv s = Exit 1 -> ~ Clean s env_path) /\
  (tame s -> process argv s = Exit 0 -> Clean s env_path).
Proof.
  intros Hp. pose proof (env_result_clean s env_path) as Hc.
  pose proof (fun H => env_result_returns s env_path (tame_no_escape s H)) as Hr.
  rewrite process_run, Hp. unfold main_result, report_result, shows_checking, shows_success.
  cbn [fs_stdout mem_FileSystem].
  split_and!.
  - intros [issues Hi]%Hc -> ->. by rewrite Hi.
  - intros Hs%Hr Hn ->.
    destruct (env_result _ _) as [[[] issues]|e]; [|done..].
    destruct Hn. apply Hc. by eexists.
  - destruct (mem_stdout s (msg_checking env_path)) as [e|] eqn:He.
    { by apply mem_stdout_uncaught in He as [_ ->]. }
    intros H [issues Hi]%Hc. rewrite Hi in H.
    destruct (mem_stdout s msg_success) as [e|] eqn:He'; [|done].
    by apply mem_stdout_uncaught in He' as [_ He']; rewrite He' in H.
  - intros Hs%Hr.
    destruct (mem_stdout s (msg_checking env_path)) as [e|] eqn:He.
    { by apply mem_stdout_uncaught in He as [_ ->]. }
    destruct (env_result _ _) as [[[] issues]|e]; [|done..].
    intros _. apply Hc. by eexists.
Qed.

(** C15: a path the console cannot show stops the process before any
    check.  The line naming the environment is the first thing [main]
    does after parsing: when [print] cannot encode it, the process ends
    on [UnicodeEncodeError] with nothing printed and nothing asked of the
    file system, whatever the environment holds. *)
Theorem process_path_unprintable (s : memfs) (argv : list string) (env_path : string) :
  parse_known_args argv = Namespace env_path ->
  encodes (m_stdout s) (msg_checking env_path) = false ->
  process argv s = Uncaught (PyExc UnicodeEncodeError "") /\
  process_trace argv s = [].
Proof.
  intros Hp He. rewrite process_run, (process_trace_run _ _ _ Hp), Hp.
  unfold main_result, main_events. cbn [fs_stdout mem_FileSystem].
  unfold mem_stdout. by rewrite He.
Qed.

(** C18: on a file system where no directory is closed to the process and
    reading fails with an [Exception] if it fails, and on a console that
    shows the lines of [stdout], the process never ends on an uncaught
    exception: whatever the command line, it ends with status 0, 1
    or 2. *)
Theorem process_ends_with_status (s : memfs) (argv : list string) :
  tame s ->
  shows_success (FS := mem_FileSystem) s ->
  (forall env_path, parse_known_args argv = Namespace env_path ->
                    shows_checking (FS := mem_FileSystem) s env_path) ->
  process argv s = Exit 0 \/ process argv s = Exit 1 \/ process argv s = Exit 2.
Proof.
  intros Ht%tame_no_escape Hs Hc. rewrite process_run.
  destruct (parse_known_args argv) as [env_path| |e] eqn:Hp; [|auto..].
  rewrite main_result_shown by auto.
  pose proof (env_result_returns s env_path Ht) as Hr.
  destruct (env_result _ _) as [[[] issues]|]; simpl; auto. done.
Qed.

(** C14: the success line needs a console that has its check mark.  On a
    console whose encoding is not UTF-8, as when the output of a process
    on Windows goes to a file or a pipe, [print] raises
    [UnicodeEncodeError] on the success line: the process started on a
    clean environment ends on an uncaught exception, as for a failure of
    the program, after the line naming the environment. *)
Theorem process_success_unprintable (s : memfs) (argv : list string)
    (env_path : string) :
  parse_known_args argv = Namespace env_path ->
  Clean s env_path ->
  shows_checking (FS := mem_FileSystem) s env_path ->
  m_stdout s <> utf_8 ->
  process argv s = Uncaught (PyExc UnicodeEncodeError "") /\
  printed stdout (process_trace argv s) = [msg_checking env_path] /\
  printed stderr (process_trace argv s) = [].
Proof.
  intros Hp [issues Hi]%env_result_clean Hc He.
  assert (encodes (m_stdout s) msg_success = false) as Hs.
  { destruct (encodes _ _) eqn:E; [|done]. by apply encodes_msg_success in E. }
  rewrite (process_verdict _ _ _ Hp Hc), (process_trace_run _ _ _ Hp), Hi, Hs.
  destruct (printed_main_events (FS := mem_FileSystem) s env_path Hc) as [-> ->].
  rewrite Hi. cbn [fs_stdout mem_FileSystem]. unfold mem_stdout. by rewrite Hs.
Qed.

(** C16: a command line that does not name an environment path never
    reaches the checker.  When the help option is met the process prints
    the help text on [stdout] and ends with status 0; otherwise it prints
    the usage line and the error on [stderr] and ends with status 2.  In
    both cases it has printed nothing else and asked nothing of the file
    system. *)
Theorem process_usage (s : memfs) (argv : list string) :
  (forall env_path, ~ accepted argv env_path) ->
  (parse_known_args argv = Print_help /\
   process argv s = Exit 0 /\
   process_trace argv s = map (EvPrint stdout) help_lines) \/
  (exists e, parse_known_args argv = Arg_error e /\
   process argv s = Exit 2 /\
   process_trace argv s = map (EvPrint stderr) (error_lines e)).
Proof.
  intros Hn. unfold process, process_trace, mem_run_script.
  destruct (one_positional_exit argv (mem_world s))
    as (code & st & lines & Hc & Hr).
  { intros p Hp%parse_known_args_accepted. by destruct (Hn p). }
  rewrite (run_script_parse_exit _ _ _ _ _ Hr eq_refl).
  destruct Hc as [(? & -> & -> & ->)|(e & ? & -> & -> & ->)]; [left|right; exists e]; done.
Qed.

(** ** Concrete runs *)

Lemma process_exit_status_witness :
  (Clean (plain_env "Write-Host hello") "/opt/env" ->
   shows_checking (FS := mem_FileSystem) (plain_env "Write-Host hello") "/opt/env" ->
   shows_success (FS := mem_FileSystem) (plain_env "Write-Host hello") ->
   process ["--"; "/opt/env"] (plain_env "Write-Host hello") = Exit 0) /\
  (tame (plain_env "Write-Host hello") ->
   ~ Clean (plain_env "Write-Host hello") "/opt/env" ->
   shows_checking (FS := mem_FileSystem) (plain_env "Write-Host hello") "/opt/env" ->
   process ["--"; "/opt/env"] (plain_env "Write-Host hello") = Exit 1) /\
  (process ["--"; "/opt/env"] (plain_env "Write-Host hello") = Exit 1 ->
   ~ Clean (plain_env "Write-Host hello") "/opt/env") /\
  (tame (plain_env "Write-Host hello") ->
   process ["--"; "/opt/env"] (plain_env "Write-Host hello") = Exit 0 ->
   Clean (plain_env "Write-Host hello") "/opt/env").
Proof. apply process_exit_status. reflexivity. Defined.

Lemma process_success_unprintable_witness :
  process ["/opt/env"] (with_stdout cp1252 (plain_env "Write-Host hello")) =
  Uncaught (PyExc UnicodeEncodeError "") /\
  printed stdout
    (process_trace ["/opt/env"] (with_stdout cp1252 (plain_env "Write-Host hello"))) =
  [msg_checking "/opt/env"] /\
  printed stderr
    (process_trace ["/opt/env"] (with_stdout cp1252 (plain_env "Write-Host hello"))) = [].
Proof.
  apply process_success_unprintable; [reflexivity| |by vm_compute|done].
  split_and!; [by eexists; vm_compute..|].
  eexists. split; [by vm_compute|]. rewrite <- !contains_false. by vm_compute.
Defined.

Lemma process_usage_witness :
  (parse_known_args ["/opt/env"; "/opt/other"] = Print_help /\
   process ["/opt/env"; "/opt/other"] (plain_env "") = Exit 0 /\
   process_trace ["/opt/env"; "/opt/other"] (plain_env "") =
   map (EvPrint stdout) help_lines) \/
  (exists e, parse_known_args ["/opt/env"; "/opt/other"] = Arg_error e /\
   process ["/opt/env"; "/opt/other"] (plain_env "") = Exit 2 /\
   process_trace ["/opt/env"; "/opt/other"] (plain_env "") =
   map (EvPrint stderr) (error_lines e)).
Proof.
  apply process_usage. intros env_path H. inversion H.
Defined.

(** The sample environment is clean with a plain hook script, and is not
    with one that holds a prefix. *)
Example plain_env_clean : Clean (plain_env "Write-Host hello") "/opt/env".
Proof.
  split_and!; [by eexists; vm_compute..|].
  eexists. split; [by vm_compute|]. rewrite <- !contains_false. by vm_compute.
Qed.

Example plain_env_flagged : process ["/opt/env"] (plain_env "cd \\?\C:\env") = Exit 1.
Proof. vm_compute. reflexivity. Qed.

Example plain_env_passes : process ["/opt/env"] (plain_env "Write-Host hello") = Exit 0.
Proof. vm_compute. reflexivity. Qed.

Lemma process_path_unprintable_witness :
  process ["/opt/環境"] (with_stdout cp1252 (plain_env "")) =
  Uncaught (PyExc UnicodeEncodeError "") /\
  process_trace ["/opt/環境"] (with_stdout cp1252 (plain_env "")) = [].
Proof. apply (process_path_unprintable _ _ "/opt/環境"); by vm_compute. Defined.

Lemma process_ends_with_status_witness :
  process ["/opt/env"] (plain_env "cd //?/C:/env") = Exit 0 \/
  process ["/opt/env"] (plain_env "cd //?/C:/env") = Exit 1 \/
  process ["/opt/env"] (plain_env "cd //?/C:/env") = Exit 2.
Proof.
  apply process_ends_with_status.
  - apply (bool_decide_unpack _). by vm_compute.
  - by vm_compute.
  - intros env_path [= <-]. by vm_compute.
Defined.
