(* ===== verification/Footprint.v ===== *)
(** * Footprint: what the program reads of the file system

    The checker asks the file system about three kinds of path and no
    other: the environment path, its [conda-meta] entry, and the files of
    [get_files_to_check].  This file makes that a theorem, in two layers.

    For every [FileSystem]: [footprint env_path] lists the paths, two file
    systems that answer alike on them ([agree_on]) give the same result
    and the same calls, and every call of a run names a path of the
    footprint.  File systems that answer alike on every path and have the
    same console are equivalent ([≡]); the results and the events of the
    checker and of [main] are [Proper] for that equivalence, and so is the
    checker as a computation on worlds.

    For the file system in memory: the answers for a path depend on the
    entries that resolving it looks up ([visited]), so the process ends
    the same way, after the same calls, on two file systems that share
    the working directory, the console, and the entries of
    [footprint_keys].  Adding, changing or removing any other entry
    changes nothing. *)

From Stdlib Require Import String.
From stdpp Require Import base tactics option list strings gmap.
From S2P Require Import Prelude PyStr Paths FileSys MemFS Scanner Checker.
From S2P Require Import ArgParse Main EndToEnd.

#[local] Set Warnings "-clear-no-such-hyp".

Section Footprint.
Context {PP : PurePath} {FS : FileSystem PP}.

(** ** Answering alike *)

(** The two file systems give the same answers for the path [p]. *)
Definition same_at (p : path) (s1 s2 : fs) : Prop :=
  fs_exists s1 p = fs_exists s2 p /\
  fs_is_dir s1 p = fs_is_dir s2 p /\
  fs_open s1 p = fs_open s2 p.

Definition agree_on (ps : list path) (s1 s2 : fs) : Prop :=
  Forall (fun p => same_at p s1 s2) ps.

(** The two consoles show the same lines. *)
Definition same_console (s1 s2 : fs) : Prop :=
  forall line, fs_stdout s1 line = fs_stdout s2 line.

(** The paths the check of [env_path] may ask about. *)
Definition footprint (env_path : string) : list path :=
  Path env_path :: Path env_path / "conda-meta" :: get_files_to_check (Path env_path).

(** The path a call names. *)
Definition event_path (ev : event) : option path :=
  match ev with
  | EvExists p | EvIsDir p | EvOpen p _ | EvRead p | EvClose p => Some p
  | EvPrint _ _ => None
  end.

Definition touched (tr : list event) : list path := omap event_path tr.

(** File systems that no call can tell apart. *)
#[global] Instance fs_equiv : Equiv fs :=
  fun s1 s2 => (forall p, same_at p s1 s2) /\ same_console s1 s2.

(** Worlds with such file systems, the same open files and the same
    past. *)
#[global] Instance world_equiv : Equiv (World FS) :=
  fun w1 w2 => w_fs w1 ≡ w_fs w2 /\ w_open w1 = w_open w2 /\ w_trace w1 = w_trace w2.

#[global] Instance same_at_equivalence (p : path) : Equivalence (same_at p).
Proof.
  unfold same_at. split.
  - done.
  - intros s1 s2 (? & ? & ?). split_and!; congruence.
  - intros s1 s2 s3 (? & ? & ?) (? & ? & ?). split_and!; congruence.
Qed.

#[global] Instance agree_on_equivalence (ps : list path) : Equivalence (agree_on ps).
Proof.
  unfold agree_on. split; repeat intro; rewrite Forall_forall in *; intros p Hp.
  - done.
  - symmetry. auto.
  - etrans; eauto.
Qed.

#[global] Instance same_console_equivalence : Equivalence same_console.
Proof. unfold same_console. split; repeat intro; congruence. Qed.

#[global] Instance fs_equiv_equivalence : Equivalence (≡@{fs}).
Proof.
  split.
  - done.
  - intros s1 s2 [H1 H2]. split; [intros p|]; by symmetry.
  - intros s1 s2 s3 [H1 H2] [H3 H4]. split; [intros p|]; etrans; eauto.
Qed.

#[global] Instance world_equiv_equivalence : Equivalence (≡@{World FS}).
Proof.
  split.
  - done.
  - intros w1 w2 (? & ? & ?). by split_and!.
  - intros w1 w2 w3 (? & ? & ?) (? & ? & ?). split_and!; [by etrans|congruence..].
Qed.

Lemma fs_equiv_agree (ps : list path) (s1 s2 : fs) : s1 ≡ s2 -> agree_on ps s1 s2.
Proof. intros [H _]. apply Forall_forall. auto. Qed.

Lemma agree_on_cons (p : path) (ps : list path) (s1 s2 : fs) :
  agree_on (p :: ps) s1 s2 <-> same_at p s1 s2 /\ agree_on ps s1 s2.
Proof. apply (Forall_cons (fun p => same_at p s1 s2)). Qed.

(** ** The scanner reads its file *)

Lemma file_issues_agree (p : path) (s1 s2 : fs) :
  same_at p s1 s2 -> file_issues s1 p = file_issues s2 p.
Proof. intros (He & _ & Ho). unfold file_issues, read_text. by rewrite He, Ho. Qed.

Lemma file_events_agree (p : path) (s1 s2 : fs) :
  same_at p s1 s2 -> file_events s1 p = file_events s2 p.
Proof. intros (He & _ & Ho). unfold file_events. by rewrite He, Ho. Qed.

Lemma touched_file_events (s : fs) (p : path) : touched (file_events s p) ⊆ [p].
Proof. unfold file_events. repeat case_match; set_solver. Qed.

(** ** The loop reads the files *)

Lemma files_issues_agree (files : list path) (acc : list string) (s1 s2 : fs) :
  agree_on files s1 s2 -> files_issues s1 files acc = files_issues s2 files acc.
Proof.
  intros H. revert acc. induction H as [|p files Hp _ IH]; intros acc; [done|].
  simpl. rewrite (file_issues_agree p s1 s2 Hp). by destruct (file_issues s2 p).
Qed.

Lemma files_events_agree (files : list path) (s1 s2 : fs) :
  agree_on files s1 s2 -> files_events s1 files = files_events s2 files.
Proof.
  induction 1 as [|p files Hp _ IH]; [done|]. simpl.
  by rewrite (file_issues_agree p s1 s2 Hp), (file_events_agree p s1 s2 Hp), IH.
Qed.

Lemma touched_app (tr1 tr2 : list event) : touched (tr1 ++ tr2) = touched tr1 ++ touched tr2.
Proof. apply omap_app. Qed.

Lemma touched_files_events (s : fs) (files : list path) :
  touched (files_events s files) ⊆ files.
Proof.
  induction files as [|p files IH]; [done|]. simpl. rewrite touched_app.
  pose proof (touched_file_events s p). destruct (file_issues s p); set_solver.
Qed.

(** ** The checker reads the footprint *)

Lemma validate_agree (env_path : string) (s1 s2 : fs) :
  same_at (Path env_path) s1 s2 -> same_at (Path env_path / "conda-meta") s1 s2 ->
  validate s1 env_path = validate s2 env_path.
Proof. intros (He & Hd & _) (Hm & _). unfold validate. by rewrite He, Hd, Hm. Qed.

Lemma validate_events_agree (env_path : string) (s1 s2 : fs) :
  same_at (Path env_path) s1 s2 ->
  validate_events s1 env_path = validate_events s2 env_path.
Proof. intros (He & Hd & _). unfold validate_events. by rewrite He, Hd. Qed.

Lemma touched_validate_events (s : fs) (env_path : string) :
  touched (validate_events s env_path) ⊆ [Path env_path; Path env_path / "conda-meta"].
Proof. unfold validate_events. repeat case_match; set_solver. Qed.

Lemma env_result_agree (env_path : string) (s1 s2 : fs) :
  agree_on (footprint env_path) s1 s2 -> env_result s1 env_path = env_result s2 env_path.
Proof.
  intros (He & Hm & Hf)%agree_on_cons%(and_iff_compat_l _ (agree_on_cons _ _ _ _)).
  unfold env_result.
  by rewrite (validate_agree _ _ _ He Hm), (files_issues_agree _ _ _ _ Hf).
Qed.

Lemma env_events_agree (env_path : string) (s1 s2 : fs) :
  agree_on (footprint env_path) s1 s2 -> env_events s1 env_path = env_events s2 env_path.
Proof.
  intros (He & Hm & Hf)%agree_on_cons%(and_iff_compat_l _ (agree_on_cons _ _ _ _)).
  unfold env_events.
  by rewrite (validate_agree _ _ _ He Hm), (validate_events_agree _ _ _ He),
    (files_events_agree _ _ _ Hf).
Qed.

Lemma touched_env_events (s : fs) (env_path : string) :
  touched (env_events s env_path) ⊆ footprint env_path.
Proof.
  unfold env_events, footprint. rewrite touched_app.
  pose proof (touched_validate_events s env_path).
  pose proof (touched_files_events s (get_files_to_check (Path env_path))).
  repeat case_match; set_solver.
Qed.

(** ** [main] reads the footprint and the console *)

Lemma main_result_agree (env_path : string) (s1 s2 : fs) :
  same_console s1 s2 -> agree_on (footprint env_path) s1 s2 ->
  main_result s1 env_path = main_result s2 env_path.
Proof.
  intros Hc Ha. unfold main_result, report_result.
  by rewrite !Hc, (env_result_agree _ _ _ Ha).
Qed.

Lemma main_events_agree (env_path : string) (s1 s2 : fs) :
  same_console s1 s2 -> agree_on (footprint env_path) s1 s2 ->
  main_events s1 env_path = main_events s2 env_path.
Proof.
  intros Hc Ha. unfold main_events, report_events.
  by rewrite !Hc, (env_result_agree _ _ _ Ha), (env_events_agree _ _ _ Ha).
Qed.

(** ** Equivalent file systems *)

#[global] Instance env_result_proper : Proper ((≡) ==> (=) ==> (=)) env_result.
Proof. intros s1 s2 Hs env_path ? <-. by apply env_result_agree, fs_equiv_agree. Qed.

#[global] Instance env_events_proper : Proper ((≡) ==> (=) ==> (=)) env_events.
Proof. intros s1 s2 Hs env_path ? <-. by apply env_events_agree, fs_equiv_agree. Qed.

#[global] Instance main_result_proper : Proper ((≡) ==> (=) ==> (=)) main_result.
Proof.
  intros s1 s2 Hs env_path ? <-. apply main_result_agree; [apply Hs|].
  by apply fs_equiv_agree.
Qed.

#[global] Instance main_events_proper : Proper ((≡) ==> (=) ==> (=)) main_events.
Proof.
  intros s1 s2 Hs env_path ? <-. apply main_events_agree; [apply Hs|].
  by apply fs_equiv_agree.
Qed.

#[global] Instance mkWorld_proper : Proper ((≡) ==> (=) ==> (=) ==> (≡)) mkWorld.
Proof. by intros s1 s2 Hs op ? <- tr ? <-. Qed.

#[global] Instance w_fs_proper : Proper ((≡) ==> (≡)) w_fs.
Proof. by intros w1 w2 [H _]. Qed.

(** The checker takes equivalent worlds to equal results and equivalent
    worlds. *)
#[global] Instance check_conda_environment_proper (env_path : string) :
  Proper ((≡) ==> prod_relation (=) (≡)) (check_conda_environment env_path).
Proof.
  intros w1 w2 Hw. rewrite !check_conda_environment_run.
  pose proof Hw as (Hs & Ho & Ht). split; simpl.
  - by rewrite Hs.
  - by rewrite Hs, Ho, Ht.
Qed.

(** ** The footprint of the checker *)

(** C20: the checker reads the footprint and nothing else.  On two file
    systems that answer alike for the environment path, its [conda-meta]
    entry and the files to check, it returns the same result, or raises
    the same exception, after the same calls; and every call it makes
    names one of these paths. *)
Theorem check_conda_environment_footprint (env_path : string) (w1 w2 : World FS) :
  agree_on (footprint env_path) (w_fs w1) (w_fs w2) ->
  (check_conda_environment env_path w1).1 = (check_conda_environment env_path w2).1 /\
  trace_since w1 (check_conda_environment env_path w1).2 =
  trace_since w2 (check_conda_environment env_path w2).2 /\
  touched (trace_since w1 (check_conda_environment env_path w1).2) ⊆ footprint env_path.
Proof.
  intros Ha. rewrite !check_conda_environment_run. cbn [fst snd].
  rewrite !trace_since_app. split_and!.
  - by apply env_result_agree.
  - by apply env_events_agree.
  - apply touched_env_events.
Qed.

End Footprint.

(** ** The file system in memory *)

(** The keys of the map that resolving [rest] from [cur] may look up. *)
Fixpoint visited (cur rest : list string) : list (list string) :=
  match rest with
  | [] => [cur]
  | name :: rest' =>
      cur :: visited (if decide (name = "..") then parent_of cur else cur ++ [name]) rest'
  end.

(** Those of [stat] on a path, with the working directory [cwd]. *)
Definition path_keys (cwd : list string) (p : posix_path) : list (list string) :=
  if bool_decide (pp_root p = "") then visited [] (cwd ++ pp_parts p)
  else visited [] (pp_parts p).

(** Those of a check of [env_path]. *)
Definition footprint_keys (cwd : list string) (env_path : string) : list (list string) :=
  concat (map (path_keys cwd) (footprint (PP := posix_PurePath) env_path)).

(** Two file systems with the same working directory, the same console
    and the same entries at the keys [ks]. *)
Definition same_entries (ks : list (list string)) (s1 s2 : memfs) : Prop :=
  m_cwd s1 = m_cwd s2 /\ m_stdout s1 = m_stdout s2 /\
  Forall (fun k => m_nodes s1 !! k = m_nodes s2 !! k) ks.

Lemma walk_agree (m1 m2 : gmap (list string) mnode) (cur rest : list string) :
  Forall (fun k => m1 !! k = m2 !! k) (visited cur rest) ->
  walk m1 cur rest = walk m2 cur rest.
Proof.
  revert cur. induction rest as [|name rest IH]; intros cur; simpl.
  - by intros [-> _]%Forall_cons.
  - intros [-> H]%Forall_cons. destruct (m2 !! cur) as [[[]|]|]; auto.
Qed.

Lemma stat_agree (s1 s2 : memfs) (p : posix_path) :
  m_cwd s1 = m_cwd s2 ->
  Forall (fun k => m_nodes s1 !! k = m_nodes s2 !! k) (path_keys (m_cwd s1) p) ->
  stat s1 p = stat s2 p.
Proof.
  unfold stat, path_keys. intros <- H. case_bool_decide; by apply walk_agree.
Qed.

(** The three calls are functions of [stat]. *)
Lemma mem_same_at (s1 s2 : memfs) (p : posix_path) :
  stat s1 p = stat s2 p -> same_at (FS := mem_FileSystem) p s1 s2.
Proof.
  intros H. unfold same_at. simpl. unfold mem_exists, mem_is_dir, mem_open.
  by rewrite H.
Qed.

Lemma mem_same_console (s1 s2 : memfs) :
  m_stdout s1 = m_stdout s2 -> same_console (FS := mem_FileSystem) s1 s2.
Proof. intros H line. simpl. unfold mem_stdout. by rewrite H. Qed.

Lemma same_entries_agree (s1 s2 : memfs) (ps : list posix_path) :
  same_entries (concat (map (path_keys (m_cwd s1)) ps)) s1 s2 ->
  agree_on (FS := mem_FileSystem) ps s1 s2.
Proof.
  intros (Hc & _ & H). induction ps as [|p ps IH]; [constructor|].
  simpl in H. apply Forall_app in H as [Hp H].
  constructor; [by apply mem_same_at, stat_agree|by apply IH].
Qed.

(** The process on two file systems that share the entries of the
    footprint. *)
Lemma process_same_entries (s1 s2 : memfs) (argv : list string) (env_path : string) :
  parse_known_args argv = Namespace env_path ->
  same_entries (footprint_keys (m_cwd s1) env_path) s1 s2 ->
  process argv s1 = process argv s2 /\ process_trace argv s1 = process_trace argv s2.
Proof.
  intros Hp H. pose proof (same_entries_agree _ _ _ H) as Ha.
  destruct H as (_ & Hc%mem_same_console & _).
  rewrite !process_run, !(process_trace_run _ _ _ Hp), Hp.
  by rewrite (main_result_agree _ _ _ Hc Ha), (main_events_agree _ _ _ Hc Ha).
Qed.

Lemma same_entries_insert (ks : list (list string)) (k : list string) (n : mnode)
    (s : memfs) :
  k ∉ ks -> same_entries ks (MemFS (<[k:=n]> (m_nodes s)) (m_cwd s) (m_stdout s)) s.
Proof.
  intros Hk. split_and!; [done..|]. apply Forall_forall. intros k' Hk'. simpl.
  apply lookup_insert_ne. by intros ->.
Qed.

Lemma same_entries_delete (ks : list (list string)) (k : list string) (s : memfs) :
  k ∉ ks -> same_entries ks (MemFS (delete k (m_nodes s)) (m_cwd s) (m_stdout s)) s.
Proof.
  intros Hk. split_and!; [done..|]. apply Forall_forall. intros k' Hk'. simpl.
  apply lookup_delete_ne. by intros ->.
Qed.

(** C19: the process reads the entries of the footprint and nothing else
    of the file system.  Started on a command line that names an
    environment, on two file systems with the same working directory, the
    same console and the same entries at the keys that resolving the
    environment path, its [conda-meta] entry and the hook script looks up,
    it ends the same way after the same calls and the same output. *)
Theorem process_footprint (s1 s2 : memfs) (argv : list string) (env_path : string) :
  parse_known_args argv = Namespace env_path ->
  same_entries (footprint_keys (m_cwd s1) env_path) s1 s2 ->
  process argv s1 = process argv s2 /\ process_trace argv s1 = process_trace argv s2.
Proof. apply process_same_entries. Qed.

(** The process cannot tell equivalent file systems apart. *)
#[global] Instance process_proper :
  Proper ((=) ==> equiv (A := @fs _ mem_FileSystem) ==> (=)) process.
Proof.
  intros argv ? <- s1 s2 Hs. rewrite !process_run.
  destruct (parse_known_args argv); [|done..]. by rewrite Hs.
Qed.

(** Creating, replacing or removing an entry outside the footprint
    changes nothing. *)
Corollary process_frame (s : memfs) (argv : list string) (env_path : string)
    (k : list string) (n : mnode) :
  parse_known_args argv = Namespace env_path ->
  k ∉ footprint_keys (m_cwd s) env_path ->
  process argv (MemFS (<[k:=n]> (m_nodes s)) (m_cwd s) (m_stdout s)) = process argv s /\
  process argv (MemFS (delete k (m_nodes s)) (m_cwd s) (m_stdout s)) = process argv s.
Proof.
  intros Hp Hk.
  split; eapply process_same_entries; eauto using same_entries_insert, same_entries_delete.
Qed.

(** ** Concrete runs *)

Lemma check_conda_environment_footprint_witness :
  (check_conda_environment "/opt/env" (mem_world (sample_env "cd //?/C:/env"))).1 =
  (check_conda_environment "/opt/env" (mem_world (plain_env "cd //?/C:/env"))).1 /\
  trace_since (mem_world (sample_env "cd //?/C:/env"))
    (check_conda_environment "/opt/env" (mem_world (sample_env "cd //?/C:/env"))).2 =
  trace_since (mem_world (plain_env "cd //?/C:/env"))
    (check_conda_environment "/opt/env" (mem_world (plain_env "cd //?/C:/env"))).2 /\
  touched (trace_since (mem_world (sample_env "cd //?/C:/env"))
    (check_conda_environment "/opt/env" (mem_world (sample_env "cd //?/C:/env"))).2)
  ⊆ footprint (PP := posix_PurePath) "/opt/env".
Proof.
  apply (check_conda_environment_footprint (PP := posix_PurePath)).
  repeat constructor.
Defined.

(** The keys of the footprint of [/opt/env]: the root, the directories on
    the way and the two entries asked about. *)
Example footprint_keys_sample :
  remove_dups (footprint_keys [] "/opt/env") =
  [["opt"; "env"; "conda-meta"]; [];  ["opt"]; ["opt"; "env"]; ["opt"; "env"; "shell"];
   ["opt"; "env"; "shell"; "condabin"];
   ["opt"; "env"; "shell"; "condabin"; "conda-hook.ps1"]].
Proof. vm_compute. reflexivity. Qed.

Lemma process_footprint_witness :
  process ["/opt/env"] (sample_env "cd //?/C:/env") =
  process ["/opt/env"] (plain_env "cd //?/C:/env") /\
  process_trace ["/opt/env"] (sample_env "cd //?/C:/env") =
  process_trace ["/opt/env"] (plain_env "cd //?/C:/env").
Proof.
  apply (process_footprint _ _ _ "/opt/env"); [reflexivity|].
  split_and!; [reflexivity..|]. vm_compute. repeat constructor.
Defined.
